(** * The dual-transport HTTP server of transport/http (http3.go)

    A shallow embedding of the [Server] type, its options, its listener and
    endpoint resolution, its lifecycle methods, the route walk and the
    per-request [filter] wrapper, with the parts of gorilla/mux that they
    run through (the walk of the route tree, the dispatch of a request),
    followed by the properties established on them.

    Conventions.  A Go pointer or interface that may be nil is an [option].
    A method on [*Server] is a computation in a state monad whose state holds
    the receiver and the trace of calls made on the operating system and on
    the two backend servers.  The results of those calls are read from an
    environment [Env]; every theorem holds for all environments.  Logging
    calls are left out. *)

From Stdlib Require Import String Ascii ZArith List Bool Lia DecimalString.
From ExtLib Require Import Structures.Monad Structures.MonadState.
From ExtLib Require Import Data.Monads.StateMonad.
Import ListNotations.
Import MonadNotation.

Local Open Scope string_scope.
Local Open Scope Z_scope.
Local Open Scope monad_scope.

Set Implicit Arguments.

(* ===================================================================== *)
(** ** Go values used by the package *)
(* ===================================================================== *)

(** Go [error] values.  A sentinel is a package-level variable (compared by
    identity), [errorString] is what [errors.New] builds and [wrapError]
    an error with an [Unwrap] method.  A nil [error] is [None]. *)
Inductive error : Type :=
| sentinel (name : string)
| errorString (s : string)
| wrapError (msg : string) (err : error).

Fixpoint error_eqb (a b : error) : bool :=
  match a, b with
  | sentinel x, sentinel y => String.eqb x y
  | errorString x, errorString y => String.eqb x y
  | wrapError m x, wrapError n y => String.eqb m n && error_eqb x y
  | _, _ => false
  end.

Module errors.

Definition New (text : string) : error := errorString text.

(** [errors.Is]: walks the [Unwrap] chain of [err] looking for [target]. *)
Fixpoint chain (err target : error) : bool :=
  error_eqb err target
  || match err with
     | wrapError _ inner => chain inner target
     | _ => false
     end.

Definition Is (err : option error) (target : error) : bool :=
  match err with
  | None => false
  | Some e => chain e target
  end.

End errors.

Module http.

(** [http.ErrServerClosed], returned by the serve calls after Shutdown
    or Close. *)
Definition ErrServerClosed : error := sentinel "http: Server closed".

(** Handlers are known by name; [DefaultServeMux] is the process-global
    multiplexer of net/http, [RedirectHandler url] what
    [http.RedirectHandler(url, http.StatusMovedPermanently)] returns. *)
Inductive Handler : Type :=
| DefaultServeMux
| HandlerFunc (name : string)
| NotFoundHandler
| methodNotAllowedHandler
| RedirectHandler (url : string).

End http.

(** [time.Duration] is a count of nanoseconds; [time.Time] is taken as
    nanoseconds since an epoch. *)
Definition Duration := Z.
Definition Time := Z.
Definition Second : Duration := 1000000000.

Record tls_Config : Type := { ServerName : string }.

(** [url.URL] of net/url, with the fields that [String] prints ([User] is
    the user information as it is printed, nil when there is none;
    [url_Path] is the field [Path]). *)
Record url_URL : Type :=
  { Scheme : string;
    Opaque : string;
    User : option string;
    Host : string;
    url_Path : string;
    RawQuery : string;
    Fragment : string }.

Inductive net_Addr : Type :=
| TCPAddr (IP : string) (Port : Z)
| UDPAddr (IP : string) (Port : Z)
| UnixAddr (Name : string).

(** [net.Listener], and [http3.QUICEarlyListener] of quic-go. *)
Record net_Listener : Type := { tcp_addr : net_Addr }.
Record QUICEarlyListener : Type := { quic_addr : net_Addr }.

(** The anonymous interface [interface { Addr() net.Addr }] that
    [handleEndpoint] accepts. *)
Class Addresser (L : Type) : Type := Addr : L -> net_Addr.

#[export] Instance net_Listener_Addresser : Addresser net_Listener := tcp_addr.
#[export] Instance QUICEarlyListener_Addresser : Addresser QUICEarlyListener :=
  quic_addr.

(* ===================================================================== *)
(** ** The router capability (gorilla/mux), as far as the package uses it *)
(* ===================================================================== *)

Module mux.

(** A registered route: its path template when it has a path matcher,
    its methods when it has a method matcher, its header pairs, its
    handler, and the routes of the sub-router hanging under it. *)
#[warnings="-register-all"] Inductive Route : Type :=
  mkRoute {
      pathTemplate : option string;
      isPrefix : bool;
      methods : option (list string);
      headers : list (string * string);
      handler : option http.Handler;
      subroutes : list Route
    }.

(** The middleware the server installs with [Use]: its own [filter]. *)
Inductive MiddlewareFunc : Type := ServerFilter.

Record Router : Type :=
  mkRouter {
      prefix : option string;
      strictSlash : bool;
      routes : list Route;
      NotFoundHandler : option http.Handler;
      MethodNotAllowedHandler : option http.Handler;
      middlewares : list MiddlewareFunc
    }.

Definition NewRouter : Router :=
  {| prefix := None; strictSlash := false; routes := [];
     NotFoundHandler := None; MethodNotAllowedHandler := None;
     middlewares := [] |}.

Definition ErrNoMethods : error := errors.New "mux: route doesn't have methods".
Definition ErrNoPath : error := errors.New "mux: route doesn't have a path".

(** [mux.SkipRouter]: the value a walk function returns to have [Walk] pass
    over the sub-router of the route it was called on.  [Walk] compares
    with [==], so only this very variable counts. *)
Definition SkipRouter : error := sentinel "skip this router".

Definition GetMethods (r : Route) : list string * option error :=
  match methods r with
  | Some ms => (ms, None)
  | None => ([], Some ErrNoMethods)
  end.

Definition GetPathTemplate (r : Route) : string * option error :=
  match pathTemplate r with
  | Some tpl => (tpl, None)
  | None => ("", Some ErrNoPath)
  end.

(** Field updates of the router. *)
Definition SetStrictSlash (value : bool) (r : Router) : Router :=
  {| prefix := prefix r; strictSlash := value; routes := routes r;
     NotFoundHandler := NotFoundHandler r;
     MethodNotAllowedHandler := MethodNotAllowedHandler r;
     middlewares := middlewares r |}.

Definition SetNotFoundHandler (h : option http.Handler) (r : Router) : Router :=
  {| prefix := prefix r; strictSlash := strictSlash r; routes := routes r;
     NotFoundHandler := h;
     MethodNotAllowedHandler := MethodNotAllowedHandler r;
     middlewares := middlewares r |}.

Definition SetMethodNotAllowedHandler (h : option http.Handler) (r : Router)
  : Router :=
  {| prefix := prefix r; strictSlash := strictSlash r; routes := routes r;
     NotFoundHandler := NotFoundHandler r;
     MethodNotAllowedHandler := h;
     middlewares := middlewares r |}.

Definition Use (mw : MiddlewareFunc) (r : Router) : Router :=
  {| prefix := prefix r; strictSlash := strictSlash r; routes := routes r;
     NotFoundHandler := NotFoundHandler r;
     MethodNotAllowedHandler := MethodNotAllowedHandler r;
     middlewares := (middlewares r ++ [mw])%list |}.

Definition addRoute (rt : Route) (r : Router) : Router :=
  {| prefix := prefix r; strictSlash := strictSlash r;
     routes := (routes r ++ [rt])%list;
     NotFoundHandler := NotFoundHandler r;
     MethodNotAllowedHandler := MethodNotAllowedHandler r;
     middlewares := middlewares r |}.

(** The template of a path registered on [r]: the router's inherited
    prefix followed by the path. *)
Definition template (r : Router) (path : string) : string :=
  match prefix r with
  | Some p => p ++ path
  | None => path
  end.

(** [r.PathPrefix(tpl).Subrouter()]: a fresh router that inherits the
    route configuration (prefix, strict slash) and nothing else. *)
Definition PathPrefixSubrouter (tpl : string) (r : Router) : Router :=
  {| prefix := Some (template r tpl); strictSlash := strictSlash r;
     routes := []; NotFoundHandler := None;
     MethodNotAllowedHandler := None; middlewares := [] |}.

(** [r.Handle(path, h)], [r.PathPrefix(tpl).Handler(h)] and
    [r.Headers(key, val).Handler(h)]. *)
Definition Handle (path : string) (h : http.Handler) (r : Router) : Router :=
  addRoute {| pathTemplate := Some (template r path); isPrefix := false;
              methods := None; headers := []; handler := Some h;
              subroutes := [] |} r.

Definition PathPrefixHandler (tpl : string) (h : http.Handler) (r : Router)
  : Router :=
  addRoute {| pathTemplate := Some (template r tpl); isPrefix := true;
              methods := None; headers := []; handler := Some h;
              subroutes := [] |} r.

Definition HeadersHandler (key val : string) (h : http.Handler) (r : Router)
  : Router :=
  addRoute {| pathTemplate := prefix r; isPrefix := true;
              methods := None; headers := [(key, val)]; handler := Some h;
              subroutes := [] |} r.

(** The routes of a tree in pre-order: each route, then the routes of its
    sub-router, then the routes that follow it. *)
Fixpoint walkRoute (r : Route) : list Route :=
  r :: flat_map walkRoute (subroutes r).

Definition walkOrder (rs : list Route) : list Route :=
  flat_map walkRoute rs.

End mux.

(* ===================================================================== *)
(** ** Contexts, requests and the transport value *)
(* ===================================================================== *)

Definition Header := list (string * list string).

Inductive ctxKey : Type :=
| routeKey              (* mux: the matched route *)
| varsKey               (* mux: the variables of the match *)
| serverTransportKey    (* transport: the server-side Transporter *)
| userKey (name : string).

(** [context.Context] values as the chain of derivations that built them,
    together with [*http.Request] and the package's [Transport].  [VNil] is
    a nil pointer or a nil map stored as a value.

    In Go the field [request] of a [Transport] that the wrapper has
    attached to a context points to the derived request, whose context
    holds that very [Transport]: a cycle through two pointers.  The value
    breaks the cycle at the context: the last argument of [mkTransport] is
    the derived request with the context the [Transport] was attached to,
    and [Transport_request], below, puts the [Transport] back on top. *)
Inductive Context : Type :=
| Background
| WithCancel (parent : Context)
| WithDeadline (parent : Context) (d : Time)
| WithValue (parent : Context) (key : ctxKey) (val : Value)
with Value : Type :=
| VRoute (r : mux.Route)
| VVars (vars : list (string * string))
| VNil
| VTransport (tr : Transport)
| VString (v : string)
with Transport : Type :=
| mkTransport (endpoint operation pathTemplate : string)
              (reqHeader replyHeader : Header) (below : Request)
with Request : Type :=
| mkRequest (Method URL_Path : string) (Header_ : Header) (ctx : Context).

Record ResponseWriter : Type := { rw_Header : Header }.

Definition ctxKey_eqb (a b : ctxKey) : bool :=
  match a, b with
  | routeKey, routeKey => true
  | varsKey, varsKey => true
  | serverTransportKey, serverTransportKey => true
  | userKey x, userKey y => String.eqb x y
  | _, _ => false
  end.

Module context.

(** [ctx.Value(key)]: the innermost value stored under [key]. *)
Fixpoint lookup (c : Context) (key : ctxKey) : option Value :=
  match c with
  | Background => None
  | WithCancel p => lookup p key
  | WithDeadline p _ => lookup p key
  | WithValue p k v => if ctxKey_eqb k key then Some v else lookup p key
  end.

(** [ctx.Deadline()]: the earliest deadline on the chain. *)
Fixpoint Deadline (c : Context) : option Time :=
  match c with
  | Background => None
  | WithCancel p => Deadline p
  | WithDeadline p d =>
      match Deadline p with
      | Some d' => Some (Z.min d d')
      | None => Some d
      end
  | WithValue p _ _ => Deadline p
  end.

(** [context.WithTimeout(parent, timeout)] called at time [now]. *)
Definition WithTimeout (parent : Context) (now : Time) (timeout : Duration)
  : Context :=
  WithDeadline parent (now + timeout).

(** The context a derived context was built from, below the values
    attached on top of it. *)
Fixpoint cancelScope (c : Context) : Context :=
  match c with
  | WithValue p _ _ => cancelScope p
  | _ => c
  end.

End context.

Definition Request_Context (r : Request) : Context :=
  match r with mkRequest _ _ _ c => c end.

Definition Request_Path (r : Request) : string :=
  match r with mkRequest _ p _ _ => p end.

Definition Request_Header (r : Request) : Header :=
  match r with mkRequest _ _ h _ => h end.

Definition Request_WithContext (r : Request) (c : Context) : Request :=
  match r with mkRequest m p h _ => mkRequest m p h c end.

Definition Transport_operation (tr : Transport) : string :=
  match tr with mkTransport _ op _ _ _ _ => op end.

Definition Transport_pathTemplate (tr : Transport) : string :=
  match tr with mkTransport _ _ tpl _ _ _ => tpl end.

Definition Transport_endpoint (tr : Transport) : string :=
  match tr with mkTransport e _ _ _ _ _ => e end.

(** [mux.CurrentRoute(req)]: the route the router stored in the request's
    context when it matched one. *)
Definition mux_CurrentRoute (req : Request) : option mux.Route :=
  match context.lookup (Request_Context req) routeKey with
  | Some (VRoute r) => Some r
  | _ => None
  end.

Module transport.

(** Modelled from the spec: transport.NewServerContext and
    transport.FromServerContext, of the repository's transport package,
    whose source is not at hand.  The spec has the Transport Context
    attached to the derived context and reachable by downstream handlers
    through a context lookup. *)
Definition NewServerContext (c : Context) (tr : Transport) : Context :=
  WithValue c serverTransportKey (VTransport tr).

Definition FromServerContext (c : Context) : option Transport :=
  match context.lookup c serverTransportKey with
  | Some (VTransport tr) => Some tr
  | _ => None
  end.

End transport.

(** [tr.request], once the wrapper has attached [tr]: the derived request,
    with [tr] in its context. *)
Definition Transport_request (tr : Transport) : Request :=
  match tr with
  | mkTransport _ _ _ _ _ r =>
      Request_WithContext r
        (transport.NewServerContext (Request_Context r) tr)
  end.

Definition Request_Method (r : Request) : string :=
  match r with mkRequest m _ _ _ => m end.

(* ===================================================================== *)
(** ** The Server and its options *)
(* ===================================================================== *)

Inductive FilterFunc : Type := namedFilter (name : string).
Inductive Middleware_ : Type := namedMiddleware (name : string).

(** [matcher.Matcher] is kept as the record of the calls made on it. *)
Record Matcher : Type :=
  { used : list (list Middleware_);
    added : list (string * list Middleware_) }.

Definition matcher_New : Matcher := {| used := []; added := [] |}.

Inductive DecodeRequestFunc : Type :=
| DefaultRequestVars | DefaultRequestQuery | DefaultRequestDecoder
| decodeFunc (name : string).
Inductive EncodeResponseFunc : Type :=
| DefaultResponseEncoder | encodeFunc (name : string).
Inductive EncodeErrorFunc : Type :=
| DefaultErrorEncoder | encodeErrorFunc (name : string).

(** [FilterChain(filters...)(srv.router)]: the handler both backends are
    given, over the router that the server holds when [NewServer] returns.
    No method assigns [s.router] afterwards, so that router stays the
    server's (routes are added to it in place); only the option
    [PathPrefix], applied after construction, would part the two. *)
Inductive rootHandler : Type := FilterChain (filters : list FilterFunc).

(** [http.Server] and [http3.Server], with the fields the package sets. *)
Record http_Server : Type :=
  { hs_TLSConfig : option tls_Config;
    hs_Handler : rootHandler;
    hs_BaseContext : option Context }.

Record http3_Server : Type :=
  { h3_TLSConfig : option tls_Config;
    h3_Handler : rootHandler }.

Record Server : Type :=
  mkServer {
      httpsrv : option http_Server;
      lis : option net_Listener;
      tlsConf : option tls_Config;
      endpoint : option url_URL;
      err : option error;
      network : string;
      address : string;
      timeout : Duration;
      filters : list FilterFunc;
      middleware : Matcher;
      decVars : DecodeRequestFunc;
      decQuery : DecodeRequestFunc;
      decBody : DecodeRequestFunc;
      enc : EncodeResponseFunc;
      ene : EncodeErrorFunc;
      strictSlash : bool;
      router : mux.Router;
      enableHttp3 : bool;
      http3Lis : option QUICEarlyListener;
      http3srv : option http3_Server
    }.

(** Assignments to the fields written after construction. *)
Definition set_httpsrv (v : option http_Server) (s : Server) : Server :=
  mkServer v (lis s) (tlsConf s) (endpoint s) (err s) (network s) (address s)
    (timeout s) (filters s) (middleware s) (decVars s) (decQuery s) (decBody s)
    (enc s) (ene s) (strictSlash s) (router s) (enableHttp3 s) (http3Lis s)
    (http3srv s).

Definition set_lis (v : option net_Listener) (s : Server) : Server :=
  mkServer (httpsrv s) v (tlsConf s) (endpoint s) (err s) (network s)
    (address s) (timeout s) (filters s) (middleware s) (decVars s) (decQuery s)
    (decBody s) (enc s) (ene s) (strictSlash s) (router s) (enableHttp3 s)
    (http3Lis s) (http3srv s).

Definition set_endpoint (v : option url_URL) (s : Server) : Server :=
  mkServer (httpsrv s) (lis s) (tlsConf s) v (err s) (network s) (address s)
    (timeout s) (filters s) (middleware s) (decVars s) (decQuery s) (decBody s)
    (enc s) (ene s) (strictSlash s) (router s) (enableHttp3 s) (http3Lis s)
    (http3srv s).

Definition set_err (v : option error) (s : Server) : Server :=
  mkServer (httpsrv s) (lis s) (tlsConf s) (endpoint s) v (network s)
    (address s) (timeout s) (filters s) (middleware s) (decVars s) (decQuery s)
    (decBody s) (enc s) (ene s) (strictSlash s) (router s) (enableHttp3 s)
    (http3Lis s) (http3srv s).

Definition set_middleware (v : Matcher) (s : Server) : Server :=
  mkServer (httpsrv s) (lis s) (tlsConf s) (endpoint s) (err s) (network s)
    (address s) (timeout s) (filters s) v (decVars s) (decQuery s) (decBody s)
    (enc s) (ene s) (strictSlash s) (router s) (enableHttp3 s) (http3Lis s)
    (http3srv s).

Definition set_router (v : mux.Router) (s : Server) : Server :=
  mkServer (httpsrv s) (lis s) (tlsConf s) (endpoint s) (err s) (network s)
    (address s) (timeout s) (filters s) (middleware s) (decVars s) (decQuery s)
    (decBody s) (enc s) (ene s) (strictSlash s) v (enableHttp3 s) (http3Lis s)
    (http3srv s).

Definition set_http3Lis (v : option QUICEarlyListener) (s : Server) : Server :=
  mkServer (httpsrv s) (lis s) (tlsConf s) (endpoint s) (err s) (network s)
    (address s) (timeout s) (filters s) (middleware s) (decVars s) (decQuery s)
    (decBody s) (enc s) (ene s) (strictSlash s) (router s) (enableHttp3 s) v
    (http3srv s).

Definition set_http3srv (v : option http3_Server) (s : Server) : Server :=
  mkServer (httpsrv s) (lis s) (tlsConf s) (endpoint s) (err s) (network s)
    (address s) (timeout s) (filters s) (middleware s) (decVars s) (decQuery s)
    (decBody s) (enc s) (ene s) (strictSlash s) (router s) (enableHttp3 s)
    (http3Lis s) v.

(** The options of the package.  A [ServerOption] is a function on the
    server pointer; the fields of [Server] are unexported, so these
    constructors are all the options that can touch them.  Being exported
    functions, they can be applied to a server at any time, not only by
    [NewServer]. *)
Inductive ServerOption : Type :=
| EnableHTTP3
| HTTP3Listener (l : option QUICEarlyListener)
| Network (network : string)
| Address (addr : string)
| Endpoint (endpoint : option url_URL)
| Timeout (timeout : Duration)
| Logger
| Middleware (m : list Middleware_)
| Filter (filters : list FilterFunc)
| RequestVarsDecoder (dec : DecodeRequestFunc)
| RequestQueryDecoder (dec : DecodeRequestFunc)
| RequestDecoder (dec : DecodeRequestFunc)
| ResponseEncoder (en : EncodeResponseFunc)
| ErrorEncoder (en : EncodeErrorFunc)
| TLSConfig (c : option tls_Config)
| StrictSlash (strictSlash : bool)
| Listener (l : option net_Listener)
| PathPrefix (prefix : string).

(** The body of each option. *)
Definition applyOption (o : ServerOption) (s : Server) : Server :=
  match o with
  | EnableHTTP3 =>
      mkServer (httpsrv s) (lis s) (tlsConf s) (endpoint s) (err s) (network s)
        (address s) (timeout s) (filters s) (middleware s) (decVars s)
        (decQuery s) (decBody s) (enc s) (ene s) (strictSlash s) (router s)
        true (http3Lis s) (http3srv s)
  | HTTP3Listener l => set_http3Lis l s
  | Network n =>
      mkServer (httpsrv s) (lis s) (tlsConf s) (endpoint s) (err s) n
        (address s) (timeout s) (filters s) (middleware s) (decVars s)
        (decQuery s) (decBody s) (enc s) (ene s) (strictSlash s) (router s)
        (enableHttp3 s) (http3Lis s) (http3srv s)
  | Address a =>
      mkServer (httpsrv s) (lis s) (tlsConf s) (endpoint s) (err s) (network s)
        a (timeout s) (filters s) (middleware s) (decVars s)
        (decQuery s) (decBody s) (enc s) (ene s) (strictSlash s) (router s)
        (enableHttp3 s) (http3Lis s) (http3srv s)
  | Endpoint e => set_endpoint e s
  | Timeout t =>
      mkServer (httpsrv s) (lis s) (tlsConf s) (endpoint s) (err s) (network s)
        (address s) t (filters s) (middleware s) (decVars s)
        (decQuery s) (decBody s) (enc s) (ene s) (strictSlash s) (router s)
        (enableHttp3 s) (http3Lis s) (http3srv s)
  | Logger => s
  | Middleware m =>
      set_middleware {| used := (used (middleware s) ++ [m])%list;
                        added := added (middleware s) |} s
  | Filter fs =>
      mkServer (httpsrv s) (lis s) (tlsConf s) (endpoint s) (err s) (network s)
        (address s) (timeout s) fs (middleware s) (decVars s)
        (decQuery s) (decBody s) (enc s) (ene s) (strictSlash s) (router s)
        (enableHttp3 s) (http3Lis s) (http3srv s)
  | RequestVarsDecoder d =>
      mkServer (httpsrv s) (lis s) (tlsConf s) (endpoint s) (err s) (network s)
        (address s) (timeout s) (filters s) (middleware s) d
        (decQuery s) (decBody s) (enc s) (ene s) (strictSlash s) (router s)
        (enableHttp3 s) (http3Lis s) (http3srv s)
  | RequestQueryDecoder d =>
      mkServer (httpsrv s) (lis s) (tlsConf s) (endpoint s) (err s) (network s)
        (address s) (timeout s) (filters s) (middleware s) (decVars s)
        d (decBody s) (enc s) (ene s) (strictSlash s) (router s)
        (enableHttp3 s) (http3Lis s) (http3srv s)
  | RequestDecoder d =>
      mkServer (httpsrv s) (lis s) (tlsConf s) (endpoint s) (err s) (network s)
        (address s) (timeout s) (filters s) (middleware s) (decVars s)
        (decQuery s) d (enc s) (ene s) (strictSlash s) (router s)
        (enableHttp3 s) (http3Lis s) (http3srv s)
  | ResponseEncoder e =>
      mkServer (httpsrv s) (lis s) (tlsConf s) (endpoint s) (err s) (network s)
        (address s) (timeout s) (filters s) (middleware s) (decVars s)
        (decQuery s) (decBody s) e (ene s) (strictSlash s) (router s)
        (enableHttp3 s) (http3Lis s) (http3srv s)
  | ErrorEncoder e =>
      mkServer (httpsrv s) (lis s) (tlsConf s) (endpoint s) (err s) (network s)
        (address s) (timeout s) (filters s) (middleware s) (decVars s)
        (decQuery s) (decBody s) (enc s) e (strictSlash s) (router s)
        (enableHttp3 s) (http3Lis s) (http3srv s)
  | TLSConfig c =>
      mkServer (httpsrv s) (lis s) c (endpoint s) (err s) (network s)
        (address s) (timeout s) (filters s) (middleware s) (decVars s)
        (decQuery s) (decBody s) (enc s) (ene s) (strictSlash s) (router s)
        (enableHttp3 s) (http3Lis s) (http3srv s)
  | StrictSlash b =>
      mkServer (httpsrv s) (lis s) (tlsConf s) (endpoint s) (err s) (network s)
        (address s) (timeout s) (filters s) (middleware s) (decVars s)
        (decQuery s) (decBody s) (enc s) (ene s) b (router s)
        (enableHttp3 s) (http3Lis s) (http3srv s)
  | Listener l => set_lis l s
  | PathPrefix p => set_router (mux.PathPrefixSubrouter p (router s)) s
  end.

(** [NewServer(opts...)]. *)
Definition NewServer (opts : list ServerOption) : Server :=
  let srv :=
    {| httpsrv := None; lis := None; tlsConf := None; endpoint := None;
       err := None;
       enableHttp3 := false;
       network := "tcp";
       address := ":0";
       timeout := 1 * Second;
       middleware := matcher_New;
       decVars := DefaultRequestVars;
       decQuery := DefaultRequestQuery;
       decBody := DefaultRequestDecoder;
       enc := DefaultResponseEncoder;
       ene := DefaultErrorEncoder;
       strictSlash := true;
       router := mux.NewRouter;
       filters := []; http3Lis := None; http3srv := None |} in
  let srv := fold_left (fun s o => applyOption o s) opts srv in
  let srv := set_router (mux.SetStrictSlash (strictSlash srv) (router srv)) srv in
  let srv :=
    set_router (mux.SetNotFoundHandler (Some http.DefaultServeMux) (router srv))
      srv in
  let srv :=
    set_router
      (mux.SetMethodNotAllowedHandler (Some http.DefaultServeMux) (router srv))
      srv in
  let srv := set_router (mux.Use mux.ServerFilter (router srv)) srv in
  let hdlr := FilterChain (filters srv) in
  if enableHttp3 srv then
    set_http3srv (Some {| h3_TLSConfig := tlsConf srv; h3_Handler := hdlr |}) srv
  else
    set_httpsrv (Some {| hs_TLSConfig := tlsConf srv; hs_Handler := hdlr;
                         hs_BaseContext := None |}) srv.

(** Modelled from the spec: endpoint.Scheme and endpoint.NewEndpoint, of the
    repository's internal/endpoint package, whose source is not at hand.  The
    spec combines the host:port "with scheme https (TLS configured) or http
    (not configured) into the Endpoint", a URL of the form scheme://host:port. *)
Definition endpoint_Scheme (scheme : string) (isSecure : bool) : string :=
  if isSecure then scheme ++ "s" else scheme.

Definition endpoint_NewEndpoint (scheme host : string) : url_URL :=
  {| Scheme := scheme; Opaque := ""; User := None; Host := host;
     url_Path := ""; RawQuery := ""; Fragment := "" |}.

Definition isSome {A : Type} (o : option A) : bool :=
  match o with Some _ => true | None => false end.

(* ===================================================================== *)
(** ** The outside world *)
(* ===================================================================== *)

(** Calls that leave the package. *)
Inductive Event : Type :=
| EvListen (network address : string)
| EvListenAddrEarly (address : string) (tlsConf : option tls_Config)
| EvServe (l : net_Listener)
| EvServeTLS (l : net_Listener)
| EvServeListener (l : QUICEarlyListener)
| EvShutdown (ctx : Context)
| EvClose.

Definition isBind (e : Event) : bool :=
  match e with
  | EvListen _ _ | EvListenAddrEarly _ _ => true
  | _ => false
  end.

Definition isServe (e : Event) : bool :=
  match e with
  | EvServe _ | EvServeTLS _ | EvServeListener _ => true
  | _ => false
  end.

(** What those calls answer, given the calls made before them.
    [quic_ListenAddrEarly] receives the server's TLS configuration, which the
    code wraps with [http3.ConfigureTLSConfig] on the way.  [host_Extract]
    is the repository's internal/host helper, whose source is not at hand:
    it is given the configured address and the [Addr()] of the listener it
    is passed, or [None] for a nil listener, and is taken to be a function
    of the two.  [url_String] is the method [String] of net/url, with its
    escaping rules. *)
Record Env : Type :=
  { net_Listen : list Event -> string -> string -> net_Listener + error;
    quic_ListenAddrEarly :
      list Event -> string -> option tls_Config -> QUICEarlyListener + error;
    host_Extract : string -> option net_Addr -> string + error;
    url_String : url_URL -> string;
    http_Serve : list Event -> net_Listener -> option error;
    http_ServeTLS : list Event -> net_Listener -> option error;
    http3_ServeListener : list Event -> QUICEarlyListener -> option error;
    http_Shutdown : list Event -> Context -> option error;
    http3_Close : list Event -> option error }.

(** The receiver of a method call and the calls made so far. *)
Record St : Type := { srv : Server; trace : list Event }.

(** The result of a method that can run into a nil pointer. *)
Inductive Res (A : Type) : Type :=
| Done (a : A)
| Panic (msg : string).
Arguments Panic {A} msg.

Definition nilDeref : string :=
  "runtime error: invalid memory address or nil pointer dereference".

(** The error of [startHTTP3] when no TLS configuration is set. *)
Definition ErrTLSRequired : error := errors.New "[HTTP3], TLS is required".

(* ===================================================================== *)
(** ** Methods of the Server *)
(* ===================================================================== *)

Module Srv.
Section Methods.

Variable env : Env.

Definition M : Type -> Type := state St.

Definition self : M Server := st <- get ;; ret (srv st).

Definition update (f : Server -> Server) : M unit :=
  st <- get ;; put {| srv := f (srv st); trace := trace st |}.

Definition call {A : Type} (e : Event) (answer : list Event -> A) : M A :=
  st <- get ;;
  put {| srv := srv st; trace := (trace st ++ [e])%list |} ;;
  ret (answer (trace st)).

Definition handleEndpoint {L : Type} `{Addresser L} (ln : option L)
  : M (option error) :=
  s <- self ;;
  match endpoint s with
  | None =>
      match host_Extract env (address s) (option_map Addr ln) with
      | inr e =>
          update (set_err (Some e)) ;;
          ret (Some e)
      | inl addr =>
          update (set_endpoint
                    (Some (endpoint_NewEndpoint
                             (endpoint_Scheme "http" (isSome (tlsConf s)))
                             addr))) ;;
          ret None
      end
  | Some _ => ret None
  end.

(** The first statement of [listenAndEndpoint]: bind the listener of the
    active mode when there is none.  [Some e] stands for the early
    [return err]. *)
Definition bindListener : M (option error) :=
  s <- self ;;
  if enableHttp3 s then
    match http3Lis s with
    | None =>
        r <- call (EvListenAddrEarly (address s) (tlsConf s))
               (fun h => quic_ListenAddrEarly env h (address s) (tlsConf s)) ;;
        match r with
        | inr e => update (set_err (Some e)) ;; ret (Some e)
        | inl l => update (set_http3Lis (Some l)) ;; ret None
        end
    | Some _ => ret None
    end
  else
    match lis s with
    | None =>
        r <- call (EvListen (network s) (address s))
               (fun h => net_Listen env h (network s) (address s)) ;;
        match r with
        | inr e => update (set_err (Some e)) ;; ret (Some e)
        | inl l => update (set_lis (Some l)) ;; ret None
        end
    | Some _ => ret None
    end.

Definition listenAndEndpoint : M (option error) :=
  b <- bindListener ;;
  match b with
  | Some e => ret (Some e)
  | None =>
      s <- self ;;
      r <- handleEndpoint (http3Lis s) ;;
      match r with
      | Some e => ret (Some e)
      | None => s' <- self ;; ret (err s')
      end
  end.

Definition Endpoint : M (option url_URL * option error) :=
  r <- listenAndEndpoint ;;
  match r with
  | Some e => ret (None, Some e)
  | None => s <- self ;; ret (endpoint s, None)
  end.

Definition startHTTP (ctx : Context) : M (Res (option error)) :=
  r <- listenAndEndpoint ;;
  match r with
  | Some e => ret (Done (Some e))
  | None =>
      s <- self ;;
      match httpsrv s with
      | None => ret (Panic nilDeref)
      | Some hs =>
          update (set_httpsrv
                    (Some {| hs_TLSConfig := hs_TLSConfig hs;
                             hs_Handler := hs_Handler hs;
                             hs_BaseContext := Some ctx |})) ;;
          match lis s with
          | None => ret (Panic nilDeref)
          | Some l =>
              if isSome (tlsConf s) then
                e <- call (EvServeTLS l) (fun h => http_ServeTLS env h l) ;;
                ret (Done e)
              else
                e <- call (EvServe l) (fun h => http_Serve env h l) ;;
                ret (Done e)
          end
      end
  end.

Definition startHTTP3 (ctx : Context) : M (Res (option error)) :=
  r <- listenAndEndpoint ;;
  match r with
  | Some e => ret (Done (Some e))
  | None =>
      s <- self ;;
      match tlsConf s with
      | None => ret (Done (Some ErrTLSRequired))
      | Some _ =>
          match http3Lis s, http3srv s with
          | Some l, Some _ =>
              e <- call (EvServeListener l)
                     (fun h => http3_ServeListener env h l) ;;
              ret (Done e)
          | _, _ => ret (Panic nilDeref)
          end
      end
  end.

Definition Start (ctx : Context) : M (Res (option error)) :=
  s <- self ;;
  r <- (if enableHttp3 s then startHTTP3 ctx else startHTTP ctx) ;;
  match r with
  | Panic m => ret (Panic m)
  | Done e =>
      if negb (errors.Is e http.ErrServerClosed) then ret (Done e)
      else ret (Done None)
  end.

Definition Stop (ctx : Context) : M (Res (option error)) :=
  s <- self ;;
  if enableHttp3 s then
    match http3srv s with
    | None => ret (Panic nilDeref)
    | Some _ => e <- call EvClose (http3_Close env) ;; ret (Done e)
    end
  else
    match httpsrv s with
    | None => ret (Panic nilDeref)
    | Some _ =>
        e <- call (EvShutdown ctx) (fun h => http_Shutdown env h ctx) ;;
        ret (Done e)
    end.

(** [ServeHTTP] hands the writer and the request to the handler of the
    active backend; the result names that handler and what it is given. *)
Definition ServeHTTP (res : ResponseWriter) (req : Request)
  : M (Res (rootHandler * ResponseWriter * Request)) :=
  s <- self ;;
  if enableHttp3 s then
    match http3srv s with
    | None => ret (Panic nilDeref)
    | Some b => ret (Done (h3_Handler b, res, req))
    end
  else
    match httpsrv s with
    | None => ret (Panic nilDeref)
    | Some b => ret (Done (hs_Handler b, res, req))
    end.

(** Route registration. *)
Definition Use (selector : string) (m : list Middleware_) : M unit :=
  update (fun s =>
            set_middleware
              {| used := used (middleware s);
                 added := (added (middleware s) ++ [(selector, m)])%list |} s).

Definition Handle (path : string) (h : http.Handler) : M unit :=
  update (fun s => set_router (mux.Handle path h (router s)) s).

Definition HandlePrefix (prefix : string) (h : http.Handler) : M unit :=
  update (fun s => set_router (mux.PathPrefixHandler prefix h (router s)) s).

Definition HandleFunc (path : string) (h : http.Handler) : M unit :=
  update (fun s => set_router (mux.Handle path h (router s)) s).

Definition HandleHeader (key val : string) (h : http.Handler) : M unit :=
  update (fun s => set_router (mux.HeadersHandler key val h (router s)) s).

End Methods.
End Srv.

(* ===================================================================== *)
(** ** Walking the routes *)
(* ===================================================================== *)

Record RouteInfo : Type := { Path : string; Method : string }.

Section RouteWalk.

(** The state the walk callback works on (a Go closure's variables). *)
Variable T : Type.

Definition WalkFunc : Type := mux.Route -> state T (option error).
Definition WalkRouteFunc : Type := RouteInfo -> state T (option error).

Section Loop.

(** The loop [for _, t := range r.routes] of [Router.walk]: [body t] is one
    turn, and [Some e] its [return e]. *)
Variable body : mux.Route -> state T (option error).

Fixpoint forEachRoute (rs : list mux.Route) : state T (option error) :=
  match rs with
  | [] => ret None
  | t :: rest =>
      e <- body t ;;
      match e with
      | Some x => ret (Some x)
      | None => forEachRoute rest
      end
  end.

End Loop.

(** One turn of that loop, for the route [t]: [walkFn] is called on [t];
    when it returns [mux.SkipRouter] the loop goes on with the next route
    ([continue]), any other error is returned, and after nil the routes of
    the sub-router of [t] are walked, an error among them being
    returned. *)
Fixpoint mux_walkRoute (walkFn : WalkFunc) (t : mux.Route)
  : state T (option error) :=
  err <- walkFn t ;;
  match err with
  | Some e =>
      if error_eqb e mux.SkipRouter then ret None else ret (Some e)
  | None => forEachRoute (mux_walkRoute walkFn) (mux.subroutes t)
  end.

(** [Router.walk] and [Router.Walk] of gorilla/mux. *)
Definition mux_walk (walkFn : WalkFunc) (rs : list mux.Route)
  : state T (option error) :=
  forEachRoute (mux_walkRoute walkFn) rs.

Definition mux_Walk (walkFn : WalkFunc) (r : mux.Router)
  : state T (option error) :=
  mux_walk walkFn (mux.routes r).

(** The loop [for _, method := range methods] of the walk function. *)
Fixpoint eachMethod (fn : WalkRouteFunc) (path : string)
  (methods : list string) : state T (option error) :=
  match methods with
  | [] => ret None
  | method :: rest =>
      e <- fn {| Method := method; Path := path |} ;;
      match e with
      | Some x => ret (Some x)
      | None => eachMethod fn path rest
      end
  end.

(** The function literal that [WalkRoute] passes to [Walk]. *)
Definition walkRouteFn (fn : WalkRouteFunc) : WalkFunc :=
  fun route =>
    let '(methods, e) := mux.GetMethods route in
    match e with
    | Some _ => ret None (* ignore no methods *)
    | None =>
        let '(path, e) := mux.GetPathTemplate route in
        match e with
        | Some x => ret (Some x)
        | None => eachMethod fn path methods
        end
    end.

Definition WalkRoute (fn : WalkRouteFunc) (s : Server)
  : state T (option error) :=
  mux_Walk (walkRouteFn fn) (router s).

End RouteWalk.

(* ===================================================================== *)
(** ** The request wrapper *)
(* ===================================================================== *)

(** How a handler call ends. *)
Inductive Outcome : Type :=
| Returned
| Panicked (v : string).

(** What happens while a request is handled. *)
Inductive PEvent : Type :=
| EvNext (w : ResponseWriter) (req : Request)   (* next.ServeHTTP(w, req) *)
| EvCancel (c : Context)                        (* cancel() of context c *)
| EvHandler (h : http.Handler) (w : ResponseWriter) (req : Request)
                                                (* h.ServeHTTP(w, req) *)
| EvRedirect (location : string)                (* the router's own 301 *)
| EvApp (note : string).

Definition HandlerFn : Type :=
  ResponseWriter -> Request -> list PEvent * Outcome.

(** [defer]: the deferred calls run when the body returns and when it
    panics, and the outcome of the body is the outcome of the function. *)
Definition defer (deferred : list PEvent) (body : list PEvent * Outcome)
  : list PEvent * Outcome :=
  ((fst body ++ deferred)%list, snd body).

(** [s.filter()] applied to [next], serving a request at time [now].  The
    closure reads [s.timeout] and [s.endpoint] when the request comes in:
    [s] is the server as it is then.  The assignment
    [tr.request = req.WithContext(transport.NewServerContext(ctx, tr))] is
    [Transport_request tr]. *)
Definition filter (env : Env) (s : Server) (now : Time) (next : HandlerFn)
  : HandlerFn :=
  fun w req =>
    let ctx :=
      if timeout s >? 0
      then context.WithTimeout (Request_Context req) now (timeout s)
      else WithCancel (Request_Context req) in
    defer [EvCancel ctx]
      (let pathTemplate :=
         match mux_CurrentRoute req with
         | Some route => fst (mux.GetPathTemplate route)
         | None => Request_Path req
         end in
       let tr_endpoint :=
         match endpoint s with
         | Some u => url_String env u
         | None => ""
         end in
       let tr :=
         mkTransport tr_endpoint pathTemplate pathTemplate
           (Request_Header req) (rw_Header w) (Request_WithContext req ctx) in
       let '(evs, out) := next w (Transport_request tr) in
       (EvNext w (Transport_request tr) :: evs, out)).

(* ===================================================================== *)
(** ** Dispatch by the router *)
(* ===================================================================== *)

Inductive MatchResult : Type :=
| Matched (r : mux.Route)
| MethodMismatch
| NoMatch.

Section Dispatch.

(** The matching engine of the router is not part of the package:
    [accepts rt req] says that every matcher of the route accepts the
    request, [wrongMethod rt req] that only its method matcher refuses. *)
Variable accepts : mux.Route -> Request -> bool.
Variable wrongMethod : mux.Route -> Request -> bool.

Definition mux_Match (r : mux.Router) (req : Request) : MatchResult :=
  match find (fun rt => accepts rt req) (mux.routes r) with
  | Some rt => Matched rt
  | None =>
      if existsb (fun rt => wrongMethod rt req) (mux.routes r)
      then MethodMismatch
      else NoMatch
  end.


End Dispatch.

(** What serving a request needs and the package does not contain: the
    matching engine of gorilla/mux and the bodies of the handlers that the
    application registers.  [accepts] and [wrongMethod] are as above;
    [routeVars rt req] are the variables that the match of [rt] extracts
    from [req]; [slashRedirect rt req] is the URL the router redirects to
    when [rt] was registered under strict slash and the path of [req]
    differs from its template by the trailing slash; [cleanPath] is the
    router's canonical form of a path; [serve h] is what the handler [h]
    does with a request. *)
Record Engine : Type :=
  { accepts : mux.Route -> Request -> bool;
    wrongMethod : mux.Route -> Request -> bool;
    routeVars : mux.Route -> Request -> list (string * string);
    slashRedirect : mux.Route -> Request -> option string;
    cleanPath : string -> string;
    serve : http.Handler -> HandlerFn }.

(** [requestWithVars] and [requestWithRoute] of gorilla/mux: the request
    with one more value in its context. *)
Definition requestWithVars (req : Request)
  (vars : option (list (string * string))) : Request :=
  Request_WithContext req
    (WithValue (Request_Context req) varsKey
       (match vars with Some v => VVars v | None => VNil end)).

Definition requestWithRoute (req : Request) (route : option mux.Route)
  : Request :=
  Request_WithContext req
    (WithValue (Request_Context req) routeKey
       (match route with Some r => VRoute r | None => VNil end)).

Section Serving.

Variable engine : Engine.
Variable env : Env.

(** [h.ServeHTTP(w, req)]; on a nil handler the call panics. *)
Definition callHandler (h : option http.Handler) : HandlerFn :=
  fun w req =>
    match h with
    | Some h =>
        let '(evs, out) := serve engine h w req in
        (EvHandler h w req :: evs, out)
    | None => ([], Panicked nilDeref)
    end.

(** [mw.Middleware(handler)], for the middleware of the server [s]. *)
Definition mux_Middleware (s : Server) (now : Time) (mw : mux.MiddlewareFunc)
  (handler : HandlerFn) : HandlerFn :=
  match mw with
  | mux.ServerFilter => filter env s now handler
  end.

(** The handler of a match: the redirect of strict slash, or the handler
    of the route. *)
Definition matchHandler (rt : mux.Route) (req : Request)
  : option http.Handler :=
  match slashRedirect engine rt req with
  | Some u => Some (http.RedirectHandler u)
  | None => mux.handler rt
  end.

(** [Router.ServeHTTP] of gorilla/mux (v1.8), on the router of the server
    [s].  A path that is not in canonical form is answered with a
    redirect.  Only a request that matches a route is given the
    middlewares, the last one installed innermost, around the handler of
    the match; its context then holds the variables and the route.  On a
    miss the configured handler is called directly, with a nil route and
    nil variables in the context of the request, and the built-in handler
    when none is configured. *)
Definition mux_ServeHTTP (s : Server) (now : Time) : HandlerFn :=
  fun w req =>
    let r := router s in
    if negb (String.eqb (cleanPath engine (Request_Path req)) (Request_Path req))
    then ([EvRedirect (cleanPath engine (Request_Path req))], Returned)
    else
      match mux_Match (accepts engine) (wrongMethod engine) r req with
      | Matched rt =>
          let req' :=
            requestWithRoute
              (requestWithVars req (Some (routeVars engine rt req)))
              (Some rt) in
          match mux.middlewares r, matchHandler rt req with
          | [], None => callHandler (Some http.NotFoundHandler) w req'
          | mws, h =>
              fold_right (mux_Middleware s now) (callHandler h) mws w req'
          end
      | MethodMismatch =>
          match mux.MethodNotAllowedHandler r with
          | Some h =>
              callHandler (Some h) w
                (requestWithRoute (requestWithVars req None) None)
          | None => callHandler (Some http.methodNotAllowedHandler) w req
          end
      | NoMatch =>
          match mux.NotFoundHandler r with
          | Some h =>
              callHandler (Some h) w
                (requestWithRoute (requestWithVars req None) None)
          | None => callHandler (Some http.NotFoundHandler) w req
          end
      end.

End Serving.

(* ===================================================================== *)
(** ** Sequences of calls on a server *)
(* ===================================================================== *)

(** The methods of the server.  [Route], whose [newRouter] is not at hand,
    [WalkRoute] and [WalkHandle], which only read, are not among them. *)
Inductive Op : Type :=
| OpStart (ctx : Context)
| OpStop (ctx : Context)
| OpEndpoint
| OpServeHTTP (res : ResponseWriter) (req : Request)
| OpUse (selector : string) (m : list Middleware_)
| OpHandle (path : string) (h : http.Handler)
| OpHandlePrefix (prefix : string) (h : http.Handler)
| OpHandleFunc (path : string) (h : http.Handler)
| OpHandleHeader (key val : string) (h : http.Handler).

Definition exec (env : Env) (o : Op) (st : St) : St :=
  match o with
  | OpStart ctx => snd (runState (Srv.Start env ctx) st)
  | OpStop ctx => snd (runState (Srv.Stop env ctx) st)
  | OpEndpoint => snd (runState (Srv.Endpoint env) st)
  | OpServeHTTP res req => snd (runState (Srv.ServeHTTP res req) st)
  | OpUse sel m => snd (runState (Srv.Use sel m) st)
  | OpHandle p h => snd (runState (Srv.Handle p h) st)
  | OpHandlePrefix p h => snd (runState (Srv.HandlePrefix p h) st)
  | OpHandleFunc p h => snd (runState (Srv.HandleFunc p h) st)
  | OpHandleHeader k v h => snd (runState (Srv.HandleHeader k v h) st)
  end.

Definition execAll (env : Env) (ops : list Op) (st : St) : St :=
  fold_left (fun st o => exec env o st) ops st.

(** A server fresh from [NewServer], before any call. *)
Definition fresh (opts : list ServerOption) : St :=
  {| srv := NewServer opts; trace := [] |}.

(** What a caller can do to a live server: call a method, or apply an
    option to it ([opt(srv)]), as [NewServer] does during construction.
    The state holds the router that [s.router] points to; after
    [PathPrefix] applied to a live server that is the new sub-router, and
    no longer the router that the backends serve. *)
Inductive LiveOp : Type :=
| Call (o : Op)
| Apply (o : ServerOption).

Definition execLive (env : Env) (o : LiveOp) (st : St) : St :=
  match o with
  | Call o => exec env o st
  | Apply o => {| srv := applyOption o (srv st); trace := trace st |}
  end.

Definition execLiveAll (env : Env) (ops : list LiveOp) (st : St) : St :=
  fold_left (fun st o => execLive env o st) ops st.

(* ===================================================================== *)
(** ** A sample environment, for the concrete runs *)
(* ===================================================================== *)

Module Sample.

(** Splits "host:port" at its last colon. *)
Fixpoint splitHostPort (s : string) : option (string * string) :=
  match s with
  | EmptyString => None
  | String c rest =>
      match splitHostPort rest with
      | Some (h, p) => Some (String c h, p)
      | None => if Ascii.eqb c ":" then Some ("", rest) else None
      end
  end.

Definition portString (p : Z) : string := NilZero.string_of_int (Z.to_int p).

Definition addrPort (a : net_Addr) : option Z :=
  match a with
  | TCPAddr _ p | UDPAddr _ p => Some p
  | UnixAddr _ => None
  end.

Definition wildcard (host : string) : bool :=
  String.eqb host "" || String.eqb host "0.0.0.0"
  || String.eqb host "[::]" || String.eqb host "::".

(** Modelled from the spec: host.Extract, of the repository's
    internal/host package, whose source is not at hand.  The spec derives
    host:port "from the actual bound address (resolving wildcard host /
    ephemeral port to a concrete, externally reachable form)": the port is
    the listener's, a wildcard host becomes the address [localIP] of the
    machine.  Without a listener there is no bound address, and the port
    is the configured one. *)
Definition Extract (localIP hostPort : string) (ln : option net_Addr)
  : string + error :=
  let cfg := splitHostPort hostPort in
  let host := match cfg with Some (h, _) => h | None => "" end in
  let port :=
    match ln with
    | Some a =>
        match addrPort a with
        | Some p => inl (portString p)
        | None => inr (errors.New "failed to extract port")
        end
    | None =>
        match cfg with
        | Some (_, p) => inl p
        | None => inr (errors.New "missing port in address")
        end
    end in
  match port with
  | inr e => inr e
  | inl p =>
      inl ((if wildcard host then localIP else host) ++ ":" ++ p)
  end.

(** How net/url prints the URLs of the concrete runs: a scheme, a host,
    and possibly a path and a query, none of which needs escaping. *)
Definition urlString (u : url_URL) : string :=
  Scheme u ++ "://" ++ Host u ++ url_Path u
  ++ (if String.eqb (RawQuery u) "" then "" else "?" ++ RawQuery u).

(** An environment from the answers of the two bind calls and of the
    serve calls. *)
Definition env (listen : list Event -> net_Listener + error)
  (listenQUIC : list Event -> QUICEarlyListener + error)
  (served : option error) : Env :=
  {| net_Listen := fun h _ _ => listen h;
     quic_ListenAddrEarly := fun h _ _ => listenQUIC h;
     host_Extract := Extract "192.168.1.10";
     url_String := urlString;
     http_Serve := fun _ _ => served;
     http_ServeTLS := fun _ _ => served;
     http3_ServeListener := fun _ _ => served;
     http_Shutdown := fun _ _ => None;
     http3_Close := fun _ => None |}.

Definition tcpLis : net_Listener := {| tcp_addr := TCPAddr "::" 43521 |}.
Definition quicLis : QUICEarlyListener := {| quic_addr := UDPAddr "::" 50443 |}.

Definition inUse : error :=
  wrapError "listen tcp :8000" (errorString "bind: address already in use").
Definition denied : error :=
  wrapError "listen tcp :80" (errorString "bind: permission denied").

(** Every bind succeeds; the serve calls end with [ErrServerClosed]. *)
Definition good : Env :=
  env (fun _ => inl tcpLis) (fun _ => inl quicLis) (Some http.ErrServerClosed).

(** Every bind fails: the first with [inUse], the later ones with
    [denied]. *)
Definition failing : Env :=
  env (fun h => if existsb isBind h then inr denied else inr inUse)
      (fun h => if existsb isBind h then inr denied else inr inUse)
      None.

(** The first bind fails, the later ones succeed. *)
Definition flaky : Env :=
  env (fun h => if existsb isBind h then inl tcpLis else inr inUse)
      (fun h => if existsb isBind h then inl quicLis else inr inUse)
      (Some http.ErrServerClosed).

Definition cert : tls_Config := {| ServerName := "localhost" |}.

(** A matching engine for the concrete runs.  A path is matched segment by
    segment, a segment of the template written in braces standing for any
    non-empty segment; a prefix route matches the paths that start with
    its template.  The requests of the runs are in canonical form and none
    differs from a template by a trailing slash. *)
Fixpoint segments (s : string) : list string :=
  match s with
  | EmptyString => [EmptyString]
  | String c rest =>
      if Ascii.eqb c "/" then EmptyString :: segments rest
      else
        match segments rest with
        | seg :: segs => String c seg :: segs
        | [] => [String c EmptyString]
        end
  end.

Definition varName (seg : string) : string :=
  String.substring 1 (String.length seg - 2) seg.

Fixpoint matchSegments (tpl path : list string)
  : option (list (string * string)) :=
  match tpl, path with
  | [], [] => Some []
  | t :: tpl', p :: path' =>
      match matchSegments tpl' path' with
      | None => None
      | Some vars =>
          if String.prefix "{" t then
            if String.eqb p "" then None else Some ((varName t, p) :: vars)
          else if String.eqb t p then Some vars
          else None
      end
  | _, _ => None
  end.

Definition matchPath (rt : mux.Route) (req : Request)
  : option (list (string * string)) :=
  match mux.pathTemplate rt with
  | None => Some []
  | Some tpl =>
      if mux.isPrefix rt then
        if String.prefix tpl (Request_Path req) then Some [] else None
      else matchSegments (segments tpl) (segments (Request_Path req))
  end.

Definition matchHeaders (rt : mux.Route) (req : Request) : bool :=
  forallb
    (fun kv : string * string =>
       existsb
         (fun h : string * list string =>
            String.eqb (fst kv) (fst h) && existsb (String.eqb (snd kv)) (snd h))
         (Request_Header req))
    (mux.headers rt).

Definition matchMethod (rt : mux.Route) (req : Request) : bool :=
  match mux.methods rt with
  | None => true
  | Some ms => existsb (String.eqb (Request_Method req)) ms
  end.

(** Handlers that record their name, but for the one that panics. *)
Definition respond (h : http.Handler) : HandlerFn :=
  fun _ _ =>
    match h with
    | http.HandlerFunc name =>
        if String.eqb name "panics" then ([], Panicked "boom")
        else ([EvApp name], Returned)
    | http.DefaultServeMux => ([EvApp "404 page not found"], Returned)
    | http.NotFoundHandler => ([EvApp "404 page not found"], Returned)
    | http.methodNotAllowedHandler => ([EvApp "405"], Returned)
    | http.RedirectHandler url => ([EvRedirect url], Returned)
    end.

Definition engine : Engine :=
  {| accepts := fun rt req =>
       isSome (matchPath rt req) && matchHeaders rt req && matchMethod rt req;
     wrongMethod := fun rt req =>
       isSome (matchPath rt req) && matchHeaders rt req
       && negb (matchMethod rt req);
     routeVars := fun rt req =>
       match matchPath rt req with Some vars => vars | None => [] end;
     slashRedirect := fun _ _ => None;
     cleanPath := fun p => p;
     serve := respond |}.

End Sample.

(* ===================================================================== *)
(** ** Vocabulary of the properties *)
(* ===================================================================== *)

(** Whether the listener of the active mode is set. *)
Definition activeListener (s : Server) : bool :=
  if enableHttp3 s then isSome (http3Lis s) else isSome (lis s).

(** The bind call that [listenAndEndpoint] makes for a server without an
    active listener, and its answer after the calls [h]. *)
Definition bindEvent (s : Server) : Event :=
  if enableHttp3 s then EvListenAddrEarly (address s) (tlsConf s)
  else EvListen (network s) (address s).

Definition bindAnswer (env : Env) (h : list Event) (s : Server) : option error :=
  if enableHttp3 s then
    match quic_ListenAddrEarly env h (address s) (tlsConf s) with
    | inl _ => None
    | inr e => Some e
    end
  else
    match net_Listen env h (network s) (address s) with
    | inl _ => None
    | inr e => Some e
    end.

(** The blocking serve call that [Start] makes once the listener and the
    endpoint are resolved, and what the backend answers to it. *)
Definition serveEvent (s : Server) : option Event :=
  if enableHttp3 s then option_map EvServeListener (http3Lis s)
  else option_map (if isSome (tlsConf s) then EvServeTLS else EvServe) (lis s).

Definition serveAnswer (env : Env) (st : St) : option error :=
  if enableHttp3 (srv st) then
    match http3Lis (srv st) with
    | Some l => http3_ServeListener env (trace st) l
    | None => None
    end
  else
    match lis (srv st) with
    | Some l =>
        if isSome (tlsConf (srv st)) then http_ServeTLS env (trace st) l
        else http_Serve env (trace st) l
    | None => None
    end.

(** The backend of the active mode is there and, for HTTP/3, so is the TLS
    configuration. *)
Definition canServe (s : Server) : bool :=
  if enableHttp3 s then isSome (http3srv s) && isSome (tlsConf s)
  else isSome (httpsrv s).

(** What [Start] makes of the error [e] of its mode-specific half. *)
Definition startResult (e : option error) : option error :=
  if negb (errors.Is e http.ErrServerClosed) then e else None.

(** The spec's account of the route walk.  A route without methods yields
    nothing; a route with methods yields one (method, path template) pair
    per method, or the error of [GetPathTemplate] when it has no path.
    [visit] hands the pairs to the callback one after the other and stops at
    the first error. *)
Definition yielded (r : mux.Route) : list (RouteInfo + error) :=
  match mux.methods r with
  | None => []
  | Some ms =>
      match mux.pathTemplate r with
      | Some tpl => map (fun m => inl {| Method := m; Path := tpl |}) ms
      | None => [inr mux.ErrNoPath]
      end
  end.

Fixpoint visit (T : Type) (fn : WalkRouteFunc T)
  (items : list (RouteInfo + error)) : state T (option error) :=
  match items with
  | [] => ret None
  | inr e :: _ => ret (Some e)
  | inl i :: rest =>
      e <- fn i ;;
      match e with
      | Some x => ret (Some x)
      | None => visit fn rest
      end
  end.

(** The request that the wrapped handler receives: [next.ServeHTTP] is the
    first thing recorded. *)
Definition handlerRequest (run : list PEvent * Outcome) : option Request :=
  match fst run with
  | EvNext _ req :: _ => Some req
  | _ => None
  end.

Definition isTimeout (o : ServerOption) : bool :=
  match o with Timeout _ => true | _ => false end.

(** The mode flag and which of the two backends are set. *)
Definition backends (s : Server) : bool * bool * bool :=
  (enableHttp3 s, isSome (httpsrv s), isSome (http3srv s)).

Definition isEnableHTTP3 (o : ServerOption) : bool :=
  match o with EnableHTTP3 => true | _ => false end.

(** The handlers of the router for the two kinds of miss. *)
Definition missHandlers (s : Server)
  : option http.Handler * option http.Handler :=
  (mux.NotFoundHandler (router s), mux.MethodNotAllowedHandler (router s)).

(** A computation that leaves the view [proj] of the server as it is. *)
Definition keeps (X : Type) (proj : Server -> X) (A : Type) (c : state St A)
  : Prop :=
  forall st, proj (srv (snd (runState c st))) = proj (srv st).

(* ===================================================================== *)
(** ** The remaining methods, and more vocabulary *)
(* ===================================================================== *)

(** The method value [s.ServeHTTP], as [WalkHandle] passes it on. *)
Definition http_HandlerFunc : Type :=
  ResponseWriter -> Request ->
  state St (Res (rootHandler * ResponseWriter * Request)).

Section HandleWalk.

(** The state the [handle] function works on. *)
Variable T : Type.

Definition HandleFunc_ : Type :=
  string -> string -> http_HandlerFunc -> state T unit.

(** [WalkHandle]: [WalkRoute] with a callback that calls [handle] and
    returns nil. *)
Definition WalkHandle (handle : HandleFunc_) (s : Server)
  : state T (option error) :=
  WalkRoute (fun r : RouteInfo =>
               handle (Method r) (Path r) Srv.ServeHTTP ;;
               ret None) s.

(** Calling [handle] on each pair of a list, in order. *)
Fixpoint handleEach (handle : HandleFunc_) (l : list RouteInfo)
  : state T unit :=
  match l with
  | [] => ret tt
  | r :: rest =>
      handle (Method r) (Path r) Srv.ServeHTTP ;;
      handleEach handle rest
  end.

End HandleWalk.

(** The (method, path template) pairs of a route that has both. *)
Definition routePairs (r : mux.Route) : list RouteInfo :=
  match mux.methods r, mux.pathTemplate r with
  | Some ms, Some tpl => map (fun m => {| Method := m; Path := tpl |}) ms
  | _, _ => []
  end.

(** A route with methods has a path. *)
Definition hasPath (r : mux.Route) : bool :=
  match mux.methods r with
  | Some _ => isSome (mux.pathTemplate r)
  | None => true
  end.


Definition isDone (A : Type) (r : Res A) : bool :=
  match r with Done _ => true | Panic _ => false end.

(** The backend of the active mode is set. *)
Definition hasBackend (s : Server) : bool :=
  if enableHttp3 s then isSome (http3srv s) else isSome (httpsrv s).

(** The call that [Stop] makes, and its answer after the calls [h]. *)
Definition stopEvent (s : Server) (ctx : Context) : Event :=
  if enableHttp3 s then EvClose else EvShutdown ctx.

Definition stopAnswer (env : Env) (h : list Event) (s : Server) (ctx : Context)
  : option error :=
  if enableHttp3 s then http3_Close env h else http_Shutdown env h ctx.

(** The fields that the options configure and that the methods read. *)
Definition config (s : Server)
  : string * string * Duration * option tls_Config * option url_URL
    * list FilterFunc * option net_Listener * option QUICEarlyListener :=
  (address s, network s, timeout s, tlsConf s, endpoint s, filters s, lis s,
   http3Lis s).

(** The listeners and the mode. *)
Definition listeners (s : Server)
  : bool * option net_Listener * option QUICEarlyListener :=
  (enableHttp3 s, lis s, http3Lis s).


(** The [Transport] that the wrapped handler finds in its context. *)
Definition handlerTransport (run : list PEvent * Outcome) : option Transport :=
  match handlerRequest run with
  | Some req => transport.FromServerContext (Request_Context req)
  | None => None
  end.

Definition isEndpointOption (o : ServerOption) : bool :=
  match o with Endpoint _ => true | _ => false end.

(** The request that the router hands to the chain of a matched route. *)
Definition routedRequest (engine : Engine) (rt : mux.Route) (req : Request)
  : Request :=
  requestWithRoute (requestWithVars req (Some (routeVars engine rt req)))
    (Some rt).

(** The request that the router hands to a configured handler on a miss. *)
Definition missedRequest (req : Request) : Request :=
  requestWithRoute (requestWithVars req None) None.

(** No option of the kind [p] is applied in the sequence. *)
Definition appliesNo (p : ServerOption -> bool) (ops : list LiveOp) : bool :=
  forallb (fun o => match o with Call _ => true | Apply o => negb (p o) end)
    ops.

(** The options that assign the mode or a listener, and those that assign
    the TLS configuration or the filters. *)
Definition isListenerOption (o : ServerOption) : bool :=
  match o with
  | EnableHTTP3 | HTTP3Listener _ | Listener _ => true
  | _ => false
  end.


(* ===================================================================== *)
(** * Properties *)
(* ===================================================================== *)

(** ** Running the monad *)

Lemma run_bind (A B : Type) (c : state St A) (f : A -> state St B) (st : St) :
  runState (bind c f) st = runState (f (fst (runState c st))) (snd (runState c st)).
Proof. cbn. destruct (runState c st). reflexivity. Qed.

(** ** What the methods never change *)

Section Keeps.

(** A view [proj] of the server that the assignments made after
    construction leave alone. *)
Variable X : Type.
Variable proj : Server -> X.

Hypothesis proj_err : forall v s, proj (set_err v s) = proj s.
Hypothesis proj_lis : forall v s, proj (set_lis v s) = proj s.
Hypothesis proj_http3Lis : forall v s, proj (set_http3Lis v s) = proj s.
Hypothesis proj_endpoint : forall v s, proj (set_endpoint v s) = proj s.
Hypothesis proj_middleware : forall v s, proj (set_middleware v s) = proj s.
Hypothesis proj_BaseContext :
  forall s hs ctx,
    httpsrv s = Some hs ->
    proj (set_httpsrv (Some {| hs_TLSConfig := hs_TLSConfig hs;
                               hs_Handler := hs_Handler hs;
                               hs_BaseContext := Some ctx |}) s) = proj s.
Hypothesis proj_addRoute :
  forall rt s, proj (set_router (mux.addRoute rt (router s)) s) = proj s.

Lemma keeps_ret (A : Type) (a : A) : keeps proj (ret a).
Proof. intro st. reflexivity. Qed.

Lemma keeps_bind (A B : Type) (c : state St A) (f : A -> state St B) :
  keeps proj c -> (forall a, keeps proj (f a)) -> keeps proj (bind c f).
Proof. intros Hc Hf st. rewrite run_bind. rewrite Hf. apply Hc. Qed.

Lemma keeps_self : keeps proj Srv.self.
Proof. intro st. reflexivity. Qed.

Lemma keeps_call (A : Type) (e : Event) (answer : list Event -> A) :
  keeps proj (Srv.call e answer).
Proof. intro st. reflexivity. Qed.

Lemma keeps_update (f : Server -> Server) :
  (forall s, proj (f s) = proj s) -> keeps proj (Srv.update f).
Proof. intros Hf st. cbn. apply Hf. Qed.

Ltac keeps_step :=
  first
    [ apply keeps_ret
    | apply keeps_self
    | apply keeps_call
    | apply keeps_update; intro;
      first [ apply proj_err | apply proj_lis | apply proj_http3Lis
            | apply proj_endpoint | apply proj_middleware
            | apply proj_addRoute ]
    | apply keeps_bind; [ | intros ]
    | match goal with
      | |- keeps _ (match ?x with _ => _ end) => destruct x
      end ].

Lemma keeps_handleEndpoint (env : Env) (L : Type) (A : Addresser L)
  (ln : option L) : keeps proj (Srv.handleEndpoint env ln).
Proof. unfold Srv.handleEndpoint. repeat keeps_step. Qed.

Lemma keeps_bindListener (env : Env) : keeps proj (Srv.bindListener env).
Proof. unfold Srv.bindListener. repeat keeps_step. Qed.

Lemma keeps_listenAndEndpoint (env : Env) : keeps proj (Srv.listenAndEndpoint env).
Proof.
  unfold Srv.listenAndEndpoint.
  apply keeps_bind; [ apply keeps_bindListener | intros [e|] ].
  - apply keeps_ret.
  - apply keeps_bind; [ apply keeps_self | intro s ].
    apply keeps_bind; [ apply keeps_handleEndpoint | intros [e|] ];
      repeat keeps_step.
Qed.

Lemma keeps_Endpoint (env : Env) : keeps proj (Srv.Endpoint env).
Proof.
  unfold Srv.Endpoint.
  apply keeps_bind; [ apply keeps_listenAndEndpoint | intros [e|] ];
    repeat keeps_step.
Qed.

Lemma keeps_startHTTP (env : Env) (ctx : Context) :
  keeps proj (Srv.startHTTP env ctx).
Proof.
  intro st. unfold Srv.startHTTP. rewrite run_bind.
  pose proof (keeps_listenAndEndpoint env st) as Hk.
  destruct (runState (Srv.listenAndEndpoint env) st) as [[e|] st1];
    cbn in *; [ exact Hk | ].
  rewrite <- Hk.
  destruct (httpsrv (srv st1)) as [hs|] eqn:Hhs; cbn; [ | reflexivity ].
  destruct (lis (srv st1)); [ destruct (isSome (tlsConf (srv st1))) | ];
    cbn; now apply proj_BaseContext.
Qed.

Lemma keeps_startHTTP3 (env : Env) (ctx : Context) :
  keeps proj (Srv.startHTTP3 env ctx).
Proof.
  unfold Srv.startHTTP3.
  apply keeps_bind; [ apply keeps_listenAndEndpoint | intros [e|] ];
    repeat keeps_step.
Qed.

Lemma keeps_Start (env : Env) (ctx : Context) : keeps proj (Srv.Start env ctx).
Proof.
  unfold Srv.Start.
  apply keeps_bind; [ apply keeps_self | intro s ].
  apply keeps_bind.
  - destruct (enableHttp3 s); [ apply keeps_startHTTP3 | apply keeps_startHTTP ].
  - intros [e|m]; [ | apply keeps_ret ].
    destruct (negb (errors.Is e http.ErrServerClosed)); apply keeps_ret.
Qed.

Lemma keeps_Stop (env : Env) (ctx : Context) : keeps proj (Srv.Stop env ctx).
Proof. unfold Srv.Stop. repeat keeps_step. Qed.

Lemma keeps_ServeHTTP (res : ResponseWriter) (req : Request) :
  keeps proj (Srv.ServeHTTP res req).
Proof. unfold Srv.ServeHTTP. repeat keeps_step. Qed.

Lemma exec_keeps (env : Env) (o : Op) (st : St) :
  proj (srv (exec env o st)) = proj (srv st).
Proof.
  destruct o; cbn [exec].
  - apply keeps_Start.
  - apply keeps_Stop.
  - apply keeps_Endpoint.
  - apply keeps_ServeHTTP.
  - apply keeps_update. intro. apply proj_middleware.
  - apply keeps_update. intro. apply proj_addRoute.
  - apply keeps_update. intro. apply proj_addRoute.
  - apply keeps_update. intro. apply proj_addRoute.
  - apply keeps_update. intro. apply proj_addRoute.
Qed.

Lemma execAll_keeps (env : Env) (ops : list Op) (st : St) :
  proj (srv (execAll env ops st)) = proj (srv st).
Proof.
  revert st. induction ops as [|o ops IH]; intro st; cbn.
  - reflexivity.
  - unfold execAll in IH. rewrite IH. apply exec_keeps.
Qed.

(** With options applied to the live server in between: the view stays
    when the options that change it are not among them. *)
Variable changes : ServerOption -> bool.

Hypothesis proj_option :
  forall o s, changes o = false -> proj (applyOption o s) = proj s.

Lemma execLiveAll_keeps (env : Env) (ops : list LiveOp) (st : St) :
  appliesNo changes ops = true ->
  proj (srv (execLiveAll env ops st)) = proj (srv st).
Proof.
  revert st. induction ops as [|o ops IH]; intros st H; cbn in *.
  - reflexivity.
  - apply andb_prop in H as [Ho Hops].
    unfold execLiveAll in IH. rewrite (IH _ Hops).
    destruct o as [o|o]; cbn [execLive srv].
    + apply exec_keeps.
    + apply proj_option. now apply negb_true_iff.
Qed.

End Keeps.

(** ** The backends are fixed at construction *)

Lemma execAll_backends (env : Env) (ops : list Op) (st : St) :
  backends (srv (execAll env ops st)) = backends (srv st).
Proof.
  apply execAll_keeps; try (intros v []; reflexivity).
  intros s hs ctx Hhs. unfold backends. cbn. now rewrite Hhs.
Qed.

(** The options leave both backends unset and raise the flag exactly when
    [EnableHTTP3] is among them. *)
Lemma applyOption_backends (o : ServerOption) (s : Server) :
  backends (applyOption o s)
  = (enableHttp3 s || isEnableHTTP3 o, isSome (httpsrv s), isSome (http3srv s)).
Proof.
  destruct o; cbn; unfold backends; cbn;
    rewrite ?orb_false_r, ?orb_true_r; reflexivity.
Qed.

Lemma options_backends (opts : list ServerOption) (s : Server) :
  backends (fold_left (fun s o => applyOption o s) opts s)
  = (enableHttp3 s || existsb isEnableHTTP3 opts,
     isSome (httpsrv s), isSome (http3srv s)).
Proof.
  revert s. induction opts as [|o opts IH]; intro s; cbn.
  - now rewrite orb_false_r.
  - rewrite IH. pose proof (applyOption_backends o s) as Ho.
    unfold backends in Ho. injection Ho as -> -> ->.
    now rewrite orb_assoc.
Qed.

Lemma NewServer_backends (opts : list ServerOption) :
  backends (NewServer opts)
  = (existsb isEnableHTTP3 opts,
     negb (existsb isEnableHTTP3 opts), existsb isEnableHTTP3 opts).
Proof.
  unfold NewServer.
  match goal with
  | |- context [fold_left ?f opts ?s0] =>
      pose proof (options_backends opts s0) as Ho;
      set (s1 := fold_left f opts s0) in *
  end.
  cbn in Ho. unfold backends in Ho. injection Ho as He Hh H3.
  cbn. rewrite He.
  destruct (existsb isEnableHTTP3 opts); unfold backends; cbn;
    rewrite ?He, ?Hh, ?H3; reflexivity.
Qed.

(** C9.  Every server built by [NewServer] has exactly one backend: the
    HTTP/3 one when the option [EnableHTTP3] was given, the net/http one
    otherwise.  Whatever sequence of public operations follows ([Start],
    [Stop], [Endpoint], [ServeHTTP], the route registrations), the mode flag
    keeps its value and the other backend stays nil. *)
Theorem NewServer_one_backend :
  forall (env : Env) (opts : list ServerOption) (ops : list Op),
    let s := srv (execAll env ops (fresh opts)) in
    enableHttp3 s = existsb isEnableHTTP3 opts
    /\ enableHttp3 s = enableHttp3 (NewServer opts)
    /\ isSome (http3srv s) = enableHttp3 s
    /\ isSome (httpsrv s) = negb (enableHttp3 s).
Proof.
  intros env opts ops s.
  pose proof (execAll_backends env ops (fresh opts)) as Hk.
  fold s in Hk. cbn in Hk. rewrite NewServer_backends in Hk.
  pose proof (NewServer_backends opts) as Hn.
  unfold backends in Hk, Hn.
  injection Hk as He Hh H3. injection Hn as He' _ _.
  rewrite He, Hh, H3, He'. repeat split.
Qed.

(** ** The handlers for requests that match no route *)

Lemma NewServer_missHandlers (opts : list ServerOption) :
  missHandlers (NewServer opts)
  = (Some http.DefaultServeMux, Some http.DefaultServeMux).
Proof.
  unfold NewServer.
  match goal with
  | |- context [fold_left ?f opts ?s0] => generalize (fold_left f opts s0)
  end.
  intro s. destruct (enableHttp3 s) eqn:He; cbn; rewrite He; reflexivity.
Qed.

Lemma execAll_missHandlers (env : Env) (ops : list Op) (st : St) :
  missHandlers (srv (execAll env ops st)) = missHandlers (srv st).
Proof.
  apply execAll_keeps; intros v []; reflexivity.
Qed.


(** ** Listener and endpoint resolution *)

Section Resolution.

Variable env : Env.

Lemma handleEndpoint_run (L : Type) (A : Addresser L) (ln : option L)
  (st : St) :
  runState (Srv.handleEndpoint env ln) st
  = match endpoint (srv st) with
    | Some _ => (None, st)
    | None =>
        match host_Extract env (address (srv st)) (option_map Addr ln) with
        | inl addr =>
            (None,
             {| srv := set_endpoint
                         (Some (endpoint_NewEndpoint
                                  (endpoint_Scheme "http"
                                     (isSome (tlsConf (srv st))))
                                  addr)) (srv st);
                trace := trace st |})
        | inr e =>
            (Some e, {| srv := set_err (Some e) (srv st); trace := trace st |})
        end
    end.
Proof.
  destruct st as [s tr]. unfold Srv.handleEndpoint, Srv.self, Srv.update.
  cbn. destruct (endpoint s); [ reflexivity | ].
  destruct (host_Extract env (address s) (option_map Addr ln)); reflexivity.
Qed.

Lemma bindListener_run (st : St) :
  runState (Srv.bindListener env) st
  = if activeListener (srv st) then (None, st)
    else
      let st' (s' : Server) :=
        {| srv := s'; trace := (trace st ++ [bindEvent (srv st)])%list |} in
      if enableHttp3 (srv st) then
        match quic_ListenAddrEarly env (trace st) (address (srv st))
                (tlsConf (srv st)) with
        | inl l => (None, st' (set_http3Lis (Some l) (srv st)))
        | inr e => (Some e, st' (set_err (Some e) (srv st)))
        end
      else
        match net_Listen env (trace st) (network (srv st))
                (address (srv st)) with
        | inl l => (None, st' (set_lis (Some l) (srv st)))
        | inr e => (Some e, st' (set_err (Some e) (srv st)))
        end.
Proof.
  destruct st as [s tr].
  unfold Srv.bindListener, Srv.self, Srv.update, Srv.call, activeListener,
    bindEvent.
  cbn. destruct (enableHttp3 s).
  - destruct (http3Lis s); [ reflexivity | ]. cbn.
    destruct (quic_ListenAddrEarly env tr (address s) (tlsConf s));
      reflexivity.
  - destruct (lis s); [ reflexivity | ]. cbn.
    destruct (net_Listen env tr (network s) (address s)); reflexivity.
Qed.

Lemma listenAndEndpoint_run (st : St) :
  runState (Srv.listenAndEndpoint env) st
  = match runState (Srv.bindListener env) st with
    | (Some e, st1) => (Some e, st1)
    | (None, st1) =>
        match runState (Srv.handleEndpoint env (http3Lis (srv st1))) st1 with
        | (Some e, st2) => (Some e, st2)
        | (None, st2) => (err (srv st2), st2)
        end
    end.
Proof.
  unfold Srv.listenAndEndpoint. rewrite run_bind.
  destruct (runState (Srv.bindListener env) st) as [[e|] st1]; cbn [fst snd];
    [ reflexivity | ].
  rewrite run_bind. cbn [Srv.self]. cbn [fst snd runState bind ret get].
  change (fst (runState Srv.self st1)) with (srv st1).
  change (snd (runState Srv.self st1)) with st1.
  rewrite run_bind.
  destruct (runState (Srv.handleEndpoint env (http3Lis (srv st1))) st1)
    as [[e|] st2]; reflexivity.
Qed.

Lemma Endpoint_run (st : St) :
  runState (Srv.Endpoint env) st
  = match runState (Srv.listenAndEndpoint env) st with
    | (Some e, st1) => ((None, Some e), st1)
    | (None, st1) => ((endpoint (srv st1), None), st1)
    end.
Proof.
  unfold Srv.Endpoint. rewrite run_bind.
  destruct (runState (Srv.listenAndEndpoint env) st) as [[e|] st1];
    reflexivity.
Qed.

Lemma bindListener_skip (st : St) :
  activeListener (srv st) = true ->
  runState (Srv.bindListener env) st = (None, st).
Proof. intro H. rewrite bindListener_run, H. reflexivity. Qed.

(** A bind that succeeds leaves its listener in place; one that fails
    leaves the server without. *)
Lemma bindListener_active (st : St) :
  activeListener (srv (snd (runState (Srv.bindListener env) st)))
  = match fst (runState (Srv.bindListener env) st) with
    | None => true
    | Some _ => false
    end.
Proof.
  rewrite bindListener_run.
  destruct (activeListener (srv st)) eqn:Hact; [ exact Hact | ].
  unfold activeListener in *. cbn zeta.
  destruct (enableHttp3 (srv st)) eqn:Hmode.
  - destruct (quic_ListenAddrEarly env (trace st) (address (srv st))
                (tlsConf (srv st))); cbn; rewrite Hmode; [ reflexivity | exact Hact ].
  - destruct (net_Listen env (trace st) (network (srv st))
                (address (srv st))); cbn; rewrite Hmode; [ reflexivity | exact Hact ].
Qed.

Lemma handleEndpoint_again (L : Type) (A : Addresser L) (ln : option L)
  (st : St) :
  runState (Srv.handleEndpoint env ln)
    (snd (runState (Srv.handleEndpoint env ln) st))
  = runState (Srv.handleEndpoint env ln) st.
Proof.
  rewrite (@handleEndpoint_run L A ln st).
  destruct (endpoint (srv st)) as [u|] eqn:He; cbn [snd].
  - rewrite handleEndpoint_run, He. reflexivity.
  - destruct (host_Extract env (address (srv st)) (option_map Addr ln))
      as [a|e] eqn:Hx; cbn [snd]; rewrite handleEndpoint_run; cbn.
    + reflexivity.
    + rewrite He, Hx. reflexivity.
Qed.

Lemma handleEndpoint_listeners (L : Type) (A : Addresser L) (ln : option L)
  (st : St) :
  let s' := srv (snd (runState (Srv.handleEndpoint env ln) st)) in
  activeListener s' = activeListener (srv st)
  /\ http3Lis s' = http3Lis (srv st).
Proof.
  rewrite handleEndpoint_run.
  destruct (endpoint (srv st)); [ split; reflexivity | ].
  destruct (host_Extract env (address (srv st)) (option_map Addr ln));
    split; reflexivity.
Qed.

(** With its listener in place, a second resolution changes nothing and
    answers as the first did. *)
Lemma listenAndEndpoint_again (st : St) :
  activeListener (srv (snd (runState (Srv.listenAndEndpoint env) st))) = true ->
  runState (Srv.listenAndEndpoint env)
    (snd (runState (Srv.listenAndEndpoint env) st))
  = runState (Srv.listenAndEndpoint env) st.
Proof.
  rewrite (listenAndEndpoint_run st).
  pose proof (bindListener_active st) as Hb.
  destruct (runState (Srv.bindListener env) st) as [[e|] st1];
    cbn [fst snd] in *.
  - intro H. congruence.
  - pose proof (@handleEndpoint_again _ _ (http3Lis (srv st1)) st1) as Hagain.
    pose proof (@handleEndpoint_listeners _ _ (http3Lis (srv st1)) st1)
      as [Hact Hlis].
    destruct (runState (Srv.handleEndpoint env (http3Lis (srv st1))) st1)
      as [r st2]; cbn [fst snd] in *.
    assert (Hst2 : forall x : option error,
               snd (match r with
                    | Some e => (Some e, st2)
                    | None => (x, st2)
                    end) = st2)
      by (intro x; destruct r; reflexivity).
    rewrite Hst2. intros _.
    rewrite listenAndEndpoint_run.
    rewrite bindListener_skip by congruence.
    rewrite Hlis, Hagain. reflexivity.
Qed.

End Resolution.

#[local] Arguments Srv.handleEndpoint : simpl never.
#[local] Arguments Srv.bindListener : simpl never.
#[local] Arguments Srv.listenAndEndpoint : simpl never.
#[local] Arguments Srv.Endpoint : simpl never.

(** What the bind step leaves alone. *)
Lemma bindListener_fields (env : Env) (st : St) :
  let s' := srv (snd (runState (Srv.bindListener env) st)) in
  endpoint s' = endpoint (srv st)
  /\ tlsConf s' = tlsConf (srv st)
  /\ address s' = address (srv st)
  /\ enableHttp3 s' = enableHttp3 (srv st).
Proof.
  rewrite bindListener_run.
  destruct (activeListener (srv st)); [ repeat split | ].
  cbn zeta. destruct (enableHttp3 (srv st)) eqn:Hmode.
  - destruct (quic_ListenAddrEarly env (trace st) (address (srv st))
                (tlsConf (srv st))); cbn; rewrite ?Hmode; repeat split.
  - destruct (net_Listen env (trace st) (network (srv st))
                (address (srv st))); cbn; rewrite ?Hmode; repeat split.
Qed.

(** The scheme of an endpoint that the server resolves itself. *)
Lemma Scheme_https (b : bool) (hostport : string) :
  Scheme (endpoint_NewEndpoint (endpoint_Scheme "http" b) hostport) = "https"
  <-> b = true.
Proof. destruct b; cbn; split; intro H; congruence. Qed.

Lemma isSome_true (A : Type) (o : option A) : isSome o = true <-> o <> None.
Proof. destruct o; cbn; split; intro H; congruence. Qed.

(** The endpoint after a resolution that started without one. *)
Lemma listenAndEndpoint_resolved (env : Env) (st : St) (u : url_URL) :
  endpoint (srv st) = None ->
  endpoint (srv (snd (runState (Srv.listenAndEndpoint env) st))) = Some u ->
  exists hostport,
    u = endpoint_NewEndpoint
          (endpoint_Scheme "http" (isSome (tlsConf (srv st)))) hostport.
Proof.
  intros Hnone. rewrite listenAndEndpoint_run.
  pose proof (bindListener_fields env st) as (He & Ht & _ & _).
  pose proof (bindListener_run env st) as Hrun.
  destruct (runState (Srv.bindListener env) st) as [[e|] st1];
    cbn [fst snd] in *.
  - rewrite He, Hnone. discriminate.
  - rewrite handleEndpoint_run. rewrite He, Hnone, Ht.
    destruct (host_Extract env (address (srv st1))
                (option_map Addr (http3Lis (srv st1)))) as [a|e]; cbn.
    + intro H. injection H as <-. now exists a.
    + rewrite He, Hnone. discriminate.
Qed.

(** A bind step that reports no error leaves the stored error alone. *)
Lemma bindListener_ok_err (env : Env) (st : St) :
  fst (runState (Srv.bindListener env) st) = None ->
  err (srv (snd (runState (Srv.bindListener env) st))) = err (srv st).
Proof.
  rewrite bindListener_run.
  destruct (activeListener (srv st)); [ reflexivity | ].
  cbn zeta. destruct (enableHttp3 (srv st)).
  - destruct (quic_ListenAddrEarly env (trace st) (address (srv st))
                (tlsConf (srv st))); [ reflexivity | discriminate ].
  - destruct (net_Listen env (trace st) (network (srv st))
                (address (srv st))); [ reflexivity | discriminate ].
Qed.

(** An endpoint that is set stays: the resolution never replaces it, a URL
    that [Endpoint] returns is that endpoint, and it is returned when the
    listener is in place and no error is stored. *)
Lemma Endpoint_override (env : Env) (st : St) (u0 : url_URL) :
  endpoint (srv st) = Some u0 ->
  let r := runState (Srv.Endpoint env) st in
  endpoint (srv (snd r)) = Some u0
  /\ (forall u : url_URL, fst (fst r) = Some u -> u = u0)
  /\ (activeListener (srv (snd r)) = true ->
      err (srv st) = None -> fst r = (Some u0, None)).
Proof.
  intro He. cbn zeta. rewrite Endpoint_run, listenAndEndpoint_run.
  pose proof (bindListener_fields env st) as (Hbe & _). cbn zeta in Hbe.
  pose proof (bindListener_active env st) as Hba.
  pose proof (bindListener_ok_err env st) as Hberr.
  destruct (runState (Srv.bindListener env) st) as [[e|] st1];
    cbn [fst snd] in *.
  - split; [ congruence | ]. split; [ intros u Hu; discriminate | ].
    intro Hact. congruence.
  - rewrite handleEndpoint_run, Hbe, He.
    destruct (err (srv st1)) eqn:Herr; cbn [fst snd].
    + split; [ congruence | ]. split; [ discriminate | ].
      intros _ Hnone. specialize (Hberr eq_refl). congruence.
    + split; [ congruence | ]. split; [ congruence | ].
      intros _ _. congruence.
Qed.

(** C6, as amended.  When the listener of the active mode is in place after
    a call of [Endpoint] (the bind succeeded, or a listener was supplied), a
    second call returns the very same result and leaves the server and the
    trace of calls as they were: nothing is bound again.  When no endpoint
    override was configured, the URL returned has scheme https exactly when
    the TLS configuration is set.  When an override was configured, it
    stays the endpoint of the server, a URL that is returned is the
    override itself, whatever its scheme and its other parts, and it is
    returned unless an error was stored before. *)
Theorem Endpoint_idempotent :
  forall (env : Env) (st : St),
    activeListener (srv (snd (runState (Srv.Endpoint env) st))) = true ->
    runState (Srv.Endpoint env) (snd (runState (Srv.Endpoint env) st))
    = runState (Srv.Endpoint env) st
    /\ (endpoint (srv st) = None ->
        forall u : url_URL,
          fst (fst (runState (Srv.Endpoint env) st)) = Some u ->
          (Scheme u = "https" <-> tlsConf (srv st) <> None))
    /\ (forall u0 : url_URL,
          endpoint (srv st) = Some u0 ->
          endpoint (srv (snd (runState (Srv.Endpoint env) st))) = Some u0
          /\ (forall u : url_URL,
                 fst (fst (runState (Srv.Endpoint env) st)) = Some u ->
                 u = u0)
          /\ (err (srv st) = None ->
              fst (runState (Srv.Endpoint env) st) = (Some u0, None))).
Proof.
  intros env st Hact. split; [ | split ].
  - revert Hact. rewrite (Endpoint_run env st).
    pose proof (listenAndEndpoint_again env st) as Hagain.
    destruct (runState (Srv.listenAndEndpoint env) st) as [[e|] st1];
      cbn [fst snd] in *; intro Hact;
      rewrite Endpoint_run, (Hagain Hact); reflexivity.
  - clear Hact. rewrite (Endpoint_run env st).
    pose proof (@listenAndEndpoint_resolved env st) as Hres.
    destruct (runState (Srv.listenAndEndpoint env) st) as [[e|] st1];
      cbn [fst snd] in *.
    + intros _ u Hu. discriminate.
    + intros Hnone u Hu. destruct (Hres u Hnone Hu) as [a ->].
      rewrite Scheme_https. apply isSome_true.
  - intros u0 Hu0.
    destruct (Endpoint_override env st Hu0) as (H1 & H2 & H3).
    split; [ exact H1 | split; [ exact H2 | exact (H3 Hact) ] ].
Qed.

(** A server with TLS whose bind succeeds, and one that was given the
    legacy endpoint of the documentation as override. *)
Lemma Endpoint_idempotent_witness :
  let st := fresh [TLSConfig (Some Sample.cert)] in
  let legacy :=
    {| Scheme := "http"; Opaque := ""; User := None; Host := "127.0.0.1:8000";
       url_Path := ""; RawQuery := "isSecure=false"; Fragment := "" |} in
  let st' := fresh [Endpoint (Some legacy); TLSConfig (Some Sample.cert)] in
  runState (Srv.Endpoint Sample.good) (snd (runState (Srv.Endpoint Sample.good) st))
  = runState (Srv.Endpoint Sample.good) st
  /\ fst (runState (Srv.Endpoint Sample.good) st') = (Some legacy, None).
Proof.
  cbn zeta. split.
  - exact (proj1 (Endpoint_idempotent Sample.good
                    (fresh [TLSConfig (Some Sample.cert)]) eq_refl)).
  - match goal with
    | |- fst (runState _ ?st') = (Some ?u, None) =>
        exact (proj2 (proj2 (proj2 (proj2 (Endpoint_idempotent Sample.good st'
                                             eq_refl)) u eq_refl)) eq_refl)
    end.
Defined.

(** C6, as first stated, fails for a server with an endpoint override: the
    bind succeeds, the TLS configuration is set, and [Endpoint] returns the
    override, whose scheme is http. *)
Lemma Endpoint_override_keeps_scheme :
  ~ (forall (env : Env) (st : St) (u : url_URL),
        activeListener (srv (snd (runState (Srv.Endpoint env) st))) = true ->
        fst (fst (runState (Srv.Endpoint env) st)) = Some u ->
        (Scheme u = "https" <-> tlsConf (srv st) <> None)).
Proof.
  intro H.
  pose (u := endpoint_NewEndpoint "http" "example.com:8000").
  specialize (H Sample.good
                (fresh [Endpoint (Some u); TLSConfig (Some Sample.cert)])
                u eq_refl eq_refl).
  cbn in H. destruct H as [_ H].
  assert (Hs : Some Sample.cert <> None) by discriminate.
  specialize (H Hs). discriminate.
Qed.

(** In HTTP/3 mode the endpoint is taken from the address of the QUIC
    listener that was bound. *)
Lemma Endpoint_http3_uses_bound_address (env : Env) (st : St)
  (l : QUICEarlyListener) :
  enableHttp3 (srv st) = true ->
  http3Lis (srv st) = None ->
  endpoint (srv st) = None ->
  quic_ListenAddrEarly env (trace st) (address (srv st)) (tlsConf (srv st))
  = inl l ->
  let s1 := srv (snd (runState (Srv.Endpoint env) st)) in
  http3Lis s1 = Some l
  /\ endpoint s1
     = match host_Extract env (address (srv st)) (Some (Addr l)) with
       | inl hostport =>
           Some (endpoint_NewEndpoint
                   (endpoint_Scheme "http" (isSome (tlsConf (srv st))))
                   hostport)
       | inr _ => None
       end.
Proof.
  intros Hmode Hl He Hbind. cbn zeta.
  rewrite Endpoint_run, listenAndEndpoint_run, bindListener_run.
  unfold activeListener. rewrite Hmode, Hl. cbn. rewrite Hbind.
  rewrite handleEndpoint_run. cbn. rewrite He.
  destruct (host_Extract env (address (srv st)) (Some (Addr l))) as [a|e]; cbn.
  - destruct (err (srv st)); cbn; split; reflexivity.
  - split; [ reflexivity | exact He ].
Qed.

(** C1, the defect.  In TCP mode, with no QUIC listener configured, the
    endpoint is resolved from the configured address and a nil listener:
    [listenAndEndpoint] hands [s.http3Lis] to [handleEndpoint] in both
    modes, so the address of the TCP listener [l] that was just bound never
    reaches [host.Extract]. *)
Theorem Endpoint_tcp_ignores_bound_address :
  forall (env : Env) (st : St) (l : net_Listener),
    enableHttp3 (srv st) = false ->
    lis (srv st) = None ->
    http3Lis (srv st) = None ->
    endpoint (srv st) = None ->
    net_Listen env (trace st) (network (srv st)) (address (srv st)) = inl l ->
    let s1 := srv (snd (runState (Srv.Endpoint env) st)) in
    lis s1 = Some l
    /\ endpoint s1
       = match host_Extract env (address (srv st)) None with
         | inl hostport =>
             Some (endpoint_NewEndpoint
                     (endpoint_Scheme "http" (isSome (tlsConf (srv st))))
                     hostport)
         | inr _ => None
         end.
Proof.
  intros env st l Hmode Hl Hq He Hbind. cbn zeta.
  rewrite Endpoint_run, listenAndEndpoint_run, bindListener_run.
  unfold activeListener. rewrite Hmode, Hl. cbn. rewrite Hbind.
  rewrite handleEndpoint_run. cbn. rewrite He, Hq. cbn.
  destruct (host_Extract env (address (srv st)) None) as [a|e]; cbn.
  - destruct (err (srv st)); cbn; split; reflexivity.
  - split; [ reflexivity | exact He ].
Qed.

(** The default server on a machine where [net.Listen] binds port 43521:
    the endpoint it advertises carries the configured port 0. *)
Lemma Endpoint_tcp_ignores_bound_address_witness :
  let s1 := srv (snd (runState (Srv.Endpoint Sample.good) (fresh []))) in
  lis s1 = Some {| tcp_addr := TCPAddr "::" 43521 |}
  /\ endpoint s1 = Some (endpoint_NewEndpoint "http" "192.168.1.10:0").
Proof.
  exact (Endpoint_tcp_ignores_bound_address Sample.good (fresh [])
           eq_refl eq_refl eq_refl eq_refl eq_refl).
Defined.

(** ** Start *)

Section Starting.

Variable env : Env.
Variable ctx : Context.

Lemma startHTTP_run (st : St) :
  runState (Srv.startHTTP env ctx) st
  = match runState (Srv.listenAndEndpoint env) st with
    | (Some e, st1) => (Done (Some e), st1)
    | (None, st1) =>
        match httpsrv (srv st1) with
        | None => (Panic nilDeref, st1)
        | Some hs =>
            let s2 :=
              set_httpsrv (Some {| hs_TLSConfig := hs_TLSConfig hs;
                                   hs_Handler := hs_Handler hs;
                                   hs_BaseContext := Some ctx |}) (srv st1) in
            match lis (srv st1) with
            | None => (Panic nilDeref, {| srv := s2; trace := trace st1 |})
            | Some l =>
                if isSome (tlsConf (srv st1)) then
                  (Done (http_ServeTLS env (trace st1) l),
                   {| srv := s2; trace := (trace st1 ++ [EvServeTLS l])%list |})
                else
                  (Done (http_Serve env (trace st1) l),
                   {| srv := s2; trace := (trace st1 ++ [EvServe l])%list |})
            end
        end
    end.
Proof.
  unfold Srv.startHTTP. rewrite run_bind.
  destruct (runState (Srv.listenAndEndpoint env) st) as [[e|] [s1 tr1]];
    cbn [fst snd]; [ reflexivity | ].
  unfold Srv.self, Srv.update, Srv.call. cbn.
  destruct (httpsrv s1); [ | reflexivity ]. cbn.
  destruct (lis s1); [ | reflexivity ].
  destruct (isSome (tlsConf s1)); reflexivity.
Qed.

Lemma startHTTP3_run (st : St) :
  runState (Srv.startHTTP3 env ctx) st
  = match runState (Srv.listenAndEndpoint env) st with
    | (Some e, st1) => (Done (Some e), st1)
    | (None, st1) =>
        match tlsConf (srv st1) with
        | None => (Done (Some ErrTLSRequired), st1)
        | Some _ =>
            match http3Lis (srv st1), http3srv (srv st1) with
            | Some l, Some _ =>
                (Done (http3_ServeListener env (trace st1) l),
                 {| srv := srv st1;
                    trace := (trace st1 ++ [EvServeListener l])%list |})
            | _, _ => (Panic nilDeref, st1)
            end
        end
    end.
Proof.
  unfold Srv.startHTTP3. rewrite run_bind.
  destruct (runState (Srv.listenAndEndpoint env) st) as [[e|] [s1 tr1]];
    cbn [fst snd]; [ reflexivity | ].
  unfold Srv.self, Srv.update, Srv.call. cbn.
  destruct (tlsConf s1); [ | reflexivity ].
  destruct (http3Lis s1); [ | reflexivity ].
  destruct (http3srv s1); reflexivity.
Qed.

Lemma Start_run (st : St) :
  runState (Srv.Start env ctx) st
  = let r :=
      if enableHttp3 (srv st) then runState (Srv.startHTTP3 env ctx) st
      else runState (Srv.startHTTP env ctx) st in
    match fst r with
    | Panic m => (Panic m, snd r)
    | Done e => (Done (startResult e), snd r)
    end.
Proof.
  unfold Srv.Start. rewrite run_bind.
  change (fst (runState Srv.self st)) with (srv st).
  change (snd (runState Srv.self st)) with st.
  rewrite run_bind. cbn zeta.
  destruct (enableHttp3 (srv st)).
  - destruct (runState (Srv.startHTTP3 env ctx) st) as [[e|m] st1];
      cbn [fst snd]; [ | reflexivity ].
    unfold startResult.
    destruct (negb (errors.Is e http.ErrServerClosed)); reflexivity.
  - destruct (runState (Srv.startHTTP env ctx) st) as [[e|m] st1];
      cbn [fst snd]; [ | reflexivity ].
    unfold startResult.
    destruct (negb (errors.Is e http.ErrServerClosed)); reflexivity.
Qed.

(** A resolution that reports no error leaves the active listener set. *)
Lemma listenAndEndpoint_active (st : St) :
  fst (runState (Srv.listenAndEndpoint env) st) = None ->
  activeListener (srv (snd (runState (Srv.listenAndEndpoint env) st))) = true.
Proof.
  rewrite listenAndEndpoint_run.
  pose proof (bindListener_active env st) as Hb.
  destruct (runState (Srv.bindListener env) st) as [[e|] st1];
    cbn [fst snd] in *; [ discriminate | ].
  pose proof (@handleEndpoint_listeners env _ _ (http3Lis (srv st1)) st1)
    as [Hact _].
  destruct (runState (Srv.handleEndpoint env (http3Lis (srv st1))) st1)
    as [[e|] st2]; cbn [fst snd] in *; [ discriminate | ].
  intros _. congruence.
Qed.

(** The resolution changes neither the mode, nor the backends, nor the
    TLS configuration. *)
Lemma listenAndEndpoint_config (st : St) :
  let s' := srv (snd (runState (Srv.listenAndEndpoint env) st)) in
  enableHttp3 s' = enableHttp3 (srv st)
  /\ isSome (httpsrv s') = isSome (httpsrv (srv st))
  /\ isSome (http3srv s') = isSome (http3srv (srv st))
  /\ tlsConf s' = tlsConf (srv st).
Proof.
  assert (Hk : keeps (fun s => (backends s, tlsConf s))
                 (Srv.listenAndEndpoint env))
    by (apply keeps_listenAndEndpoint; intros v []; reflexivity).
  specialize (Hk st). cbn beta in Hk. unfold backends in Hk. cbn zeta.
  generalize dependent (srv (snd (runState (Srv.listenAndEndpoint env) st))).
  intros s' H. injection H as H1 H2 H3 H4. auto.
Qed.

(** The resolution makes no call but, at most, the bind. *)
Lemma listenAndEndpoint_trace (st : St) :
  let st1 := snd (runState (Srv.listenAndEndpoint env) st) in
  trace st1
  = (trace st ++ if activeListener (srv st) then [] else [bindEvent (srv st)])%list.
Proof.
  cbn zeta. rewrite listenAndEndpoint_run.
  assert (Hb : trace (snd (runState (Srv.bindListener env) st))
               = (trace st ++ if activeListener (srv st) then []
                              else [bindEvent (srv st)])%list).
  { rewrite bindListener_run.
    destruct (activeListener (srv st)); [ cbn; now rewrite app_nil_r | ].
    cbn zeta. destruct (enableHttp3 (srv st)).
    - destruct (quic_ListenAddrEarly env (trace st) (address (srv st))
                  (tlsConf (srv st))); reflexivity.
    - destruct (net_Listen env (trace st) (network (srv st))
                  (address (srv st))); reflexivity. }
  destruct (runState (Srv.bindListener env) st) as [[e|] st1];
    cbn [fst snd] in *; [ exact Hb | ].
  rewrite handleEndpoint_run.
  destruct (endpoint (srv st1)); [ exact Hb | ].
  destruct (host_Extract env (address (srv st1))
              (option_map Addr (http3Lis (srv st1)))); exact Hb.
Qed.

End Starting.

#[local] Arguments Srv.startHTTP : simpl never.
#[local] Arguments Srv.startHTTP3 : simpl never.
#[local] Arguments Srv.Start : simpl never.

(** C7.  Once the listener and the endpoint are resolved and the active
    backend can serve, [Start] makes the blocking serve call of that backend
    and translates its answer [e]: when [e] is the deliberate-shutdown
    signal ([errors.Is(e, http.ErrServerClosed)]) [Start] returns nil, and
    any other answer is returned as it is. *)
Theorem Start_translates_serve_answer :
  forall (env : Env) (ctx : Context) (st : St),
    fst (runState (Srv.listenAndEndpoint env) st) = None ->
    canServe (srv st) = true ->
    let st1 := snd (runState (Srv.listenAndEndpoint env) st) in
    let e := serveAnswer env st1 in
    let r := runState (Srv.Start env ctx) st in
    (exists ev, serveEvent (srv st1) = Some ev
                /\ isServe ev = true
                /\ trace (snd r) = (trace st1 ++ [ev])%list)
    /\ (errors.Is e http.ErrServerClosed = true -> fst r = Done None)
    /\ (errors.Is e http.ErrServerClosed = false -> fst r = Done e).
Proof.
  intros env ctx st Hok Hcan. cbn zeta.
  pose proof (listenAndEndpoint_active env st Hok) as Hact.
  pose proof (listenAndEndpoint_config env st) as (Hmode & Hhs & Hh3 & Htls).
  cbn zeta in Hmode, Hhs, Hh3, Htls.
  rewrite Start_run. cbn zeta.
  unfold canServe in Hcan. unfold serveAnswer, serveEvent, startResult.
  unfold activeListener in Hact. rewrite Hmode in *.
  destruct (enableHttp3 (srv st)).
  - rewrite startHTTP3_run.
    destruct (runState (Srv.listenAndEndpoint env) st) as [r st1];
      cbn [fst snd] in *. subst r.
    apply andb_prop in Hcan as [Hsrv Hcfg].
    rewrite Htls. destruct (tlsConf (srv st)) as [c|]; [ | discriminate ].
    destruct (http3Lis (srv st1)) as [l|]; [ | discriminate ].
    rewrite <- Hh3 in Hsrv.
    destruct (http3srv (srv st1)); [ | discriminate ]. cbn.
    split; [ exists (EvServeListener l); repeat split | ].
    split; intros ->; reflexivity.
  - rewrite startHTTP_run.
    destruct (runState (Srv.listenAndEndpoint env) st) as [r st1];
      cbn [fst snd] in *. subst r.
    rewrite <- Hhs in Hcan.
    destruct (httpsrv (srv st1)) as [hs|]; [ | discriminate ].
    destruct (lis (srv st1)) as [l|]; [ | discriminate ]. cbn zeta.
    destruct (isSome (tlsConf (srv st1))); cbn.
    + split; [ exists (EvServeTLS l); repeat split | ].
      split; intros ->; reflexivity.
    + split; [ exists (EvServe l); repeat split | ].
      split; intros ->; reflexivity.
Qed.

(** A TCP server whose serve call ends with [http.ErrServerClosed]. *)
Lemma Start_translates_serve_answer_witness :
  fst (runState (Srv.Start Sample.good Background) (fresh [])) = Done None.
Proof.
  exact (proj1 (proj2 (Start_translates_serve_answer Sample.good Background
                         (fresh []) eq_refl eq_refl)) eq_refl).
Defined.

(** C2, as amended.  In HTTP/3 mode without a TLS configuration, [Start]
    never makes a serve call: it does what [listenAndEndpoint] does and
    nothing more.  When that resolution succeeds, [Start] returns the
    TLS-required error; when it fails (the bind, the address extraction or
    an error cached before), [Start] returns that failure. *)
Theorem Start_http3_without_TLS :
  forall (env : Env) (ctx : Context) (st : St),
    enableHttp3 (srv st) = true ->
    tlsConf (srv st) = None ->
    let la := runState (Srv.listenAndEndpoint env) st in
    let r := runState (Srv.Start env ctx) st in
    snd r = snd la
    /\ List.filter isServe (trace (snd r)) = List.filter isServe (trace st)
    /\ fst r = Done (match fst la with
                     | None => Some ErrTLSRequired
                     | Some e => startResult (Some e)
                     end).
Proof.
  intros env ctx st Hmode Htls. cbn zeta.
  pose proof (listenAndEndpoint_config env st) as (_ & _ & _ & Hcfg).
  cbn zeta in Hcfg.
  pose proof (listenAndEndpoint_trace env st) as Htr. cbn zeta in Htr.
  rewrite Start_run, Hmode. cbn zeta. rewrite startHTTP3_run.
  destruct (runState (Srv.listenAndEndpoint env) st) as [[e|] st1];
    cbn [fst snd] in *.
  - split; [ reflexivity | split; [ | reflexivity ] ].
    rewrite Htr, filter_app.
    destruct (activeListener (srv st)); cbn; [ now rewrite app_nil_r | ].
    unfold bindEvent. rewrite Hmode. cbn. now rewrite app_nil_r.
  - rewrite Hcfg, Htls. cbn [fst snd].
    split; [ reflexivity | split; [ | reflexivity ] ].
    rewrite Htr, filter_app.
    destruct (activeListener (srv st)); cbn; [ now rewrite app_nil_r | ].
    unfold bindEvent. rewrite Hmode. cbn. now rewrite app_nil_r.
Qed.

(** An HTTP/3 server without TLS whose bind succeeds. *)
Lemma Start_http3_without_TLS_witness :
  fst (runState (Srv.Start Sample.good Background) (fresh [EnableHTTP3]))
  = Done (Some ErrTLSRequired).
Proof.
  exact (proj2 (proj2 (Start_http3_without_TLS Sample.good Background
                         (fresh [EnableHTTP3]) eq_refl eq_refl))).
Defined.

(** C2, as first stated, fails when the bind fails: the HTTP/3 server has no
    TLS configuration, and [Start] returns the error of the bind, which is
    not the TLS-required error. *)
Lemma Start_http3_without_TLS_bind_error :
  let st := fresh [EnableHTTP3] in
  enableHttp3 (srv st) = true
  /\ tlsConf (srv st) = None
  /\ fst (runState (Srv.Start Sample.failing Background) st)
     = Done (Some Sample.inUse)
  /\ Sample.inUse <> ErrTLSRequired.
Proof.
  cbn zeta. repeat split. discriminate.
Qed.

(** ** A failed bind *)

Section Failure.

Variable env : Env.

(** Once an error is stored in [err], it is never cleared. *)
Lemma bindListener_failed (st : St) :
  isSome (err (srv st)) = true ->
  isSome (err (srv (snd (runState (Srv.bindListener env) st)))) = true.
Proof.
  intro H. rewrite bindListener_run.
  destruct (activeListener (srv st)); [ exact H | ]. cbn zeta.
  destruct (enableHttp3 (srv st)).
  - destruct (quic_ListenAddrEarly env (trace st) (address (srv st))
                (tlsConf (srv st))); [ exact H | reflexivity ].
  - destruct (net_Listen env (trace st) (network (srv st))
                (address (srv st))); [ exact H | reflexivity ].
Qed.

Lemma handleEndpoint_failed (L : Type) (A : Addresser L) (ln : option L)
  (st : St) :
  isSome (err (srv st)) = true ->
  isSome (err (srv (snd (runState (Srv.handleEndpoint env ln) st)))) = true.
Proof.
  intro H. rewrite handleEndpoint_run.
  destruct (endpoint (srv st)); [ exact H | ].
  destruct (host_Extract env (address (srv st)) (option_map Addr ln));
    [ exact H | reflexivity ].
Qed.

(** With an error stored, every resolution reports an error. *)
Lemma listenAndEndpoint_failed (st : St) :
  isSome (err (srv st)) = true ->
  isSome (fst (runState (Srv.listenAndEndpoint env) st)) = true
  /\ isSome (err (srv (snd (runState (Srv.listenAndEndpoint env) st)))) = true.
Proof.
  intro H. rewrite listenAndEndpoint_run.
  pose proof (bindListener_failed st H) as Hb.
  destruct (runState (Srv.bindListener env) st) as [[e|] st1];
    cbn [fst snd] in *; [ split; [ reflexivity | exact Hb ] | ].
  pose proof (@handleEndpoint_failed _ _ (http3Lis (srv st1)) st1 Hb) as Hh.
  destruct (runState (Srv.handleEndpoint env (http3Lis (srv st1))) st1)
    as [[e|] st2]; cbn [fst snd] in *; split; auto.
Qed.

(** When the resolution reports an error, [Start] stops there. *)
Lemma Start_stops_on_error (ctx : Context) (st : St) (e : error) :
  fst (runState (Srv.listenAndEndpoint env) st) = Some e ->
  runState (Srv.Start env ctx) st
  = (Done (startResult (Some e)),
     snd (runState (Srv.listenAndEndpoint env) st)).
Proof.
  intro H. rewrite Start_run. cbn zeta.
  destruct (enableHttp3 (srv st));
    [ rewrite startHTTP3_run | rewrite startHTTP_run ];
    destruct (runState (Srv.listenAndEndpoint env) st) as [r st1];
    cbn [fst snd] in *; subst r; reflexivity.
Qed.

Lemma exec_failed (o : Op) (st : St) :
  isSome (err (srv st)) = true ->
  isSome (err (srv (exec env o st))) = true.
Proof.
  intro H. destruct o; cbn [exec].
  - destruct (listenAndEndpoint_failed st H) as [Hr Herr].
    destruct (fst (runState (Srv.listenAndEndpoint env) st)) as [e|] eqn:He;
      [ | discriminate ].
    rewrite (Start_stops_on_error ctx st He). exact Herr.
  - unfold Srv.Stop, Srv.self, Srv.call. cbn.
    destruct (enableHttp3 (srv st));
      [ destruct (http3srv (srv st)) | destruct (httpsrv (srv st)) ];
      exact H.
  - rewrite Endpoint_run.
    destruct (listenAndEndpoint_failed st H) as [_ Herr].
    destruct (runState (Srv.listenAndEndpoint env) st) as [[e|] st1];
      exact Herr.
  - unfold Srv.ServeHTTP, Srv.self. cbn.
    destruct (enableHttp3 (srv st));
      [ destruct (http3srv (srv st)) | destruct (httpsrv (srv st)) ];
      exact H.
  - exact H.
  - exact H.
  - exact H.
  - exact H.
  - exact H.
Qed.

Lemma execAll_failed (ops : list Op) (st : St) :
  isSome (err (srv st)) = true ->
  isSome (err (srv (execAll env ops st))) = true.
Proof.
  revert st. induction ops as [|o ops IH]; intros st H; cbn.
  - exact H.
  - apply IH. now apply exec_failed.
Qed.

(** The bind that fails. *)
Lemma bindListener_fails (st : St) (e : error) :
  activeListener (srv st) = false ->
  bindAnswer env (trace st) (srv st) = Some e ->
  runState (Srv.bindListener env) st
  = (Some e, {| srv := set_err (Some e) (srv st);
                trace := (trace st ++ [bindEvent (srv st)])%list |}).
Proof.
  intros Hact Hans. rewrite bindListener_run, Hact. cbn zeta.
  unfold bindAnswer in Hans. destruct (enableHttp3 (srv st)).
  - destruct (quic_ListenAddrEarly env (trace st) (address (srv st))
                (tlsConf (srv st))); [ discriminate | ].
    now injection Hans as ->.
  - destruct (net_Listen env (trace st) (network (srv st))
                (address (srv st))); [ discriminate | ].
    now injection Hans as ->.
Qed.

Lemma listenAndEndpoint_bind_fails (st : St) (e : error) :
  activeListener (srv st) = false ->
  bindAnswer env (trace st) (srv st) = Some e ->
  runState (Srv.listenAndEndpoint env) st
  = (Some e, {| srv := set_err (Some e) (srv st);
                trace := (trace st ++ [bindEvent (srv st)])%list |}).
Proof.
  intros Hact Hans.
  rewrite listenAndEndpoint_run, (bindListener_fails st Hact Hans).
  reflexivity.
Qed.

End Failure.

(** C3, the defect.  The failure of a bind is stored in [s.err], and
    [listenAndEndpoint] ends with [return s.err]; but the bind is guarded
    by the listener alone, never by the stored error.  So, when the server
    has no listener for its mode and the bind fails with [e1]: the call
    returns [e1], stores it and leaves the server without a listener (first
    part); the next resolution binds again, returns the error of that
    second bind when it fails too, and when it succeeds returns the stored
    [e1], or the error of the address extraction, with the listener now
    held (second part); and from the first failure on every [Endpoint] and
    every [Start], after whatever methods, returns an error, [Start]
    without serving (third part). *)
Theorem bind_failure_is_stored_and_bind_retried :
  forall (env : Env) (st : St) (e1 : error),
    activeListener (srv st) = false ->
    bindAnswer env (trace st) (srv st) = Some e1 ->
    let r1 := runState (Srv.listenAndEndpoint env) st in
    let st1 := snd r1 in
    (fst r1 = Some e1
     /\ fst (runState (Srv.Endpoint env) st) = (None, Some e1)
     /\ err (srv st1) = Some e1
     /\ activeListener (srv st1) = false
     /\ trace st1 = (trace st ++ [bindEvent (srv st)])%list)
    /\ (let r2 := runState (Srv.listenAndEndpoint env) st1 in
        trace (snd r2) = (trace st1 ++ [bindEvent (srv st1)])%list
        /\ exists e2,
            fst r2 = Some e2
            /\ (forall e, bindAnswer env (trace st1) (srv st1) = Some e -> e2 = e)
            /\ (bindAnswer env (trace st1) (srv st1) = None ->
                e2 = e1
                \/ exists a, host_Extract env (address (srv st1)) a = inr e2))
    /\ (forall (ops : list Op) (ctx : Context),
           let st2 := execAll env ops st1 in
           exists e,
             fst (runState (Srv.Endpoint env) st2) = (None, Some e)
             /\ runState (Srv.Start env ctx) st2
                = (Done (startResult (Some e)),
                   snd (runState (Srv.listenAndEndpoint env) st2))
             /\ List.filter isServe
                  (trace (snd (runState (Srv.Start env ctx) st2)))
                = List.filter isServe (trace st2)).
Proof.
  intros env st e1 Hact Hans. cbn zeta.
  rewrite Endpoint_run, (listenAndEndpoint_bind_fails env st Hact Hans).
  cbn [fst snd].
  set (st1 := {| srv := set_err (Some e1) (srv st);
                 trace := (trace st ++ [bindEvent (srv st)])%list |}).
  assert (Hact1 : activeListener (srv st1) = false) by exact Hact.
  split; [ repeat split; exact Hact | split ].
  - pose proof (listenAndEndpoint_trace env st1) as Htr. cbn zeta in Htr.
    rewrite Hact1 in Htr. split; [ exact Htr | ].
    destruct (bindAnswer env (trace st1) (srv st1)) as [e|] eqn:Hans1.
    + rewrite (listenAndEndpoint_bind_fails env st1 Hact1 Hans1).
      exists e. split; [ reflexivity | split ].
      * intros e0 H. congruence.
      * discriminate.
    + rewrite listenAndEndpoint_run, bindListener_run, Hact1. cbn zeta.
      unfold bindAnswer in Hans1.
      destruct (enableHttp3 (srv st1)).
      * destruct (quic_ListenAddrEarly env (trace st1) (address (srv st1))
                    (tlsConf (srv st1))) as [l|]; [ | discriminate ].
        rewrite handleEndpoint_run. cbn [srv trace].
        destruct (endpoint (set_http3Lis (Some l) (srv st1))).
        -- exists e1. repeat split; [ discriminate | now left ].
        -- destruct (host_Extract env
                       (address (set_http3Lis (Some l) (srv st1)))
                       (option_map Addr
                          (http3Lis (set_http3Lis (Some l) (srv st1)))))
             as [a|e] eqn:Hx.
           ++ exists e1. repeat split; [ discriminate | now left ].
           ++ exists e. repeat split; [ discriminate | ].
              intros _. right. eexists. exact Hx.
      * destruct (net_Listen env (trace st1) (network (srv st1))
                    (address (srv st1))) as [l|]; [ | discriminate ].
        rewrite handleEndpoint_run. cbn [srv trace].
        destruct (endpoint (set_lis (Some l) (srv st1))).
        -- exists e1. repeat split; [ discriminate | now left ].
        -- destruct (host_Extract env
                       (address (set_lis (Some l) (srv st1)))
                       (option_map Addr
                          (http3Lis (set_lis (Some l) (srv st1)))))
             as [a|e] eqn:Hx.
           ++ exists e1. repeat split; [ discriminate | now left ].
           ++ exists e. repeat split; [ discriminate | ].
              intros _. right. eexists. exact Hx.
  - intros ops ctx.
    assert (Hf : isSome (err (srv (execAll env ops st1))) = true)
      by (apply execAll_failed; reflexivity).
    set (st2 := execAll env ops st1) in *.
    destruct (listenAndEndpoint_failed env st2 Hf) as [Hr _].
    destruct (fst (runState (Srv.listenAndEndpoint env) st2)) as [e|] eqn:He;
      [ | discriminate ].
    exists e. rewrite (Start_stops_on_error env ctx st2 He).
    rewrite Endpoint_run.
    pose proof (listenAndEndpoint_trace env st2) as Htr. cbn zeta in Htr.
    destruct (runState (Srv.listenAndEndpoint env) st2) as [r st3];
      cbn [fst snd] in *. subst r.
    repeat split. rewrite Htr, filter_app.
    destruct (activeListener (srv st2)); cbn; [ now rewrite app_nil_r | ].
    unfold bindEvent. destruct (enableHttp3 (srv st2)); cbn;
      now rewrite app_nil_r.
Qed.

(** The default server on a machine where the first bind fails and the
    later ones succeed: the second resolution binds again. *)
Lemma bind_failure_is_stored_and_bind_retried_witness :
  let st1 := snd (runState (Srv.listenAndEndpoint Sample.flaky) (fresh [])) in
  let r2 := runState (Srv.listenAndEndpoint Sample.flaky) st1 in
  err (srv st1) = Some Sample.inUse
  /\ trace (snd r2) = [EvListen "tcp" ":0"; EvListen "tcp" ":0"].
Proof.
  pose proof (bind_failure_is_stored_and_bind_retried Sample.flaky (fresh [])
                eq_refl eq_refl) as H.
  cbn zeta in H. destruct H as [(_ & _ & H1 & _) [[H2 _] _]].
  split; [ exact H1 | exact H2 ].
Defined.

(** The same server on a machine where every bind fails, the first with
    "address already in use" and the later ones with "permission denied":
    the second [Endpoint] binds again and returns the error of that second
    bind, not the one stored by the first. *)
Lemma second_Endpoint_binds_again :
  let r1 := runState (Srv.Endpoint Sample.failing) (fresh []) in
  let r2 := runState (Srv.Endpoint Sample.failing) (snd r1) in
  fst r1 = (None, Some Sample.inUse)
  /\ err (srv (snd r1)) = Some Sample.inUse
  /\ fst r2 = (None, Some Sample.denied)
  /\ Sample.denied <> Sample.inUse
  /\ trace (snd r1) = [EvListen "tcp" ":0"]
  /\ trace (snd r2) = [EvListen "tcp" ":0"; EvListen "tcp" ":0"].
Proof.
  cbn zeta. repeat split. discriminate.
Qed.

(** And on a machine where only the first bind fails: the second
    [Endpoint] binds, the server then holds its listener and its endpoint,
    and this call and the next still return the error of the first bind. *)
Lemma stale_error_after_a_successful_bind :
  let r1 := runState (Srv.Endpoint Sample.flaky) (fresh []) in
  let r2 := runState (Srv.Endpoint Sample.flaky) (snd r1) in
  let r3 := runState (Srv.Endpoint Sample.flaky) (snd r2) in
  fst r1 = (None, Some Sample.inUse)
  /\ fst r2 = (None, Some Sample.inUse)
  /\ lis (srv (snd r2)) = Some Sample.tcpLis
  /\ endpoint (srv (snd r2))
     = Some (endpoint_NewEndpoint "http" "192.168.1.10:0")
  /\ fst r3 = (None, Some Sample.inUse)
  /\ trace (snd r3) = [EvListen "tcp" ":0"; EvListen "tcp" ":0"].
Proof.
  cbn zeta. repeat split.
Qed.

(** ** The route walk *)

Lemma error_eqb_eq (a b : error) : error_eqb a b = true <-> a = b.
Proof.
  revert b. induction a as [x|x|m a IH]; intros [y|y|n b]; cbn;
    try (split; intro H; discriminate).
  - rewrite String.eqb_eq. split; intro H; congruence.
  - rewrite String.eqb_eq. split; intro H; congruence.
  - rewrite andb_true_iff, String.eqb_eq, IH. split.
    + intros [-> ->]. reflexivity.
    + intro H. injection H as -> ->. split; reflexivity.
Qed.

Lemma not_SkipRouter (e : error) :
  e <> mux.SkipRouter -> error_eqb e mux.SkipRouter = false.
Proof.
  intro H. destruct (error_eqb e mux.SkipRouter) eqn:E; [ | reflexivity ].
  apply error_eqb_eq in E. contradiction.
Qed.

(** Induction over a route and the routes of its sub-router. *)
Lemma Route_tree_ind (P : mux.Route -> Prop) :
  (forall r : mux.Route, Forall P (mux.subroutes r) -> P r) ->
  forall r : mux.Route, P r.
Proof.
  intro H. fix IH 1. intro r. apply H.
  destruct r as [pt ip ms hd h subs]. cbn.
  induction subs as [|s subs IHs]; constructor; [ apply IH | exact IHs ].
Qed.

Section Walking.

Variable T : Type.
Variable fn : WalkRouteFunc T.

Lemma run_bindT (A B : Type) (c : state T A) (f : A -> state T B) (t : T) :
  runState (bind c f) t
  = runState (f (fst (runState c t))) (snd (runState c t)).
Proof. cbn. destruct (runState c t). reflexivity. Qed.

Lemma visit_app (xs ys : list (RouteInfo + error)) (t : T) :
  runState (visit fn (xs ++ ys)) t
  = match fst (runState (visit fn xs) t) with
    | Some e => runState (visit fn xs) t
    | None => runState (visit fn ys) (snd (runState (visit fn xs) t))
    end.
Proof.
  revert t. induction xs as [|[i|e] xs IH]; intro t.
  - reflexivity.
  - cbn [app visit]. rewrite !run_bindT.
    destruct (runState (fn i) t) as [[e|] t1]; cbn [fst snd].
    + reflexivity.
    + apply IH.
  - reflexivity.
Qed.

Lemma eachMethod_visit (path : string) (ms : list string) (t : T) :
  runState (eachMethod fn path ms) t
  = runState
      (visit fn (map (fun m => inl {| Method := m; Path := path |}) ms)) t.
Proof.
  revert t. induction ms as [|m ms IH]; intro t.
  - reflexivity.
  - cbn [eachMethod map visit]. rewrite !run_bindT.
    destruct (runState (fn {| Path := path; Method := m |}) t)
      as [[e|] t1]; cbn [fst snd]; [ reflexivity | apply IH ].
Qed.

Lemma walkRouteFn_visit (r : mux.Route) (t : T) :
  runState (walkRouteFn fn r) t = runState (visit fn (yielded r)) t.
Proof.
  unfold walkRouteFn, yielded, mux.GetMethods, mux.GetPathTemplate.
  destruct (mux.methods r) as [ms|]; [ | reflexivity ].
  destruct (mux.pathTemplate r) as [tpl|]; [ | reflexivity ].
  apply eachMethod_visit.
Qed.

(** A route without methods: the walk function returns nil at once. *)
Lemma walkRouteFn_no_methods (r : mux.Route) (t : T) :
  snd (mux.GetMethods r) <> None ->
  yielded r = [] /\ runState (walkRouteFn fn r) t = (None, t).
Proof.
  intro H. assert (Hy : yielded r = []).
  { unfold yielded. unfold mux.GetMethods in H.
    destruct (mux.methods r); [ now elim H | reflexivity ]. }
  split; [ exact Hy | ]. rewrite walkRouteFn_visit, Hy. reflexivity.
Qed.

Lemma forEachRoute_cons (body : mux.Route -> state T (option error))
  (r : mux.Route) (rest : list mux.Route) (t : T) :
  runState (forEachRoute body (r :: rest)) t
  = match fst (runState (body r) t) with
    | Some e => (Some e, snd (runState (body r) t))
    | None => runState (forEachRoute body rest) (snd (runState (body r) t))
    end.
Proof.
  cbn [forEachRoute]. rewrite run_bindT.
  destruct (runState (body r) t) as [[e|] t1]; reflexivity.
Qed.

Lemma forEachRoute_app (body : mux.Route -> state T (option error))
  (xs ys : list mux.Route) (t : T) :
  runState (forEachRoute body (xs ++ ys)) t
  = match fst (runState (forEachRoute body xs) t) with
    | Some e => runState (forEachRoute body xs) t
    | None =>
        runState (forEachRoute body ys)
          (snd (runState (forEachRoute body xs) t))
    end.
Proof.
  revert t. induction xs as [|x xs IH]; intro t.
  - reflexivity.
  - cbn [app]. rewrite !forEachRoute_cons.
    destruct (runState (body x) t) as [[e|] t1]; cbn [fst snd].
    + reflexivity.
    + apply IH.
Qed.

(** One turn of the loop of [walk], by what the walk function returns. *)
Lemma mux_walkRoute_run (walkFn : WalkFunc T) (r : mux.Route) (t : T) :
  runState (mux_walkRoute walkFn r) t
  = match fst (runState (walkFn r) t) with
    | Some e =>
        (if error_eqb e mux.SkipRouter then None else Some e,
         snd (runState (walkFn r) t))
    | None =>
        runState (mux_walk walkFn (mux.subroutes r))
          (snd (runState (walkFn r) t))
    end.
Proof.
  destruct r as [pt ip ms hd h subs]. unfold mux_walk.
  cbn [mux_walkRoute]. rewrite run_bindT.
  destruct (runState (walkFn _) t) as [[e|] t1]; cbn [fst snd].
  - destruct (error_eqb e mux.SkipRouter); reflexivity.
  - reflexivity.
Qed.

(** As long as the callback does not return [mux.SkipRouter], the walk is
    the iteration over the pairs of the routes in pre-order. *)
Lemma forEachRoute_visit (rs : list mux.Route) :
  Forall (fun r : mux.Route =>
            forall t : T,
              fst (runState (visit fn (flat_map yielded (mux.walkRoute r))) t)
              <> Some mux.SkipRouter ->
              runState (mux_walkRoute (walkRouteFn fn) r) t
              = runState (visit fn (flat_map yielded (mux.walkRoute r))) t)
    rs ->
  forall t : T,
    fst (runState (visit fn (flat_map yielded (mux.walkOrder rs))) t)
    <> Some mux.SkipRouter ->
    runState (mux_walk (walkRouteFn fn) rs) t
    = runState (visit fn (flat_map yielded (mux.walkOrder rs))) t.
Proof.
  intro Hrs. induction Hrs as [|x xs Hx Hxs IH]; intros t Hskip.
  - reflexivity.
  - unfold mux_walk, mux.walkOrder in *. cbn [flat_map] in *.
    rewrite flat_map_app, visit_app in *. rewrite forEachRoute_cons.
    destruct (fst (runState (visit fn (flat_map yielded (mux.walkRoute x))) t))
      as [e|] eqn:Hfst.
    + rewrite (Hx t) by exact Hskip.
      rewrite Hfst.
      destruct (runState (visit fn (flat_map yielded (mux.walkRoute x))) t);
        cbn [fst snd] in *. now subst.
    + rewrite (Hx t) by (rewrite Hfst; discriminate).
      rewrite Hfst. apply IH. exact Hskip.
Qed.

Lemma mux_walkRoute_visit (r : mux.Route) :
  forall t : T,
    fst (runState (visit fn (flat_map yielded (mux.walkRoute r))) t)
    <> Some mux.SkipRouter ->
    runState (mux_walkRoute (walkRouteFn fn) r) t
    = runState (visit fn (flat_map yielded (mux.walkRoute r))) t.
Proof.
  induction r as [r IH] using Route_tree_ind. intros t.
  replace (mux.walkRoute r) with (r :: mux.walkOrder (mux.subroutes r))
    by (destruct r; reflexivity).
  cbn [flat_map]. rewrite visit_app, mux_walkRoute_run, walkRouteFn_visit.
  destruct (runState (visit fn (yielded r)) t) as [[e|] t1]; cbn [fst snd].
  - intro Hskip. rewrite not_SkipRouter by congruence. reflexivity.
  - apply forEachRoute_visit. exact IH.
Qed.

Lemma mux_walk_visit (rs : list mux.Route) (t : T) :
  fst (runState (visit fn (flat_map yielded (mux.walkOrder rs))) t)
  <> Some mux.SkipRouter ->
  runState (mux_walk (walkRouteFn fn) rs) t
  = runState (visit fn (flat_map yielded (mux.walkOrder rs))) t.
Proof.
  apply forEachRoute_visit. apply Forall_forall.
  intros r _. apply mux_walkRoute_visit.
Qed.

Lemma WalkRoute_visit (s : Server) (t : T) :
  fst (runState
         (visit fn (flat_map yielded (mux.walkOrder (mux.routes (router s)))))
         t)
  <> Some mux.SkipRouter ->
  runState (WalkRoute fn s) t
  = runState
      (visit fn (flat_map yielded (mux.walkOrder (mux.routes (router s))))) t.
Proof. unfold WalkRoute, mux_Walk. apply mux_walk_visit. Qed.

(** A route without methods at the head of the loop: the walk goes on with
    the routes of its sub-router, then with the routes that follow. *)
Lemma mux_walk_no_methods (r : mux.Route) (rest : list mux.Route) (t : T) :
  snd (mux.GetMethods r) <> None ->
  runState (mux_walk (walkRouteFn fn) (r :: rest)) t
  = runState (mux_walk (walkRouteFn fn) (mux.subroutes r ++ rest)) t.
Proof.
  intro H. unfold mux_walk.
  rewrite forEachRoute_cons, forEachRoute_app, mux_walkRoute_run.
  rewrite (proj2 (walkRouteFn_no_methods r t H)). cbn [fst snd].
  unfold mux_walk.
  destruct (runState (forEachRoute (mux_walkRoute (walkRouteFn fn))
                        (mux.subroutes r)) t) as [[e|] t1]; reflexivity.
Qed.

(** The callback returns [mux.SkipRouter] on a pair of the route at the
    head of the loop: the rest of that route and its sub-router are passed
    over, and the walk goes on with the routes that follow. *)
Lemma mux_walk_SkipRouter (r : mux.Route) (rest : list mux.Route) (t : T) :
  fst (runState (visit fn (yielded r)) t) = Some mux.SkipRouter ->
  runState (mux_walk (walkRouteFn fn) (r :: rest)) t
  = runState (mux_walk (walkRouteFn fn) rest)
      (snd (runState (visit fn (yielded r)) t)).
Proof.
  intro H. unfold mux_walk.
  rewrite forEachRoute_cons, mux_walkRoute_run, walkRouteFn_visit, H.
  reflexivity.
Qed.

End Walking.

(** C8, as amended.  [WalkRoute] hands the callback the (method, path
    template) pairs of the registered routes, route by route in pre-order
    (a route, then the routes of its sub-router, then the routes that
    follow it), as long as the callback does not return [mux.SkipRouter].
    When the callback returns an error other than [mux.SkipRouter] on a
    pair that the walk reaches, the walk stops there and [WalkRoute]
    returns that error, with what that call left.  A route whose methods
    cannot be resolved yields no pair and no error: the walk function
    returns nil for it without calling the callback, and the walk is the
    one of the server that has the routes of its sub-router in its
    place. *)
Theorem WalkRoute_yields_pairs_and_stops_at_first_error :
  forall (T : Type) (fn : WalkRouteFunc T) (s : Server) (t : T),
    let items := flat_map yielded (mux.walkOrder (mux.routes (router s))) in
    (fst (runState (visit fn items) t) <> Some mux.SkipRouter ->
     runState (WalkRoute fn s) t = runState (visit fn items) t)
    /\ (forall (pre : list RouteInfo) (i : RouteInfo)
               (post : list (RouteInfo + error)) (e : error),
           items = (map inl pre ++ inl i :: post)%list ->
           let before := runState (visit fn (map inl pre)) t in
           fst before = None ->
           fst (runState (fn i) (snd before)) = Some e ->
           e <> mux.SkipRouter ->
           runState (WalkRoute fn s) t
           = (Some e, snd (runState (fn i) (snd before))))
    /\ (forall (r : mux.Route) (t' : T),
           snd (mux.GetMethods r) <> None ->
           yielded r = []
           /\ runState (walkRouteFn fn r) t' = (None, t'))
    /\ (forall (s' : Server) (pre post : list mux.Route) (r : mux.Route),
           mux.routes (router s) = (pre ++ r :: post)%list ->
           mux.routes (router s')
           = (pre ++ mux.subroutes r ++ post)%list ->
           snd (mux.GetMethods r) <> None ->
           runState (WalkRoute fn s) t = runState (WalkRoute fn s') t).
Proof.
  intros T fn s t items.
  assert (Hstop : forall (pre : list RouteInfo) (i : RouteInfo)
                         (post : list (RouteInfo + error)) (e : error),
             items = (map inl pre ++ inl i :: post)%list ->
             fst (runState (visit fn (map inl pre)) t) = None ->
             fst (runState (fn i) (snd (runState (visit fn (map inl pre)) t)))
             = Some e ->
             runState (visit fn items) t
             = (Some e,
                snd (runState (fn i)
                       (snd (runState (visit fn (map inl pre)) t))))).
  { intros pre i post e Hitems Hbefore Hfail.
    rewrite Hitems, visit_app, Hbefore. cbn [visit]. rewrite run_bindT.
    destruct (runState (fn i) (snd (runState (visit fn (map inl pre)) t)))
      as [r t1]; cbn [fst snd] in *.
    subst r. reflexivity. }
  split; [ apply WalkRoute_visit | split; [ | split ] ].
  - intros pre i post e Hitems before Hbefore Hfail He.
    specialize (Hstop pre i post e Hitems Hbefore Hfail).
    rewrite WalkRoute_visit; fold items; rewrite Hstop;
      [ reflexivity | cbn; congruence ].
  - intros r t' Hr. now apply walkRouteFn_no_methods.
  - intros s' pre post r Hs Hs' Hr.
    unfold WalkRoute, mux_Walk. rewrite Hs, Hs'. unfold mux_walk.
    rewrite !forEachRoute_app.
    destruct (runState (forEachRoute (mux_walkRoute (walkRouteFn fn)) pre) t)
      as [[e|] t1]; cbn [fst snd]; [ reflexivity | ].
    rewrite <- forEachRoute_app.
    exact (mux_walk_no_methods fn r post t1 Hr).
Qed.

(** A server with the route /index, which has no methods, and the route
    /errors/cause for GET, POST and PUT; the callback records its calls and
    refuses POST. *)
Lemma WalkRoute_yields_pairs_and_stops_at_first_error_witness :
  let index := mux.mkRoute (Some "/index") false None []
                 (Some (http.HandlerFunc "h")) [] in
  let cause := mux.mkRoute (Some "/errors/cause") false
                 (Some ["GET"; "POST"; "PUT"]) []
                 (Some (http.HandlerFunc "cause")) [] in
  let s0 := NewServer [] in
  let s' := set_router (mux.addRoute cause (router s0)) s0 in
  let s := set_router
             (mux.addRoute cause (mux.addRoute index (router s0))) s0 in
  let fn : WalkRouteFunc (list RouteInfo) :=
    fun i =>
      log <- get ;;
      put (log ++ [i])%list ;;
      ret (if String.eqb (Method i) "POST"
           then Some (errorString "refused") else None) in
  runState (WalkRoute fn s) []
  = (Some (errorString "refused"),
     [ {| Path := "/errors/cause"; Method := "GET" |};
       {| Path := "/errors/cause"; Method := "POST" |} ])
  /\ runState (WalkRoute fn s) [] = runState (WalkRoute fn s') [].
Proof.
  cbn zeta.
  match goal with
  | |- runState (WalkRoute ?fn ?s) ?t = _ /\ _ = runState (WalkRoute _ ?s') _ =>
      pose proof (WalkRoute_yields_pairs_and_stops_at_first_error fn s t)
        as (_ & Hstop & _ & Hskip);
      split;
      [ refine (Hstop [ {| Path := "/errors/cause"; Method := "GET" |} ]
                  {| Path := "/errors/cause"; Method := "POST" |}
                  [ inl {| Path := "/errors/cause"; Method := "PUT" |} ]
                  (errorString "refused") eq_refl eq_refl eq_refl _);
        discriminate
      | refine (Hskip s' [] [_] _ eq_refl eq_refl _); discriminate ]
  end.
Defined.

(** C8, as first stated, fails for the error [mux.SkipRouter]: the callback
    returns it on the pair (POST, /errors/cause), and the walk does not
    stop.  [Walk] passes over the rest of that route (PUT is never handed
    to the callback), goes on with the route /index, and [WalkRoute]
    returns nil. *)
Lemma SkipRouter_does_not_stop_the_walk :
  let cause := mux.mkRoute (Some "/errors/cause") false
                 (Some ["GET"; "POST"; "PUT"]) []
                 (Some (http.HandlerFunc "cause")) [] in
  let index := mux.mkRoute (Some "/index") false (Some ["GET"]) []
                 (Some (http.HandlerFunc "h")) [] in
  let s0 := NewServer [] in
  let s := set_router
             (mux.addRoute index (mux.addRoute cause (router s0))) s0 in
  let fn : WalkRouteFunc (list RouteInfo) :=
    fun i =>
      log <- get ;;
      put (log ++ [i])%list ;;
      ret (if String.eqb (Method i) "POST"
           then Some mux.SkipRouter else None) in
  fst (runState (fn {| Path := "/errors/cause"; Method := "POST" |})
         [ {| Path := "/errors/cause"; Method := "GET" |} ])
  = Some mux.SkipRouter
  /\ runState (WalkRoute fn s) []
     = (None,
        [ {| Path := "/errors/cause"; Method := "GET" |};
          {| Path := "/errors/cause"; Method := "POST" |};
          {| Path := "/index"; Method := "GET" |} ]).
Proof.
  cbn zeta. split; reflexivity.
Qed.

(** ** Requests through the router and the wrapper *)

Lemma fresh_srv (opts : list ServerOption) : srv (fresh opts) = NewServer opts.
Proof. reflexivity. Qed.

Lemma options_middlewares (opts : list ServerOption) (s : Server) :
  mux.middlewares (router s) = [] ->
  mux.middlewares (router (fold_left (fun s o => applyOption o s) opts s)) = [].
Proof.
  revert s. induction opts as [|o opts IH]; intros s H; cbn.
  - exact H.
  - apply IH. destruct o; cbn; try exact H. reflexivity.
Qed.

Lemma NewServer_router (opts : list ServerOption) :
  mux.strictSlash (router (NewServer opts)) = strictSlash (NewServer opts)
  /\ mux.middlewares (router (NewServer opts)) = [mux.ServerFilter].
Proof.
  unfold NewServer.
  match goal with
  | |- context [fold_left ?f opts ?s0] =>
      pose proof (options_middlewares opts s0 eq_refl) as Hm;
      generalize dependent (fold_left f opts s0)
  end.
  intros s Hm. destruct (enableHttp3 s) eqn:He; cbn; rewrite He; cbn;
    rewrite Hm; split; reflexivity.
Qed.

(** The router of the server has one middleware, the filter of the server,
    and the methods keep it so; they keep the timeout as well. *)
Lemma execAll_middlewares (env : Env) (opts : list ServerOption)
  (ops : list Op) :
  mux.middlewares (router (srv (execAll env ops (fresh opts))))
  = [mux.ServerFilter].
Proof.
  pose proof (execAll_keeps
                (fun s => mux.middlewares (router s))
                (fun _ _ => eq_refl) (fun _ _ => eq_refl) (fun _ _ => eq_refl)
                (fun _ _ => eq_refl) (fun _ _ => eq_refl)
                (fun _ _ _ _ => eq_refl) (fun _ _ => eq_refl)
                env ops (fresh opts)) as Hk.
  cbn beta in Hk. rewrite Hk, fresh_srv. apply NewServer_router.
Qed.

Lemma execAll_timeout (env : Env) (opts : list ServerOption) (ops : list Op) :
  timeout (srv (execAll env ops (fresh opts))) = timeout (NewServer opts).
Proof.
  pose proof (execAll_keeps
                timeout
                (fun _ _ => eq_refl) (fun _ _ => eq_refl) (fun _ _ => eq_refl)
                (fun _ _ => eq_refl) (fun _ _ => eq_refl)
                (fun _ _ _ _ => eq_refl) (fun _ _ => eq_refl)
                env ops (fresh opts)) as Hk.
  rewrite Hk, fresh_srv. reflexivity.
Qed.

(** The timeout of a server built without the option [Timeout]. *)
Lemma options_timeout (opts : list ServerOption) (s : Server) :
  existsb isTimeout opts = false ->
  timeout (fold_left (fun s o => applyOption o s) opts s) = timeout s.
Proof.
  revert s. induction opts as [|o opts IH]; intros s H; cbn in *.
  - reflexivity.
  - apply orb_false_elim in H as [Ho Hopts]. rewrite (IH _ Hopts).
    destruct o; cbn in *; try reflexivity. discriminate.
Qed.

Lemma NewServer_default_timeout (opts : list ServerOption) :
  existsb isTimeout opts = false -> timeout (NewServer opts) = 1 * Second.
Proof.
  intro H. unfold NewServer.
  match goal with
  | |- context [fold_left ?f opts ?s0] =>
      pose proof (options_timeout opts s0 H) as Ht;
      set (s1 := fold_left f opts s0) in *
  end.
  cbn in Ht. destruct (enableHttp3 _); cbn; exact Ht.
Qed.

Lemma Request_WithContext_Context (req : Request) (c : Context) :
  Request_Context (Request_WithContext req c) = c.
Proof. destruct req. reflexivity. Qed.

Lemma Request_WithContext_head (req : Request) (c : Context) :
  Request_Method (Request_WithContext req c) = Request_Method req
  /\ Request_Path (Request_WithContext req c) = Request_Path req
  /\ Request_Header (Request_WithContext req c) = Request_Header req.
Proof. destruct req. repeat split. Qed.

Lemma lookup_other_key (c : Context) (tr : Transport) (key : ctxKey) :
  key <> serverTransportKey ->
  context.lookup (transport.NewServerContext c tr) key = context.lookup c key.
Proof.
  intro H. unfold transport.NewServerContext. cbn.
  destruct key; cbn; try reflexivity. now elim H.
Qed.

(** The context that the wrapper derives holds what the context of the
    request holds, under every key but that of the Transport Context. *)
Lemma derived_lookup (c : Context) (b : bool) (d : Time) (tr : Transport)
  (key : ctxKey) :
  key <> serverTransportKey ->
  context.lookup
    (transport.NewServerContext (if b then WithDeadline c d else WithCancel c)
       tr) key
  = context.lookup c key.
Proof.
  intro H. rewrite lookup_other_key by exact H. destruct b; reflexivity.
Qed.

(** The wrapper, step by step: the derived context [scope], the transport
    [tr], and the derived request [req'], which is [tr.request]. *)
Lemma filter_run (env : Env) (s : Server) (now : Time) (next : HandlerFn)
  (w : ResponseWriter) (req : Request) :
  let scope :=
    if timeout s >? 0
    then WithDeadline (Request_Context req) (now + timeout s)
    else WithCancel (Request_Context req) in
  let op :=
    match mux_CurrentRoute req with
    | Some route => fst (mux.GetPathTemplate route)
    | None => Request_Path req
    end in
  let tr :=
    mkTransport
      (match endpoint s with Some u => url_String env u | None => "" end)
      op op (Request_Header req) (rw_Header w)
      (Request_WithContext req scope) in
  let req' := Request_WithContext req (transport.NewServerContext scope tr) in
  Transport_request tr = req'
  /\ filter env s now next w req
     = ((EvNext w req' :: fst (next w req') ++ [EvCancel scope])%list,
        snd (next w req')).
Proof.
  cbn zeta. unfold filter, defer, context.WithTimeout, Transport_request.
  destruct req as [m p h c].
  cbn [Request_WithContext Request_Context Request_Header Request_Path].
  split; [ reflexivity | ].
  destruct (next w _) as [evs out]. reflexivity.
Qed.

(** The values that the router puts in the context of a matched request. *)
Lemma routedRequest_Context (engine : Engine) (rt : mux.Route) (req : Request) :
  Request_Context (routedRequest engine rt req)
  = WithValue
      (WithValue (Request_Context req) varsKey (VVars (routeVars engine rt req)))
      routeKey (VRoute rt).
Proof. destruct req. reflexivity. Qed.

Lemma routedRequest_head (engine : Engine) (rt : mux.Route) (req : Request) :
  Request_Method (routedRequest engine rt req) = Request_Method req
  /\ Request_Path (routedRequest engine rt req) = Request_Path req
  /\ Request_Header (routedRequest engine rt req) = Request_Header req
  /\ mux_CurrentRoute (routedRequest engine rt req) = Some rt.
Proof. destruct req. repeat split. Qed.

Lemma mux_Match_In (accepts wrongMethod : mux.Route -> Request -> bool)
  (r : mux.Router) (req : Request) (rt : mux.Route) :
  mux_Match accepts wrongMethod r req = Matched rt ->
  In rt (mux.routes r) /\ accepts rt req = true.
Proof.
  unfold mux_Match.
  destruct (find (fun rt => accepts rt req) (mux.routes r)) as [rt'|] eqn:Hf.
  - intro H. injection H as <-. exact (find_some _ _ Hf).
  - destruct (existsb _ _); discriminate.
Qed.

(** A request that matches a route goes through the wrapper of the server,
    around the handler of the match. *)
Lemma mux_ServeHTTP_matched (engine : Engine) (env : Env) (s : Server)
  (now : Time) (w : ResponseWriter) (req : Request) (rt : mux.Route) :
  mux.middlewares (router s) = [mux.ServerFilter] ->
  cleanPath engine (Request_Path req) = Request_Path req ->
  mux_Match (accepts engine) (wrongMethod engine) (router s) req = Matched rt ->
  mux_ServeHTTP engine env s now w req
  = filter env s now (callHandler engine (matchHandler engine rt req)) w
      (routedRequest engine rt req).
Proof.
  intros Hmw Hclean Hm. unfold mux_ServeHTTP. cbn zeta.
  rewrite Hclean, String.eqb_refl, Hm, Hmw. cbn [negb].
  destruct (matchHandler engine rt req); reflexivity.
Qed.

(** A request that matches no route goes to the configured handler as it
    is, but for the nil route and the nil variables. *)
Lemma mux_ServeHTTP_missed (engine : Engine) (env : Env) (s : Server)
  (now : Time) (w : ResponseWriter) (req : Request) (h : http.Handler) :
  missHandlers s = (Some h, Some h) ->
  cleanPath engine (Request_Path req) = Request_Path req ->
  (forall rt : mux.Route,
      mux_Match (accepts engine) (wrongMethod engine) (router s) req
      <> Matched rt) ->
  mux_ServeHTTP engine env s now w req
  = callHandler engine (Some h) w (missedRequest req).
Proof.
  intros Hh Hclean Hm. unfold missHandlers in Hh. injection Hh as Hnf Hma.
  unfold mux_ServeHTTP. cbn zeta.
  rewrite Hclean, String.eqb_refl, Hnf, Hma. cbn [negb].
  destruct (mux_Match (accepts engine) (wrongMethod engine) (router s) req)
    as [rt| |]; [ now elim (Hm rt) | reflexivity | reflexivity ].
Qed.

Lemma missedRequest_Context (req : Request) (key : ctxKey) :
  key <> routeKey -> key <> varsKey ->
  context.lookup (Request_Context (missedRequest req)) key
  = context.lookup (Request_Context req) key.
Proof.
  intros Hr Hv. destruct req as [m p h c]. cbn.
  destruct key; cbn; try reflexivity; congruence.
Qed.

(** C4, as amended.  Take a server whose router has the filter of the
    server as its one middleware; every server built by [NewServer] is
    such, whatever methods are called on it (last part), and whatever
    routes its router holds.  A request that the router matches to a route
    [rt], one of the registered routes, reaches the handler of the match
    through the wrapper: the handler is called with a request whose
    context carries a Transport Context, and the operation of that
    Transport Context is the path template of [rt] ([GetPathTemplate], so
    the template with which the route was registered when it has one),
    whatever the path of the request. *)
Theorem matched_request_operation :
  forall (engine : Engine) (env : Env) (s : Server) (now : Time)
         (w : ResponseWriter) (req : Request) (rt : mux.Route),
    mux.middlewares (router s) = [mux.ServerFilter] ->
    cleanPath engine (Request_Path req) = Request_Path req ->
    mux_Match (accepts engine) (wrongMethod engine) (router s) req
    = Matched rt ->
    In rt (mux.routes (router s))
    /\ (exists (req' : Request) (tr : Transport) (rest : list PEvent),
          let inner :=
            callHandler engine (matchHandler engine rt req) w req' in
          mux_ServeHTTP engine env s now w req
          = ((EvNext w req' :: fst inner ++ rest)%list, snd inner)
          /\ Request_Method req' = Request_Method req
          /\ Request_Path req' = Request_Path req
          /\ mux_CurrentRoute req' = Some rt
          /\ transport.FromServerContext (Request_Context req') = Some tr
          /\ Transport_operation tr = fst (mux.GetPathTemplate rt)
          /\ (forall tpl : string,
                 mux.pathTemplate rt = Some tpl ->
                 Transport_operation tr = tpl))
    /\ (forall (env' : Env) (opts : list ServerOption) (ops : list Op),
          mux.middlewares (router (srv (execAll env' ops (fresh opts))))
          = [mux.ServerFilter]).
Proof.
  intros engine env s now w req rt Hmw Hclean Hm.
  split; [ exact (proj1 (mux_Match_In _ _ _ _ Hm)) | ].
  split; [ | exact execAll_middlewares ].
  rewrite (mux_ServeHTTP_matched engine env s now w req Hmw Hclean Hm).
  destruct (routedRequest_head engine rt req) as (Hmeth & Hpath & _ & Hroute).
  pose proof (filter_run env s now
                (callHandler engine (matchHandler engine rt req)) w
                (routedRequest engine rt req)) as Hrun.
  cbn zeta in Hrun. destruct Hrun as [_ Hrun]. rewrite Hroute in Hrun.
  rewrite Hrun. clear Hrun.
  eexists. eexists. eexists. cbn zeta.
  split; [ reflexivity | ].
  rewrite Request_WithContext_Context.
  destruct (Request_WithContext_head (routedRequest engine rt req)
              (transport.NewServerContext
                 (if timeout s >? 0
                  then WithDeadline
                         (Request_Context (routedRequest engine rt req))
                         (now + timeout s)
                  else WithCancel
                         (Request_Context (routedRequest engine rt req)))
                 (mkTransport
                    (match endpoint s with
                     | Some u => url_String env u
                     | None => ""
                     end)
                    (fst (mux.GetPathTemplate rt))
                    (fst (mux.GetPathTemplate rt))
                    (Request_Header (routedRequest engine rt req))
                    (rw_Header w)
                    (Request_WithContext (routedRequest engine rt req)
                       (if timeout s >? 0
                        then WithDeadline
                               (Request_Context (routedRequest engine rt req))
                               (now + timeout s)
                        else WithCancel
                               (Request_Context
                                  (routedRequest engine rt req)))))))
    as (-> & -> & _).
  split; [ exact Hmeth | split; [ exact Hpath | split ] ].
  - unfold mux_CurrentRoute in *. rewrite Request_WithContext_Context.
    rewrite derived_lookup by discriminate. exact Hroute.
  - unfold transport.FromServerContext, transport.NewServerContext.
    cbn [context.lookup ctxKey_eqb].
    split; [ reflexivity | ]. cbn [Transport_operation].
    split; [ reflexivity | ].
    intros tpl Htpl. unfold mux.GetPathTemplate. rewrite Htpl. reflexivity.
Qed.

(** The route /index/{id}, registered with [HandleFunc], and a request for
    /index/42. *)
Lemma matched_request_operation_witness :
  let s := srv (execAll Sample.good
                  [OpHandleFunc "/index/{id}" (http.HandlerFunc "h")]
                  (fresh [])) in
  let w := {| rw_Header := [] |} in
  let req := mkRequest "GET" "/index/42" [] Background in
  exists (req' : Request) (tr : Transport),
    handlerRequest (mux_ServeHTTP Sample.engine Sample.good s 0 w req)
    = Some req'
    /\ Request_Path req' = "/index/42"
    /\ transport.FromServerContext (Request_Context req') = Some tr
    /\ Transport_operation tr = "/index/{id}".
Proof.
  cbn zeta.
  destruct (matched_request_operation Sample.engine Sample.good
              (srv (execAll Sample.good
                      [OpHandleFunc "/index/{id}" (http.HandlerFunc "h")]
                      (fresh [])))
              0 {| rw_Header := [] |}
              (mkRequest "GET" "/index/42" [] Background)
              (rt := mux.mkRoute (Some "/index/{id}") false None []
                       (Some (http.HandlerFunc "h")) [])
              eq_refl eq_refl eq_refl)
    as (_ & (req' & tr & rest & Hrun & _ & Hpath & _ & Htr & _ & Hop) & _).
  exists req', tr. unfold handlerRequest. rewrite Hrun.
  split; [ reflexivity | split; [ exact Hpath | split; [ exact Htr | ] ] ].
  exact (Hop _ eq_refl).
Defined.

(** C4, as first stated, fails for a request that matches no route.  The
    same server is asked for /missing: the router hands the request to the
    not-found handler, [http.DefaultServeMux], without the wrapper, and the
    context of the request that this handler receives carries no Transport
    Context. *)
Lemma missed_request_carries_no_transport :
  let s := srv (execAll Sample.good
                  [OpHandleFunc "/index/{id}" (http.HandlerFunc "h")]
                  (fresh [])) in
  let w := {| rw_Header := [] |} in
  let req := mkRequest "GET" "/missing" [] Background in
  mux_Match (accepts Sample.engine) (wrongMethod Sample.engine) (router s) req
  = NoMatch
  /\ mux_ServeHTTP Sample.engine Sample.good s 0 w req
     = ([EvHandler http.DefaultServeMux w (missedRequest req);
         EvApp "404 page not found"], Returned)
  /\ transport.FromServerContext (Request_Context (missedRequest req)) = None.
Proof.
  cbn zeta. repeat split.
Qed.

(** C5, as amended.  Take a server whose router has the filter of the
    server as its one middleware; every server built by [NewServer] is
    such, in either mode and whatever methods are called on it (last
    part).  A request that the router matches to a route reaches the
    handler of the match with a context derived from the request's own (to
    which the router has added the variables and the route): with the
    deadline [now + timeout] when the timeout of the server is greater
    than zero, and only cancellable when it is zero or less.  The cancel
    function of the derived context is called once the handler is done,
    whether it returned or panicked, and the wrapper ends as the handler
    did.  The timeout of a server built by [NewServer] is the one its
    options set, and no method changes it; without the option [Timeout] it
    is one second, hence a deadline. *)
Theorem matched_request_context :
  forall (engine : Engine) (env : Env) (s : Server) (now : Time)
         (w : ResponseWriter) (req : Request) (rt : mux.Route),
    mux.middlewares (router s) = [mux.ServerFilter] ->
    cleanPath engine (Request_Path req) = Request_Path req ->
    mux_Match (accepts engine) (wrongMethod engine) (router s) req
    = Matched rt ->
    (exists (req' : Request) (tr : Transport) (scope : Context),
        let routed :=
          WithValue
            (WithValue (Request_Context req) varsKey
               (VVars (routeVars engine rt req)))
            routeKey (VRoute rt) in
        let inner := callHandler engine (matchHandler engine rt req) w req' in
        mux_ServeHTTP engine env s now w req
        = ((EvNext w req' :: fst inner ++ [EvCancel scope])%list, snd inner)
        /\ Request_Context req' = transport.NewServerContext scope tr
        /\ (timeout s > 0 ->
            scope = WithDeadline routed (now + timeout s)
            /\ context.Deadline (Request_Context req')
               = Some (match context.Deadline (Request_Context req) with
                       | Some d => Z.min (now + timeout s) d
                       | None => now + timeout s
                       end))
        /\ (timeout s <= 0 ->
            scope = WithCancel routed
            /\ context.Deadline (Request_Context req')
               = context.Deadline (Request_Context req)))
    /\ (forall (env' : Env) (opts : list ServerOption) (ops : list Op),
          let s' := srv (execAll env' ops (fresh opts)) in
          mux.middlewares (router s') = [mux.ServerFilter]
          /\ timeout s' = timeout (NewServer opts)
          /\ (existsb isTimeout opts = false -> timeout s' = 1 * Second)).
Proof.
  intros engine env s now w req rt Hmw Hclean Hm. split.
  - rewrite (mux_ServeHTTP_matched engine env s now w req Hmw Hclean Hm).
    pose proof (filter_run env s now
                  (callHandler engine (matchHandler engine rt req)) w
                  (routedRequest engine rt req)) as Hrun.
    cbn zeta in Hrun. destruct Hrun as [_ Hrun].
    eexists. eexists. eexists. cbn zeta. rewrite Hrun.
    split; [ reflexivity | ].
    rewrite Request_WithContext_Context, routedRequest_Context.
    split; [ reflexivity | ].
    split.
    + intro H. apply Z.gtb_gt in H. rewrite H. cbn.
      split; [ reflexivity | ].
      destruct (context.Deadline (Request_Context req)); reflexivity.
    + intro H. destruct (timeout s >? 0) eqn:Hgt.
      * apply Z.gtb_gt in Hgt. lia.
      * split; reflexivity.
  - intros env' opts ops s'.
    pose proof (execAll_timeout env' opts ops) as Ht. fold s' in Ht.
    split; [ apply execAll_middlewares | split; [ exact Ht | ] ].
    intro H. rewrite Ht. now apply NewServer_default_timeout.
Qed.

(** An HTTP/3 server with [Timeout(0)] and a handler that panics. *)
Lemma matched_request_context_witness :
  let s := srv (execAll Sample.good
                  [OpHandleFunc "/index" (http.HandlerFunc "panics")]
                  (fresh [EnableHTTP3; Timeout 0])) in
  let w := {| rw_Header := [] |} in
  let req := mkRequest "GET" "/index" [] Background in
  exists (req' : Request) (scope : Context),
    mux_ServeHTTP Sample.engine Sample.good s 5 w req
    = ([EvNext w req'; EvHandler (http.HandlerFunc "panics") w req';
        EvCancel scope], Panicked "boom")
    /\ context.cancelScope (Request_Context req') = scope
    /\ context.Deadline (Request_Context req') = None.
Proof.
  cbn zeta.
  destruct (matched_request_context Sample.engine Sample.good
              (srv (execAll Sample.good
                      [OpHandleFunc "/index" (http.HandlerFunc "panics")]
                      (fresh [EnableHTTP3; Timeout 0])))
              5 {| rw_Header := [] |}
              (mkRequest "GET" "/index" [] Background)
              (rt := mux.mkRoute (Some "/index") false None []
                       (Some (http.HandlerFunc "panics")) [])
              eq_refl eq_refl eq_refl)
    as ((req' & tr & scope & Hrun & Hctx & _ & Hzero) & _).
  exists req', scope. destruct (Hzero ltac:(cbn; lia)) as [Hscope Hd].
  split; [ exact Hrun | split; [ | exact Hd ] ].
  rewrite Hctx, Hscope. reflexivity.
Defined.

(** C5, as first stated, fails for a server whose timeout was never
    configured: it has the default of one second, and the context of the
    handler of a matched request has a deadline. *)
Lemma default_timeout_gives_deadline :
  let s := srv (execAll Sample.good
                  [OpHandleFunc "/index" (http.HandlerFunc "h")]
                  (fresh [])) in
  let w := {| rw_Header := [] |} in
  let req := mkRequest "GET" "/index" [] Background in
  exists req' : Request,
    handlerRequest (mux_ServeHTTP Sample.engine Sample.good s 0 w req)
    = Some req'
    /\ mux_ServeHTTP Sample.engine Sample.good s 0 w req
       = ([EvNext w req'; EvHandler (http.HandlerFunc "h") w req'; EvApp "h";
           EvCancel (context.cancelScope (Request_Context req'))], Returned)
    /\ existsb isTimeout [] = false
    /\ context.Deadline (Request_Context req) = None
    /\ context.Deadline (Request_Context req') = Some 1000000000
    /\ context.cancelScope (Request_Context req')
       = WithDeadline
           (Request_Context (routedRequest Sample.engine
                               (mux.mkRoute (Some "/index") false None []
                                  (Some (http.HandlerFunc "h")) [])
                               req))
           1000000000.
Proof.
  cbn zeta. eexists. split; [ cbv; reflexivity | ].
  vm_compute. repeat split.
Qed.

(* ===================================================================== *)
(** * Further properties of the package *)
(* ===================================================================== *)

(** ** Construction *)

Lemma options_snoc (opts : list ServerOption) (o : ServerOption) (s : Server) :
  fold_left (fun s o => applyOption o s) (opts ++ [o]) s
  = applyOption o (fold_left (fun s o => applyOption o s) opts s).
Proof. now rewrite fold_left_app. Qed.

(** What [NewServer] does after the options leaves the configured fields
    as the options made them. *)
Lemma NewServer_config (opts : list ServerOption) :
  exists s0,
    config (NewServer opts)
    = config (fold_left (fun s o => applyOption o s) opts s0)
    /\ forall o,
        config (NewServer (opts ++ [o]))
        = config (applyOption o
                    (fold_left (fun s o => applyOption o s) opts s0)).
Proof.
  unfold NewServer.
  match goal with
  | |- context [fold_left ?f opts ?s0] => exists s0
  end.
  split.
  - match goal with
    | |- context [fold_left ?f opts ?s0] => generalize (fold_left f opts s0)
    end.
    intro s. destruct (enableHttp3 s) eqn:He; cbn; rewrite He; reflexivity.
  - intro o. rewrite options_snoc.
    match goal with
    | |- context [applyOption o ?s1] => generalize (applyOption o s1)
    end.
    intro s. destruct (enableHttp3 s) eqn:He; cbn; rewrite He; reflexivity.
Qed.

(** X1.  An option given last overrides what the options before it made of
    its own field, and leaves the other configured fields as they were. *)
Theorem NewServer_later_option_wins :
  forall (opts : list ServerOption) (o : ServerOption),
    let s := NewServer (opts ++ [o]) in
    let s0 := NewServer opts in
    address s = match o with Address a => a | _ => address s0 end
    /\ network s = match o with Network n => n | _ => network s0 end
    /\ timeout s = match o with Timeout t => t | _ => timeout s0 end
    /\ tlsConf s = match o with TLSConfig c => c | _ => tlsConf s0 end
    /\ endpoint s = match o with Endpoint e => e | _ => endpoint s0 end
    /\ filters s = match o with Filter fs => fs | _ => filters s0 end
    /\ lis s = match o with Listener l => l | _ => lis s0 end
    /\ http3Lis s = match o with HTTP3Listener l => l | _ => http3Lis s0 end.
Proof.
  intros opts o s s0. subst s s0.
  destruct (NewServer_config opts) as (s0 & H0 & H1).
  specialize (H1 o). unfold config in H0, H1.
  generalize dependent (NewServer (opts ++ [o])).
  generalize dependent (NewServer opts).
  generalize dependent (fold_left (fun s o => applyOption o s) opts s0).
  intros s1 sa Ha sb Hb.
  injection Ha as -> -> -> -> -> -> -> ->.
  injection Hb as -> -> -> -> -> -> -> ->.
  destruct o; cbn; repeat split.
Qed.

(** X2.  Whatever the order of the options, the router that serves has the
    strict-slash setting of the server and exactly one middleware, the
    server's own filter; the public operations change neither. *)
Theorem router_keeps_its_settings :
  forall (env : Env) (opts : list ServerOption) (ops : list Op),
    let s := srv (execAll env ops (fresh opts)) in
    mux.strictSlash (router s) = strictSlash s
    /\ strictSlash s = strictSlash (NewServer opts)
    /\ mux.middlewares (router s) = [mux.ServerFilter].
Proof.
  intros env opts ops s.
  pose proof (execAll_keeps
                (fun s => (mux.strictSlash (router s), strictSlash s,
                           mux.middlewares (router s)))
                (fun _ _ => eq_refl) (fun _ _ => eq_refl) (fun _ _ => eq_refl)
                (fun _ _ => eq_refl) (fun _ _ => eq_refl)
                (fun _ _ _ _ => eq_refl) (fun _ _ => eq_refl)
                env ops (fresh opts)) as Hk.
  cbn beta in Hk. fold s in Hk.
  rewrite fresh_srv in Hk.
  destruct (NewServer_router opts) as [Hs Hm].
  generalize dependent (NewServer opts). intros s0 Hk Hs Hm.
  injection Hk as H1 H2 H3. rewrite H1, H2, H3. auto.
Qed.

Lemma isSome_false (A : Type) (o : option A) : isSome o = false -> o = None.
Proof. destruct o; [ discriminate | reflexivity ]. Qed.







(** ** The lifecycle methods *)

Lemma NewServer_hasBackend (env : Env) (opts : list ServerOption)
  (ops : list Op) :
  hasBackend (srv (execAll env ops (fresh opts))) = true.
Proof.
  pose proof (execAll_backends env ops (fresh opts)) as Hk.
  rewrite fresh_srv, NewServer_backends in Hk.
  unfold backends in Hk. unfold hasBackend.
  generalize dependent (srv (execAll env ops (fresh opts))).
  intros s Hk. injection Hk as -> -> ->.
  destruct (existsb isEnableHTTP3 opts); reflexivity.
Qed.

(** With its backend in place, [Start] runs into no nil pointer. *)
Lemma Start_done (env : Env) (ctx : Context) (st : St) :
  hasBackend (srv st) = true ->
  isDone (fst (runState (Srv.Start env ctx) st)) = true.
Proof.
  intro Hb. rewrite Start_run. cbn zeta. unfold hasBackend in Hb.
  pose proof (listenAndEndpoint_active env st) as Hact.
  pose proof (listenAndEndpoint_config env st) as (Hmode & Hhs & Hh3 & Htls).
  cbn zeta in Hmode, Hhs, Hh3, Htls. unfold activeListener in Hact.
  rewrite Hmode in Hact.
  destruct (enableHttp3 (srv st)).
  - rewrite startHTTP3_run.
    destruct (runState (Srv.listenAndEndpoint env) st) as [[e|] st1];
      cbn [fst snd] in *; [ reflexivity | ].
    destruct (tlsConf (srv st1)); [ | reflexivity ].
    specialize (Hact eq_refl). rewrite Hb in Hh3.
    destruct (http3Lis (srv st1)); [ | discriminate ].
    destruct (http3srv (srv st1)); [ reflexivity | discriminate ].
  - rewrite startHTTP_run.
    destruct (runState (Srv.listenAndEndpoint env) st) as [[e|] st1];
      cbn [fst snd] in *; [ reflexivity | ].
    specialize (Hact eq_refl). rewrite Hb in Hhs.
    destruct (httpsrv (srv st1)); [ | discriminate ].
    destruct (lis (srv st1)); [ | discriminate ]. cbn zeta.
    destruct (isSome (tlsConf (srv st1))); reflexivity.
Qed.

Lemma Stop_run (env : Env) (ctx : Context) (st : St) :
  hasBackend (srv st) = true ->
  runState (Srv.Stop env ctx) st
  = (Done (stopAnswer env (trace st) (srv st) ctx),
     {| srv := srv st;
        trace := (trace st ++ [stopEvent (srv st) ctx])%list |}).
Proof.
  intro Hb. unfold hasBackend in Hb.
  unfold Srv.Stop, Srv.self, Srv.call, stopAnswer, stopEvent. cbn.
  destruct (enableHttp3 (srv st)).
  - destruct (http3srv (srv st)); [ reflexivity | discriminate ].
  - destruct (httpsrv (srv st)); [ reflexivity | discriminate ].
Qed.

Lemma ServeHTTP_done (res : ResponseWriter) (req : Request) (st : St) :
  hasBackend (srv st) = true ->
  isDone (fst (runState (Srv.ServeHTTP res req) st)) = true.
Proof.
  intro Hb. unfold hasBackend in Hb. unfold Srv.ServeHTTP, Srv.self. cbn.
  destruct (enableHttp3 (srv st)).
  - destruct (http3srv (srv st)); [ reflexivity | discriminate ].
  - destruct (httpsrv (srv st)); [ reflexivity | discriminate ].
Qed.

Lemma execLiveAll_backends (env : Env) (ops : list LiveOp) (st : St) :
  appliesNo isEnableHTTP3 ops = true ->
  backends (srv (execLiveAll env ops st)) = backends (srv st).
Proof.
  apply execLiveAll_keeps with (changes := isEnableHTTP3);
    try (intros v []; reflexivity).
  - intros s hs ctx Hhs. unfold backends. cbn. now rewrite Hhs.
  - intros o s Ho. rewrite applyOption_backends, Ho, orb_false_r.
    reflexivity.
Qed.

Lemma execLiveAll_hasBackend (env : Env) (opts : list ServerOption)
  (ops : list LiveOp) :
  appliesNo isEnableHTTP3 ops = true ->
  hasBackend (srv (execLiveAll env ops (fresh opts))) = true.
Proof.
  intro H. pose proof (execLiveAll_backends env ops (fresh opts) H) as Hk.
  rewrite fresh_srv, NewServer_backends in Hk.
  unfold backends in Hk. unfold hasBackend.
  generalize dependent (srv (execLiveAll env ops (fresh opts))).
  intros s Hk. injection Hk as -> -> ->.
  destruct (existsb isEnableHTTP3 opts); reflexivity.
Qed.

(** X4.  On a server built by [NewServer], after any sequence of method
    calls ([Start], [Stop], [Endpoint], [ServeHTTP], [Use] and the four
    route registrations) and of options applied to it, [EnableHTTP3]
    apart, the methods [Start], [Stop] and [ServeHTTP] never dereference a
    nil backend or a nil listener, whatever the outside world answers.
    [EnableHTTP3] applied to a server that was built without it is the
    exception: the flag is raised, the HTTP/3 backend is nil, and [Stop]
    and [ServeHTTP] panic. *)
Theorem NewServer_methods_never_panic :
  forall (env : Env) (opts : list ServerOption) (ctx : Context)
         (res : ResponseWriter) (req : Request),
    (forall ops : list LiveOp,
        appliesNo isEnableHTTP3 ops = true ->
        let st := execLiveAll env ops (fresh opts) in
        isDone (fst (runState (Srv.Start env ctx) st)) = true
        /\ isDone (fst (runState (Srv.Stop env ctx) st)) = true
        /\ isDone (fst (runState (Srv.ServeHTTP res req) st)) = true)
    /\ (existsb isEnableHTTP3 opts = false ->
        let st := execLiveAll env [Apply EnableHTTP3] (fresh opts) in
        fst (runState (Srv.Stop env ctx) st) = Panic nilDeref
        /\ fst (runState (Srv.ServeHTTP res req) st) = Panic nilDeref).
Proof.
  intros env opts ctx res req. split.
  - intros ops Hops st.
    pose proof (execLiveAll_hasBackend env opts ops Hops) as Hb. fold st in Hb.
    split; [ now apply Start_done | split ].
    + now rewrite Stop_run.
    + now apply ServeHTTP_done.
  - intros Hopts st. subst st.
    pose proof (NewServer_backends opts) as Hn. rewrite Hopts in Hn.
    unfold backends in Hn. cbn [execLiveAll fold_left execLive].
    rewrite fresh_srv.
    generalize dependent (NewServer opts). intros s0 Hn.
    injection Hn as _ _ H3. apply isSome_false in H3.
    unfold Srv.Stop, Srv.ServeHTTP, Srv.self. cbn. rewrite H3.
    split; reflexivity.
Qed.

(** The default server, queried, given another address and started; and
    the same server after [EnableHTTP3()(srv)]. *)
Lemma NewServer_methods_never_panic_witness :
  let ops := [Call OpEndpoint; Apply (Address ":9000");
              Call (OpStart Background)] in
  isDone (fst (runState (Srv.Stop Sample.good Background)
                 (execLiveAll Sample.good ops (fresh [])))) = true
  /\ fst (runState (Srv.Stop Sample.good Background)
            (execLiveAll Sample.good [Apply EnableHTTP3] (fresh [])))
     = Panic nilDeref.
Proof.
  cbn zeta.
  pose proof (NewServer_methods_never_panic Sample.good [] Background
                {| rw_Header := [] |}
                (mkRequest "GET" "/index" [] Background)) as [Hok Hbad].
  split.
  - exact (proj1 (proj2 (Hok [Call OpEndpoint; Apply (Address ":9000");
                              Call (OpStart Background)] eq_refl))).
  - exact (proj1 (Hbad eq_refl)).
Defined.

(** The answer of [Endpoint] on a server whose listener is set does not
    depend on the calls made before. *)
Lemma Endpoint_bound_any_trace (env : Env) (s : Server) (tr tr' : list Event) :
  activeListener s = true ->
  fst (runState (Srv.Endpoint env) {| srv := s; trace := tr |})
  = fst (runState (Srv.Endpoint env) {| srv := s; trace := tr' |}).
Proof.
  intro Hact. rewrite !Endpoint_run, !listenAndEndpoint_run.
  rewrite !bindListener_skip by exact Hact. cbn [srv].
  rewrite !handleEndpoint_run. cbn [srv trace].
  destruct (endpoint s); cbn.
  - destruct (err s); reflexivity.
  - destruct (host_Extract env (address s) (option_map Addr (http3Lis s)));
      cbn; [ destruct (err s) | ]; reflexivity.
Qed.

(** X5.  [Stop] makes one call on the backend of the active mode
    ([Close] for HTTP/3, [Shutdown] with its context otherwise), returns
    the answer, and leaves the server as it was: listener, endpoint and
    stored error stay.  So [Endpoint] answers after [Stop] as it did
    before, when the listener is set. *)
Theorem Stop_leaves_the_server :
  forall (env : Env) (ctx : Context) (st : St),
    hasBackend (srv st) = true ->
    let r := runState (Srv.Stop env ctx) st in
    fst r = Done (stopAnswer env (trace st) (srv st) ctx)
    /\ srv (snd r) = srv st
    /\ trace (snd r) = (trace st ++ [stopEvent (srv st) ctx])%list
    /\ (activeListener (srv st) = true ->
        fst (runState (Srv.Endpoint env) (snd r))
        = fst (runState (Srv.Endpoint env) st)).
Proof.
  intros env ctx st Hb. cbn zeta. rewrite (Stop_run env ctx st Hb).
  cbn [fst snd srv trace]. repeat split.
  intro Hact. destruct st as [s tr]. now apply Endpoint_bound_any_trace.
Qed.

Lemma Stop_leaves_the_server_witness :
  let st := snd (runState (Srv.Endpoint Sample.good) (fresh [])) in
  let r := runState (Srv.Stop Sample.good Background) st in
  trace (snd r) = [EvListen "tcp" ":0"; EvShutdown Background]
  /\ fst (runState (Srv.Endpoint Sample.good) (snd r))
     = fst (runState (Srv.Endpoint Sample.good) st).
Proof.
  cbn zeta.
  match goal with
  | |- context [runState (Srv.Stop ?env ?ctx) ?st] =>
      destruct (Stop_leaves_the_server env ctx st eq_refl)
        as (_ & _ & Htr & Hep)
  end.
  split; [ exact Htr | exact (Hep eq_refl) ].
Defined.




(** What a resolution leaves behind, by its result. *)
Lemma listenAndEndpoint_outcome (env : Env) (st : St) :
  let r := runState (Srv.listenAndEndpoint env) st in
  match fst r with
  | None =>
      isSome (endpoint (srv (snd r))) = true
      /\ err (srv (snd r)) = None
      /\ activeListener (srv (snd r)) = true
  | Some e => err (srv (snd r)) = Some e
  end.
Proof.
  cbn zeta.
  pose proof (listenAndEndpoint_active env st) as Hact.
  rewrite listenAndEndpoint_run in *.
  pose proof (bindListener_run env st) as Hb.
  destruct (runState (Srv.bindListener env) st) as [[e|] st1];
    cbn [fst snd] in *.
  - destruct (activeListener (srv st)); [ discriminate | ]. cbn zeta in Hb.
    destruct (enableHttp3 (srv st)).
    + destruct (quic_ListenAddrEarly env (trace st) (address (srv st))
                  (tlsConf (srv st))); [ discriminate | ].
      injection Hb as -> ->. reflexivity.
    + destruct (net_Listen env (trace st) (network (srv st))
                  (address (srv st))); [ discriminate | ].
      injection Hb as -> ->. reflexivity.
  - clear Hb. rewrite handleEndpoint_run in *.
    destruct (endpoint (srv st1)) as [u|] eqn:He; cbn [fst snd] in *.
    + destruct (err (srv st1)) eqn:Herr; cbn [fst snd] in *.
      * first [ exact Herr | reflexivity ].
      * rewrite ?He. repeat split; auto.
    + destruct (host_Extract env (address (srv st1))
                  (option_map Addr (http3Lis (srv st1)))) as [a|e];
        cbn [fst snd srv] in *.
      * destruct (err (set_endpoint _ (srv st1))) eqn:Herr; cbn [fst snd] in *.
        -- first [ exact Herr | reflexivity ].
        -- repeat split; auto.
      * reflexivity.
Qed.

Lemma Endpoint_returns_url_or_error_aux (env : Env) (st : St) :
  let r := runState (Srv.Endpoint env) st in
  match fst r with
  | (Some u, None) =>
      endpoint (srv (snd r)) = Some u
      /\ err (srv (snd r)) = None
      /\ activeListener (srv (snd r)) = true
  | (None, Some e) => err (srv (snd r)) = Some e
  | _ => False
  end.
Proof.
  cbn zeta. rewrite Endpoint_run.
  pose proof (listenAndEndpoint_outcome env st) as H. cbn zeta in H.
  destruct (runState (Srv.listenAndEndpoint env) st) as [[e|] st1];
    cbn [fst snd] in *.
  - exact H.
  - destruct H as (He & Herr & Hact).
    destruct (endpoint (srv st1)); [ auto | discriminate ].
Qed.

(** X7.  [Endpoint] returns either a URL and no error, or an error and no
    URL.  The URL is the one stored in the server, whose listener is then
    set and whose stored error is nil; the error is always the one stored
    in [err]. *)
Theorem Endpoint_returns_url_or_error :
  forall (env : Env) (st : St),
    let r := runState (Srv.Endpoint env) st in
    match fst r with
    | (Some u, None) =>
        endpoint (srv (snd r)) = Some u
        /\ err (srv (snd r)) = None
        /\ activeListener (srv (snd r)) = true
    | (None, Some e) => err (srv (snd r)) = Some e
    | _ => False
    end.
Proof. exact Endpoint_returns_url_or_error_aux. Qed.

(** ** The listener, once set *)

Lemma listeners_active (s s' : Server) :
  listeners s' = listeners s -> activeListener s' = activeListener s.
Proof.
  unfold listeners, activeListener. intro H. injection H as -> -> ->.
  reflexivity.
Qed.

Lemma listenAndEndpoint_bound (env : Env) (st : St) :
  activeListener (srv st) = true ->
  listeners (srv (snd (runState (Srv.listenAndEndpoint env) st)))
  = listeners (srv st)
  /\ trace (snd (runState (Srv.listenAndEndpoint env) st)) = trace st.
Proof.
  intro Hact. split.
  - rewrite listenAndEndpoint_run, (bindListener_skip env st Hact).
    pose proof (@keeps_handleEndpoint _ listeners
                  ltac:(intros v []; reflexivity)
                  ltac:(intros v []; reflexivity)
                  env _ _ (http3Lis (srv st)) st) as Hk.
    destruct (runState (Srv.handleEndpoint env (http3Lis (srv st))) st)
      as [[e|] st2]; exact Hk.
  - pose proof (listenAndEndpoint_trace env st) as Htr. cbn zeta in Htr.
    rewrite Hact, app_nil_r in Htr. exact Htr.
Qed.

Lemma filter_isBind_snoc (tr : list Event) (e : Event) :
  isBind e = false ->
  List.filter isBind (tr ++ [e]) = List.filter isBind tr.
Proof. intro H. rewrite filter_app. cbn. rewrite H. apply app_nil_r. Qed.

Lemma exec_bound (env : Env) (o : Op) (st : St) :
  activeListener (srv st) = true ->
  listeners (srv (exec env o st)) = listeners (srv st)
  /\ List.filter isBind (trace (exec env o st))
     = List.filter isBind (trace st).
Proof.
  intro Hact.
  destruct (listenAndEndpoint_bound env st Hact) as [Hl Htr].
  destruct o; cbn [exec].
  - rewrite Start_run. cbn zeta.
    destruct (enableHttp3 (srv st));
      [ rewrite startHTTP3_run | rewrite startHTTP_run ];
      destruct (runState (Srv.listenAndEndpoint env) st) as [[e|] st1];
      cbn [fst snd] in *.
    + rewrite Htr. split; [ exact Hl | reflexivity ].
    + destruct (tlsConf (srv st1));
        [ destruct (http3Lis (srv st1));
          [ destruct (http3srv (srv st1)) | ] | ];
        cbn [fst snd srv trace]; rewrite Htr;
        (split; [ exact Hl
                | first [ reflexivity | now apply filter_isBind_snoc ] ]).
    + rewrite Htr. split; [ exact Hl | reflexivity ].
    + destruct (httpsrv (srv st1));
        [ destruct (lis (srv st1));
          [ cbn zeta; destruct (isSome (tlsConf (srv st1))) | ] | ];
        cbn [fst snd srv trace]; rewrite Htr;
        (split; [ exact Hl
                | first [ reflexivity | now apply filter_isBind_snoc ] ]).
  - unfold Srv.Stop, Srv.self, Srv.call. cbn.
    destruct (enableHttp3 (srv st));
      [ destruct (http3srv (srv st)) | destruct (httpsrv (srv st)) ];
      cbn;
      (split; [ reflexivity
              | first [ reflexivity | now apply filter_isBind_snoc ] ]).
  - rewrite Endpoint_run.
    destruct (runState (Srv.listenAndEndpoint env) st) as [[e|] st1];
      cbn [fst snd] in *; rewrite Htr; (split; [ exact Hl | reflexivity ]).
  - unfold Srv.ServeHTTP, Srv.self. cbn.
    destruct (enableHttp3 (srv st));
      [ destruct (http3srv (srv st)) | destruct (httpsrv (srv st)) ];
      split; reflexivity.
  - split; reflexivity.
  - split; reflexivity.
  - split; reflexivity.
  - split; reflexivity.
  - split; reflexivity.
Qed.

Lemma applyOption_listeners (o : ServerOption) (s : Server) :
  isListenerOption o = false -> listeners (applyOption o s) = listeners s.
Proof. destruct o; cbn; try reflexivity; discriminate. Qed.

(** X8.  A listener that is set (supplied by an option or bound by an
    earlier call) stays: no sequence of method calls ([Start], [Stop],
    [Endpoint], [ServeHTTP], [Use] and the four route registrations) and of
    options applied to the live server replaces it, switches the mode, or
    binds again, as long as none of the options [EnableHTTP3], [Listener]
    and [HTTP3Listener] is among them.  Those three assign the mode and the
    listeners themselves: [Listener(l)] applied to the live server puts [l]
    in the place of the listener. *)
Theorem listener_is_bound_once :
  forall (env : Env) (ops : list LiveOp) (st : St),
    activeListener (srv st) = true ->
    appliesNo isListenerOption ops = true ->
    let st' := execLiveAll env ops st in
    listeners (srv st') = listeners (srv st)
    /\ List.filter isBind (trace st') = List.filter isBind (trace st)
    /\ (forall l : option net_Listener,
          listeners (srv (execLive env (Apply (Listener l)) st'))
          = (enableHttp3 (srv st), l, http3Lis (srv st))).
Proof.
  intros env ops st Hact Hops. cbn zeta.
  assert (Hmain : listeners (srv (execLiveAll env ops st)) = listeners (srv st)
                  /\ List.filter isBind (trace (execLiveAll env ops st))
                     = List.filter isBind (trace st)).
  { revert st Hact Hops.
    induction ops as [|o ops IH]; intros st Hact Hops.
    - split; reflexivity.
    - cbn [appliesNo forallb] in Hops. apply andb_prop in Hops as [Ho Hops].
      cbn [execLiveAll fold_left].
      assert (Hstep : listeners (srv (execLive env o st)) = listeners (srv st)
                      /\ List.filter isBind (trace (execLive env o st))
                         = List.filter isBind (trace st)).
      { destruct o as [o|o]; cbn [execLive srv trace].
        - now apply exec_bound.
        - split; [ | reflexivity ]. apply applyOption_listeners.
          now apply negb_true_iff. }
      destruct Hstep as [Hl Htr].
      assert (Hact' : activeListener (srv (execLive env o st)) = true)
        by (rewrite (listeners_active Hl); exact Hact).
      destruct (IH (execLive env o st) Hact' Hops) as [Hl' Htr'].
      unfold execLiveAll in *. split; congruence. }
  destruct Hmain as [Hl Htr].
  split; [ exact Hl | split; [ exact Htr | ] ].
  intro l. cbn [execLive srv]. unfold listeners in *. cbn.
  injection Hl as -> _ ->. reflexivity.
Qed.

(** A server given its listener, queried, given another address, started
    and stopped: nothing is ever bound. *)
Lemma listener_is_bound_once_witness :
  let st := fresh [Listener (Some Sample.tcpLis)] in
  let st' := execLiveAll Sample.failing
               [Call OpEndpoint; Apply (Address ":9000");
                Call (OpStart Background); Call (OpStop Background)] st in
  lis (srv st') = Some Sample.tcpLis
  /\ List.filter isBind (trace st') = [].
Proof.
  cbn zeta.
  match goal with
  | |- context [execLiveAll ?env ?ops ?st] =>
      destruct (listener_is_bound_once env ops st eq_refl eq_refl)
        as (Hl & Htr & _)
  end.
  split; [ | exact Htr ].
  exact (f_equal (fun x => snd (fst x)) Hl).
Defined.

Lemma startResult_not_closed (e : option error) :
  errors.Is (startResult e) http.ErrServerClosed = false.
Proof.
  unfold startResult.
  destruct (errors.Is e http.ErrServerClosed) eqn:H; cbn;
    [ reflexivity | exact H ].
Qed.

(** X9.  [Start] never returns the shutdown signal: an error it returns
    is not [http.ErrServerClosed] and wraps no [http.ErrServerClosed],
    wherever the error came from (the serve call, the bind, the address
    extraction or the stored error). *)
Theorem Start_never_returns_ErrServerClosed :
  forall (env : Env) (ctx : Context) (st : St),
    match fst (runState (Srv.Start env ctx) st) with
    | Done e => errors.Is e http.ErrServerClosed = false
    | Panic _ => True
    end.
Proof.
  intros env ctx st. rewrite Start_run. cbn zeta.
  generalize (if enableHttp3 (srv st)
              then runState (Srv.startHTTP3 env ctx) st
              else runState (Srv.startHTTP env ctx) st).
  intros [[e|m] st1]; cbn [fst snd];
    [ apply startResult_not_closed | exact I ].
Qed.

(** ** Routes registered on the server, and the walks *)







Section HandleWalking.

Variable T : Type.
Variable handle : HandleFunc_ T.

(** The callback that [WalkHandle] builds never reports an error. *)
Lemma visit_handle (items : list (RouteInfo + error)) (t : T) :
  let fn : WalkRouteFunc T :=
    fun r => handle (Method r) (Path r) Srv.ServeHTTP ;; ret None in
  fst (runState (visit fn items) t) = None
  \/ exists e, In (inr e) items /\ fst (runState (visit fn items) t) = Some e.
Proof.
  cbn zeta. revert t. induction items as [|[i|e] items IH]; intro t.
  - left. reflexivity.
  - cbn [visit]. rewrite run_bindT, run_bindT. cbn [ret Monad_state runState fst snd].
    destruct (IH (snd (runState (handle (Method i) (Path i) Srv.ServeHTTP) t)))
      as [H | (e & Hin & H)].
    + left. exact H.
    + right. exists e. split; [ now right | exact H ].
  - right. exists e. split; [ now left | reflexivity ].
Qed.

Lemma visit_handle_pairs (l : list RouteInfo) (t : T) :
  let fn : WalkRouteFunc T :=
    fun r => handle (Method r) (Path r) Srv.ServeHTTP ;; ret None in
  runState (visit fn (map inl l)) t
  = (None, snd (runState (handleEach handle l) t)).
Proof.
  cbn zeta. revert t. induction l as [|i l IH]; intro t.
  - reflexivity.
  - cbn [map visit handleEach]. rewrite !run_bindT.
    cbn [ret Monad_state runState fst snd]. apply IH.
Qed.

End HandleWalking.

Lemma yielded_error (r : mux.Route) (e : error) :
  In (inr e) (yielded r) -> e = mux.ErrNoPath.
Proof.
  unfold yielded. destruct (mux.methods r) as [ms|]; [ | intros [] ].
  destruct (mux.pathTemplate r) as [tpl|].
  - intro H. apply in_map_iff in H as (m & Hm & _). discriminate.
  - intros [H | []]. now injection H.
Qed.

Lemma yielded_pairs (rs : list mux.Route) :
  forallb hasPath rs = true ->
  flat_map yielded rs = map inl (flat_map routePairs rs).
Proof.
  induction rs as [|r rs IH]; intro H; cbn in *.
  - reflexivity.
  - apply andb_prop in H as [Hr Hrs]. rewrite map_app, (IH Hrs). f_equal.
    unfold hasPath in Hr. unfold yielded, routePairs.
    destruct (mux.methods r) as [ms|]; [ | reflexivity ].
    destruct (mux.pathTemplate r) as [tpl|]; [ | discriminate ].
    now rewrite map_map.
Qed.

(** X11.  [WalkHandle] can only fail with the router's own error for a
    route that has methods but no path: its callback never reports one.
    When every route with methods has a path, it returns nil after calling
    [handle] on every (method, path template) pair, in the order of the
    walk, each time with the server's [ServeHTTP]. *)
Theorem WalkHandle_visits_every_pair :
  forall (T : Type) (handle : HandleFunc_ T) (s : Server) (t : T),
    let rs := mux.walkOrder (mux.routes (router s)) in
    let r := runState (WalkHandle handle s) t in
    (fst r = None \/ fst r = Some mux.ErrNoPath)
    /\ (forallb hasPath rs = true ->
        r = (None,
             snd (runState (handleEach handle (flat_map routePairs rs)) t))).
Proof.
  intros T handle s t rs r. subst r. unfold WalkHandle.
  assert (Herr : fst (runState
                        (visit (fun r : RouteInfo =>
                                  handle (Method r) (Path r) Srv.ServeHTTP ;;
                                  ret None)
                           (flat_map yielded rs)) t) = None
                 \/ fst (runState
                           (visit (fun r : RouteInfo =>
                                     handle (Method r) (Path r) Srv.ServeHTTP ;;
                                     ret None)
                              (flat_map yielded rs)) t) = Some mux.ErrNoPath).
  { destruct (visit_handle handle (flat_map yielded rs) t)
      as [H | (e & Hin & H)]; [ now left | right ].
    rewrite H. apply in_flat_map in Hin as (rt & _ & Hin).
    now rewrite (yielded_error rt e Hin). }
  rewrite WalkRoute_visit; fold rs;
    [ | destruct Herr as [-> | ->]; discriminate ].
  split; [ exact Herr | ].
  intro H. rewrite (yielded_pairs rs H). apply visit_handle_pairs.
Qed.

(** A server with the route /errors/cause for GET and POST: the handle
    function is called twice. *)
Lemma WalkHandle_visits_every_pair_witness :
  let cause := mux.mkRoute (Some "/errors/cause") false
                 (Some ["GET"; "POST"]) []
                 (Some (http.HandlerFunc "cause")) [] in
  let s0 := NewServer [] in
  let s := set_router (mux.addRoute cause (router s0)) s0 in
  let handle : HandleFunc_ (list (string * string)) :=
    fun method path _ =>
      log <- get ;; put (log ++ [(method, path)])%list in
  runState (WalkHandle handle s) []
  = (None, [("GET", "/errors/cause"); ("POST", "/errors/cause")]).
Proof.
  cbn zeta.
  match goal with
  | |- runState (WalkHandle ?h ?s) ?t = _ =>
      exact (proj2 (WalkHandle_visits_every_pair h s t) eq_refl)
  end.
Defined.

(** ** More on the request wrapper *)

(** X12.  The wrapper hands on the request it was given: same method,
    path and headers, and a context in which every value of the incoming
    context is still found, the matched route included.  Only the key of
    the Transport Context is taken over by the new value, and the request
    of that Transport Context is the derived request itself, the one that
    the next handler receives. *)
Theorem filter_passes_the_request_on :
  forall (env : Env) (s : Server) (now : Time) (next : HandlerFn)
         (w : ResponseWriter) (req : Request),
  exists req' : Request,
    handlerRequest (filter env s now next w req) = Some req'
    /\ Request_Method req' = Request_Method req
    /\ Request_Path req' = Request_Path req
    /\ Request_Header req' = Request_Header req
    /\ (forall key : ctxKey,
           key <> serverTransportKey ->
           context.lookup (Request_Context req') key
           = context.lookup (Request_Context req) key)
    /\ mux_CurrentRoute req' = mux_CurrentRoute req
    /\ exists tr : Transport,
        transport.FromServerContext (Request_Context req') = Some tr
        /\ Transport_request tr = req'.
Proof.
  intros env s now next w req.
  pose proof (filter_run env s now next w req) as Hrun. cbn zeta in Hrun.
  destruct Hrun as [Htr Hrun].
  eexists. unfold handlerRequest. rewrite Hrun. cbn [fst].
  split; [ reflexivity | ].
  rewrite Request_WithContext_Context.
  destruct (Request_WithContext_head req
              (transport.NewServerContext
                 (if timeout s >? 0
                  then WithDeadline (Request_Context req) (now + timeout s)
                  else WithCancel (Request_Context req))
                 (mkTransport
                    (match endpoint s with
                     | Some u => url_String env u
                     | None => ""
                     end)
                    (match mux_CurrentRoute req with
                     | Some route => fst (mux.GetPathTemplate route)
                     | None => Request_Path req
                     end)
                    (match mux_CurrentRoute req with
                     | Some route => fst (mux.GetPathTemplate route)
                     | None => Request_Path req
                     end)
                    (Request_Header req) (rw_Header w)
                    (Request_WithContext req
                       (if timeout s >? 0
                        then WithDeadline (Request_Context req)
                               (now + timeout s)
                        else WithCancel (Request_Context req))))))
    as (-> & -> & ->).
  repeat split.
  - intros key Hk. now apply derived_lookup.
  - unfold mux_CurrentRoute. rewrite Request_WithContext_Context.
    rewrite derived_lookup by discriminate. reflexivity.
  - eexists. split; [ reflexivity | exact Htr ].
Qed.

(** A request that carries a value of the application in its context. *)
Lemma filter_passes_the_request_on_witness :
  let s := NewServer [] in
  let next : HandlerFn := fun _ _ => ([], Returned) in
  let w := {| rw_Header := [] |} in
  let req :=
    mkRequest "GET" "/index" []
      (WithValue Background (userKey "trace-id") (VString "42")) in
  exists (req' : Request) (tr : Transport),
    handlerRequest (filter Sample.good s 0 next w req) = Some req'
    /\ context.lookup (Request_Context req') (userKey "trace-id")
       = Some (VString "42")
    /\ transport.FromServerContext (Request_Context req') = Some tr
    /\ Transport_request tr = req'.
Proof.
  cbn zeta.
  match goal with
  | |- context [filter ?env ?s ?now ?next ?w ?req] =>
      destruct (filter_passes_the_request_on env s now next w req)
        as (req' & Hreq & _ & _ & _ & Hkey & _ & tr & Htr & Hback)
  end.
  exists req', tr. split; [ exact Hreq | ].
  split; [ | split; [ exact Htr | exact Hback ] ].
  rewrite Hkey by discriminate. reflexivity.
Defined.

Lemma options_endpoint (opts : list ServerOption) (s : Server) :
  existsb isEndpointOption opts = false ->
  endpoint (fold_left (fun s o => applyOption o s) opts s) = endpoint s.
Proof.
  revert s. induction opts as [|o opts IH]; intros s H; cbn in *.
  - reflexivity.
  - apply orb_false_elim in H as [Ho Hopts]. rewrite (IH _ Hopts).
    destruct o; cbn in *; try reflexivity. discriminate.
Qed.

Lemma NewServer_no_endpoint (opts : list ServerOption) :
  existsb isEndpointOption opts = false -> endpoint (NewServer opts) = None.
Proof.
  intro H. unfold NewServer.
  match goal with
  | |- context [fold_left ?f opts ?s0] =>
      pose proof (options_endpoint opts s0 H) as He;
      generalize dependent (fold_left f opts s0)
  end.
  intros s He. cbn in He. destruct (enableHttp3 s) eqn:Hm; cbn; rewrite Hm;
    exact He.
Qed.

(** X13.  The endpoint that handlers read from the Transport Context is
    the server's endpoint at the time of the request, as [String] of
    net/url prints it, and the empty string when the server has none.
    After a successful [Endpoint] it is the URL that this call returned,
    printed; on a server built without the [Endpoint] option and not yet
    resolved it is the empty string.  The path template of the Transport
    Context is always its operation. *)
Theorem filter_endpoint_follows_resolution :
  forall (env : Env) (now : Time) (next : HandlerFn) (w : ResponseWriter)
         (req : Request),
    (forall s : Server,
        exists tr,
          handlerTransport (filter env s now next w req) = Some tr
          /\ Transport_endpoint tr
             = match endpoint s with
               | Some u => url_String env u
               | None => ""
               end
          /\ Transport_pathTemplate tr = Transport_operation tr)
    /\ (forall (st : St) (u : url_URL),
           fst (runState (Srv.Endpoint env) st) = (Some u, None) ->
           exists tr,
             handlerTransport
               (filter env (srv (snd (runState (Srv.Endpoint env) st)))
                  now next w req)
             = Some tr
             /\ Transport_endpoint tr = url_String env u)
    /\ (forall opts : list ServerOption,
           existsb isEndpointOption opts = false ->
           exists tr,
             handlerTransport (filter env (NewServer opts) now next w req)
             = Some tr
             /\ Transport_endpoint tr = "").
Proof.
  intros env now next w req.
  assert (Hany : forall s : Server,
             exists tr,
               handlerTransport (filter env s now next w req) = Some tr
               /\ Transport_endpoint tr
                  = match endpoint s with
                    | Some u => url_String env u
                    | None => ""
                    end
               /\ Transport_pathTemplate tr = Transport_operation tr).
  { intro s. eexists. unfold handlerTransport, handlerRequest.
    rewrite (proj2 (filter_run env s now next w req)). cbn [fst].
    rewrite Request_WithContext_Context. cbn.
    split; [ reflexivity | split; reflexivity ]. }
  split; [ exact Hany | split ].
  - intros st u Hu.
    pose proof (Endpoint_returns_url_or_error_aux env st) as H.
    cbn zeta in H. rewrite Hu in H. destruct H as (He & _).
    destruct (Hany (srv (snd (runState (Srv.Endpoint env) st))))
      as (tr & Htr & Hep & _).
    exists tr. split; [ exact Htr | ]. now rewrite Hep, He.
  - intros opts Hopts. pose proof (NewServer_no_endpoint opts Hopts) as He.
    destruct (Hany (NewServer opts)) as (tr & Htr & Hep & _).
    exists tr. split; [ exact Htr | ]. now rewrite Hep, He.
Qed.

(** An HTTP/3 server with TLS that resolves its endpoint, and a server
    that was given the legacy endpoint of the documentation. *)
Lemma filter_endpoint_follows_resolution_witness :
  let next : HandlerFn := fun _ _ => ([], Returned) in
  let w := {| rw_Header := [] |} in
  let req := mkRequest "GET" "/index" [] Background in
  let st := fresh [EnableHTTP3; TLSConfig (Some Sample.cert)] in
  let legacy :=
    {| Scheme := "http"; Opaque := ""; User := None; Host := "127.0.0.1:8000";
       url_Path := ""; RawQuery := "isSecure=false"; Fragment := "" |} in
  (exists tr,
      handlerTransport
        (filter Sample.good (srv (snd (runState (Srv.Endpoint Sample.good) st)))
           0 next w req)
      = Some tr
      /\ Transport_endpoint tr = "https://192.168.1.10:50443")
  /\ (exists tr,
         handlerTransport
           (filter Sample.good (NewServer [Endpoint (Some legacy)]) 0 next w req)
         = Some tr
         /\ Transport_endpoint tr = "http://127.0.0.1:8000?isSecure=false").
Proof.
  cbn zeta.
  pose proof (filter_endpoint_follows_resolution Sample.good 0
                (fun _ _ => ([], Returned)) {| rw_Header := [] |}
                (mkRequest "GET" "/index" [] Background))
    as (Hany & Hres & _).
  split.
  - destruct (Hres (fresh [EnableHTTP3; TLSConfig (Some Sample.cert)])
                (endpoint_NewEndpoint "https" "192.168.1.10:50443")
                ltac:(vm_compute; reflexivity))
      as (tr & Htr & Hep).
    exists tr. split; [ exact Htr | exact Hep ].
  - match goal with
    | |- context [filter _ ?s _ _ _ _] =>
        destruct (Hany s) as (tr & Htr & Hep & _)
    end.
    exists tr. split; [ exact Htr | exact Hep ].
Defined.

(** ** The endpoint in HTTP/3 mode *)

(** X14.  In HTTP/3 mode, a server without endpoint override resolves its
    endpoint from the address of its QUIC listener, whether that listener
    was supplied or has just been bound: the host:port is what
    [host.Extract] makes of the configured address and the listener's
    [Addr()], the scheme follows the TLS configuration, and a failing
    extraction is returned and stored without a URL. *)
Theorem Endpoint_http3_follows_the_listener :
  forall (env : Env) (st : St) (l : QUICEarlyListener),
    enableHttp3 (srv st) = true ->
    endpoint (srv st) = None ->
    http3Lis (srv (snd (runState (Srv.Endpoint env) st))) = Some l ->
    let r := runState (Srv.Endpoint env) st in
    match host_Extract env (address (srv st)) (Some (Addr l)) with
    | inl hostport =>
        endpoint (srv (snd r))
        = Some (endpoint_NewEndpoint
                  (endpoint_Scheme "http" (isSome (tlsConf (srv st))))
                  hostport)
    | inr e =>
        fst r = (None, Some e)
        /\ endpoint (srv (snd r)) = None
        /\ err (srv (snd r)) = Some e
    end.
Proof.
  intros env st l Hmode He. cbn zeta.
  rewrite Endpoint_run, listenAndEndpoint_run.
  pose proof (bindListener_fields env st) as (Hbe & Hbt & Hba & Hbm).
  cbn zeta in Hbe, Hbt, Hba, Hbm.
  pose proof (bindListener_active env st) as Hact.
  destruct (runState (Srv.bindListener env) st) as [[e|] st1];
    cbn [fst snd] in *.
  - unfold activeListener in Hact. rewrite Hbm, Hmode in Hact.
    intro Hl. rewrite Hl in Hact. discriminate.
  - pose proof (@handleEndpoint_listeners env _ _ (http3Lis (srv st1)) st1)
      as [_ Hl1]. cbn zeta in Hl1.
    rewrite handleEndpoint_run in *. rewrite Hbe, He, Hba, Hbt in *.
    destruct (http3Lis (srv st1)) as [l1|] eqn:Hq.
    + cbn [option_map] in *.
      destruct (host_Extract env (address (srv st)) (Some (Addr l1)))
        as [a|e] eqn:Hx; cbn [fst snd srv] in *.
      * intro Hl.
        assert (l1 = l) as ->.
        { destruct (err _) in Hl; cbn in Hl; congruence. }
        rewrite Hx. destruct (err _); reflexivity.
      * intro Hl. cbn in Hl. rewrite Hq in Hl. injection Hl as ->.
        rewrite Hx. repeat split. cbn. first [ exact Hbe | rewrite Hbe; exact He ].
    + cbn [option_map] in *.
      destruct (host_Extract env (address (srv st)) None) as [a|e];
        cbn [fst snd srv]; intro Hl.
      * destruct (err _) in Hl; cbn in Hl; congruence.
      * cbn in Hl. congruence.
Qed.

(** The HTTP/3 server with TLS on a machine where the QUIC listener is
    bound on port 50443. *)
Lemma Endpoint_http3_follows_the_listener_witness :
  let st := fresh [EnableHTTP3; TLSConfig (Some Sample.cert)] in
  endpoint (srv (snd (runState (Srv.Endpoint Sample.good) st)))
  = Some (endpoint_NewEndpoint "https" "192.168.1.10:50443").
Proof.
  exact (Endpoint_http3_follows_the_listener Sample.good
           (fresh [EnableHTTP3; TLSConfig (Some Sample.cert)])
           (l := Sample.quicLis) eq_refl eq_refl
           ltac:(vm_compute; reflexivity)).
Defined.

(** ** Requests that match no route *)

(** X15.  On a server built by [NewServer] and used through its methods, a
    request that matches no route, or a route but for its method, is
    handed to [http.DefaultServeMux] directly, without the wrapper: no
    context is derived, no Transport Context is attached, and the request
    that the handler receives is the incoming one with a nil route and nil
    variables in its context, hence with the same deadline and the same
    Transport Context, if any, as the incoming one. *)
Theorem missed_request_bypasses_the_wrapper :
  forall (engine : Engine) (env : Env) (opts : list ServerOption)
         (ops : list Op) (now : Time) (w : ResponseWriter) (req : Request),
    let s := srv (execAll env ops (fresh opts)) in
    cleanPath engine (Request_Path req) = Request_Path req ->
    (forall rt : mux.Route,
        mux_Match (accepts engine) (wrongMethod engine) (router s) req
        <> Matched rt) ->
    mux_ServeHTTP engine env s now w req
    = (EvHandler http.DefaultServeMux w (missedRequest req)
         :: fst (serve engine http.DefaultServeMux w (missedRequest req)),
       snd (serve engine http.DefaultServeMux w (missedRequest req)))
    /\ (forall key : ctxKey,
           key <> routeKey -> key <> varsKey ->
           context.lookup (Request_Context (missedRequest req)) key
           = context.lookup (Request_Context req) key)
    /\ transport.FromServerContext (Request_Context (missedRequest req))
       = transport.FromServerContext (Request_Context req)
    /\ context.Deadline (Request_Context (missedRequest req))
       = context.Deadline (Request_Context req)
    /\ mux_CurrentRoute (missedRequest req) = None.
Proof.
  intros engine env opts ops now w req s Hclean Hm.
  assert (Hh : missHandlers s
               = (Some http.DefaultServeMux, Some http.DefaultServeMux)).
  { subst s. rewrite execAll_missHandlers, fresh_srv.
    apply NewServer_missHandlers. }
  rewrite (@mux_ServeHTTP_missed engine env s now w req _ Hh Hclean Hm).
  split.
  - unfold callHandler.
    destruct (serve engine http.DefaultServeMux w (missedRequest req));
      reflexivity.
  - split; [ intros key Hr Hv; now apply missedRequest_Context | ].
    unfold transport.FromServerContext.
    rewrite missedRequest_Context by discriminate.
    destruct req as [m p h c]. repeat split.
Qed.

(** The server with the route /index/{id}, asked for /missing at a time
    when the timeout of one second would apply. *)
Lemma missed_request_bypasses_the_wrapper_witness :
  let s := srv (execAll Sample.good
                  [OpHandleFunc "/index/{id}" (http.HandlerFunc "h")]
                  (fresh [])) in
  let w := {| rw_Header := [] |} in
  let req := mkRequest "GET" "/missing" [] Background in
  mux_ServeHTTP Sample.engine Sample.good s 0 w req
  = ([EvHandler http.DefaultServeMux w (missedRequest req);
      EvApp "404 page not found"], Returned)
  /\ context.Deadline (Request_Context (missedRequest req)) = None.
Proof.
  cbn zeta.
  destruct (missed_request_bypasses_the_wrapper Sample.engine Sample.good []
              [OpHandleFunc "/index/{id}" (http.HandlerFunc "h")] 0
              {| rw_Header := [] |} (mkRequest "GET" "/missing" [] Background)
              eq_refl ltac:(intro rt; vm_compute; discriminate))
    as (Hrun & _ & _ & Hd & _).
  split; [ exact Hrun | ]. rewrite Hd. reflexivity.
Defined.
